(** * JEEVibe IIDP engine: a shallow embedding of
    [docs/engine/iidp_implementation_v4_CALIBRATED.py]

    Conventions of the embedding.
    - Python [float] values are idealised as real numbers ([R]); [math.exp]
      is the real exponential.  Python [int] values are [Z].
    - Python exceptions are values of [exn]; a computation that can raise
      returns a [result].
    - Dictionaries keep their insertion order, so they are association
      lists ([dict]).
    - The Firestore database, the random generator and the clock are an
      explicit state ([World]) threaded by the monad [M].
    - A Firestore [stream()] is a one-shot generator: what one loop has
      consumed is gone for the next one ([Stream]). *)

From Stdlib Require Import Reals Lra Lia ZArith List String Bool Permutation.
From Stdlib Require Import DecimalString Sorting.Sorted.
Import ListNotations.

Open Scope R_scope.

(* ====================================================================== *)
(** * Python runtime                                                        *)
(* ====================================================================== *)

Module Py.

(** The exceptions the engine can meet.  [OutOfFuel] is not a Python
    exception: it marks a bounded [while] loop that would need more
    iterations than it was given. *)
Inductive exn : Type :=
| ZeroDivisionError
| ValueError
| KeyError
| TypeError
| IndexError
| AttributeError
| NotFound
| OutOfFuel.

Inductive result (A : Type) : Type :=
| Ok (a : A)
| Raise (e : exn).
Arguments Ok {A} a.
Arguments Raise {A} e.

Definition rbind {A B} (r : result A) (k : A -> result B) : result B :=
  match r with
  | Ok a => k a
  | Raise e => Raise e
  end.

(** Comparisons of floats, as booleans. *)
Definition Rleb (x y : R) : bool := if Rle_dec x y then true else false.
Definition Rltb (x y : R) : bool := if Rlt_dec x y then true else false.
Definition Reqb (x y : R) : bool := if Req_dec_T x y then true else false.

(** [x / y] on floats raises on a zero divisor. *)
Definition truediv (x y : R) : result R :=
  if Reqb y 0 then Raise ZeroDivisionError else Ok (x / y).

(** [math.sqrt] raises [ValueError] on a negative argument. *)
Definition math_sqrt (x : R) : result R :=
  if Rltb x 0 then Raise ValueError else Ok (sqrt x).

(** Two-argument [max] and [min]. *)
Definition max2 (x y : R) : R := Rmax x y.
Definition min2 (x y : R) : R := Rmin x y.

(** Insertion-ordered dictionary with string keys. *)
Definition dict (V : Type) : Type := list (string * V).

Fixpoint dict_get {V} (d : dict V) (k : string) : option V :=
  match d with
  | [] => None
  | (k', v) :: d' => if String.eqb k k' then Some v else dict_get d' k
  end.

Definition dict_get_default {V} (d : dict V) (k : string) (dflt : V) : V :=
  match dict_get d k with
  | Some v => v
  | None => dflt
  end.

Definition dict_mem {V} (d : dict V) (k : string) : bool :=
  match dict_get d k with
  | Some _ => true
  | None => false
  end.

(** [d[k] = v]: replaces in place, or appends a new key at the end. *)
Fixpoint dict_set {V} (d : dict V) (k : string) (v : V) : dict V :=
  match d with
  | [] => [(k, v)]
  | (k', v') :: d' =>
      if String.eqb k k' then (k, v) :: d' else (k', v') :: dict_set d' k v
  end.

Definition dict_keys {V} (d : dict V) : list string := map fst d.

(** [x in l] for a list of strings. *)
Fixpoint str_in (x : string) (l : list string) : bool :=
  match l with
  | [] => false
  | y :: l' => if String.eqb x y then true else str_in x l'
  end.

(** [l.remove(x)]: drops the first occurrence. *)
Fixpoint list_remove (x : string) (l : list string) : list string :=
  match l with
  | [] => []
  | y :: l' => if String.eqb x y then l' else y :: list_remove x l'
  end.

(** [sorted(l, key=key)]: a stable sort, ascending in the key. *)
Fixpoint insert_by {A} (key : A -> R) (x : A) (l : list A) : list A :=
  match l with
  | [] => [x]
  | y :: l' => if Rltb (key x) (key y) then x :: y :: l'
               else y :: insert_by key x l'
  end.

Definition sorted_by {A} (key : A -> R) (l : list A) : list A :=
  fold_left (fun acc x => insert_by key x acc) l [].

(** [sorted(l, key=key, reverse=True)]: stable, descending in the key. *)
Fixpoint insert_by_desc {A} (key : A -> R) (x : A) (l : list A) : list A :=
  match l with
  | [] => [x]
  | y :: l' => if Rltb (key y) (key x) then x :: y :: l'
               else y :: insert_by_desc key x l'
  end.

Definition sorted_by_desc {A} (key : A -> R) (l : list A) : list A :=
  fold_left (fun acc x => insert_by_desc key x acc) l [].

(** [max(l, key=...)] on a non-empty list: the first maximal element;
    [lt] compares the keys of two elements. *)
Fixpoint max_from {A} (lt : A -> A -> bool) (best : A) (l : list A) : A :=
match l with
| [] => best
| x :: l' => if lt best x then max_from lt x l' else max_from lt best l'
end.

Definition max_with {A} (lt : A -> A -> bool) (l : list A) : result A :=
match l with
| [] => Raise ValueError
| x :: l' => Ok (max_from lt x l')
end.

Definition max_by {A} (key : A -> R) (l : list A) : result A :=
max_with (fun x y => Rltb (key x) (key y)) l.

(** Firestore [order_by(field, DESCENDING)] on an integer field; documents
    with equal keys keep their stored order. *)
Fixpoint insert_desc_Z {A} (key : A -> Z) (x : A) (l : list A) : list A :=
match l with
| [] => [x]
| y :: l' => if (key y <? key x)%Z then x :: y :: l'
             else y :: insert_desc_Z key x l'
end.

Definition order_by_desc {A} (key : A -> Z) (l : list A) : list A :=
fold_left (fun acc x => insert_desc_Z key x acc) l [].

(** [l[-1]] when [l] is not empty. *)
Definition last_item {A} (l : list A) : option A := hd_error (rev l).

(** [l[:n]] for an integer [n]: a negative bound counts from the end. *)
Definition slice_to {A} (n : Z) (l : list A) : list A :=
if (0 <=? n)%Z then firstn (Z.to_nat n) l
else firstn (List.length l - Z.to_nat (- n)) l.

(** [int(x)] on a float: truncation towards zero. *)
Definition int_of_float (x : R) : Z :=
if Rltb x 0 then (- Int_part (- x))%Z else Int_part x.

(** [l[-n:]] *)
Definition last_n {A} (n : nat) (l : list A) : list A :=
  skipn (List.length l - n) l.

End Py.
Import Py.

(* ====================================================================== *)
(** * Configuration constants                                               *)
(* ====================================================================== *)

Definition THETA_MIN : R := -3.
Definition THETA_MAX : R := 3.
Definition BASE_LEARNING_RATE : R := 3 / 10.
Definition LEARNING_RATE_DECAY : R := 2 / 100.
Definition SE_REDUCTION_RATE : R := 95 / 100.
Definition SE_FLOOR : R := 1 / 10.
Definition SE_CEILING : R := 6 / 10.
Definition EXPLORATION_END_QUIZ : Z := 14.
Definition EXPLORATION_START_RATIO : R := 6 / 10.
Definition EXPLORATION_END_RATIO : R := 3 / 10.
Definition QUIZ_LENGTH : Z := 10.
Definition WEAK_TOPIC_COUNT_EXPLOITATION : Z := 7.
Definition MAINTENANCE_COUNT_EXPLOITATION : nat := 2.
Definition REVIEW_COUNT : Z := 1.
Definition OPTIMAL_DIFFICULTY_RANGE : R := 5 / 10.
Definition EXPLORATION_TARGET_DIFFICULTY : R := 9 / 10.
Definition RECENT_QUESTIONS_WINDOW_DAYS : Z := 30.
Definition CIRCUIT_BREAKER_THRESHOLD : nat := 5.
Definition RECOVERY_QUIZ_EASY_COUNT : nat := 7.
Definition RECOVERY_QUIZ_MEDIUM_COUNT : nat := 2.
Definition RECOVERY_QUIZ_REVIEW_COUNT : nat := 1.
Definition RECOVERY_EASY_MIN : R := 4 / 10.
Definition RECOVERY_EASY_MAX : R := 7 / 10.
Definition RECOVERY_MEDIUM_MIN : R := 8 / 10.
Definition RECOVERY_MEDIUM_MAX : R := 11 / 10.

(* ====================================================================== *)
(** * Core IRT functions                                                    *)
(* ====================================================================== *)

Module IRT.

(** [calculate_probability_3PL]: the divisor [1 + exp(exponent)] is
    positive, so the division cannot raise. *)
Definition calculate_probability_3PL
           (theta difficulty_b discrimination_a guessing_c : R) : R :=
  let exponent := - discrimination_a * (theta - difficulty_b) in
  if Rltb 20 exponent then guessing_c
  else if Rltb exponent (-20) then 1
  else
    let probability :=
      guessing_c + (1 - guessing_c) / (1 + exp exponent) in
    max2 0 (min2 1 probability).

(** [calculate_fisher_information]: [(1 + exp_val) ** 2] is positive and
    [P * Q] is only divided by when [0.01 < P < 0.99]. *)
Definition calculate_fisher_information
           (theta difficulty_b discrimination_a guessing_c : R) : R :=
  let P :=
    calculate_probability_3PL theta difficulty_b discrimination_a guessing_c in
  let exponent := - discrimination_a * (theta - difficulty_b) in
  if Rltb 20 (Rabs exponent) then 0
  else
    let exp_val := exp exponent in
    let denominator := (1 + exp_val) ^ 2 in
    let P_prime :=
      discrimination_a * (1 - guessing_c) * exp_val / denominator in
    let Q := 1 - P in
    if Rltb (1 / 100) P && Rltb P (99 / 100)
    then (discrimination_a ^ 2) * (P_prime ^ 2) / (P * Q)
    else 0.

Definition bound_theta (theta : R) : R :=
  max2 THETA_MIN (min2 THETA_MAX theta).

End IRT.
Import IRT.

(* ====================================================================== *)
(** * Initial assessment                                                    *)
(* ====================================================================== *)

Definition accuracy_to_theta_mapping (accuracy : R) (num_questions : Z) : R :=
  if Reqb accuracy 1 then (if (5 <=? num_questions)%Z then 2 else 15 / 10)
  else if Reqb accuracy 0 then (if (5 <=? num_questions)%Z then -2 else - (15 / 10))
  else if Rltb accuracy (20 / 100) then - (25 / 10)
  else if Rltb accuracy (40 / 100) then - (15 / 10)
  else if Rltb accuracy (60 / 100) then - (5 / 10)
  else if Rltb accuracy (75 / 100) then 5 / 10
  else if Rltb accuracy (90 / 100) then 15 / 10
  else 25 / 10.

Definition calculate_initial_SE (num_questions : Z) (accuracy : R) : result R :=
  rbind (math_sqrt (IZR num_questions)) (fun root =>
  rbind (truediv 1 root) (fun base_SE =>
  let information_penalty := 1 + Rabs (accuracy - 5 / 10) in
  let SE := base_SE * information_penalty in
  Ok (min2 SE_CEILING (max2 SE_FLOOR SE)))).


(* ====================================================================== *)
(** * Data model: the documents the engine reads and writes                 *)
(* ====================================================================== *)

(** Time stamps are seconds since the epoch; comparing ISO strings of one
    format is comparing the instants. *)
Definition SECONDS_PER_DAY : Z := 86400.

(** [timedelta(days=n)] subtracted from an instant. *)
Definition minus_days (t : Z) (n : Z) : Z := (t - n * SECONDS_PER_DAY)%Z.

(** [(t1 - t0).days]: whole days, rounded down. *)
Definition timedelta_days (t1 t0 : Z) : Z := ((t1 - t0) / SECONDS_PER_DAY)%Z.

Record IRTParameters : Type := {
  difficulty_b : R;
  discrimination_a : R;
  guessing_c : R
}.

(** A document of the [questions] collection; only the fields the engine
    reads are kept. *)
Record Question : Type := {
  question_id : string;
  topic : string;
  irt_parameters : IRTParameters
}.

(** An entry of [theta_by_topic]. *)
Record TopicTheta : Type := {
  theta : R;
  percentile : R;
  confidence_SE : R;
  attempts : Z;
  accuracy : option R;
  last_updated : option Z
}.

(** A document of [student_responses/<student>/responses]. *)
Record Response : Type := {
  response_id : string;
  r_question_id : string;
  r_topic : string;
  is_correct : bool;
  time_taken_seconds : Z;
  theta_before : R;
  theta_after : R;
  theta_delta : R;
  confidence_SE_before : R;
  confidence_SE_after : R;
  answered_at : Z
}.

(** A document of the [students] collection. *)
Record StudentData : Type := {
  theta_by_topic : dict TopicTheta;
  overall_theta : option R;
  assessment_completed_at : Z;
  completed_quiz_count : option Z;
  learning_phase : string;
  phase_switched_at_quiz : option Z;
  total_questions_solved : Z;
  topic_attempt_counts : dict Z;
  subject_balance : dict R;
  last_quiz_completed_at : option Z
}.

Record QuizEntry : Type := {
  e_question_id : string;
  e_topic : string;
  e_difficulty_b : R;
  position : Z
}.

(** A document of [quizzes/<student>/quizzes]. *)
Record QuizData : Type := {
  quiz_id : string;
  quiz_number : Z;
  current_day : Z;
  quiz_learning_phase : string;
  generated_at : Z;
  quiz_questions : list QuizEntry;
  topics_covered : list string
}.

(** A document of [system_events]. *)
Record Event : Type := {
  ev_student_id : string;
  event_type : string;
  trigger_reason : string;
  recovery_quiz_generated : bool;
  timestamp : Z
}.

(** The database, the random generator and the clock. *)
Record World : Type := {
  questions : list Question;
  students : dict StudentData;
  student_responses : dict (list Response);
  quizzes : dict (dict QuizData);
  system_events : list Event;
  rng : list nat;
  utcnow : Z
}.

Definition set_questions (w : World) (q : list Question) : World :=
  {| questions := q; students := students w;
     student_responses := student_responses w; quizzes := quizzes w;
     system_events := system_events w; rng := rng w; utcnow := utcnow w |}.

Definition set_students (w : World) (s : dict StudentData) : World :=
  {| questions := questions w; students := s;
     student_responses := student_responses w; quizzes := quizzes w;
     system_events := system_events w; rng := rng w; utcnow := utcnow w |}.

Definition set_student_responses (w : World) (r : dict (list Response)) : World :=
  {| questions := questions w; students := students w;
     student_responses := r; quizzes := quizzes w;
     system_events := system_events w; rng := rng w; utcnow := utcnow w |}.

Definition set_quizzes (w : World) (q : dict (dict QuizData)) : World :=
  {| questions := questions w; students := students w;
     student_responses := student_responses w; quizzes := q;
     system_events := system_events w; rng := rng w; utcnow := utcnow w |}.

Definition set_system_events (w : World) (e : list Event) : World :=
  {| questions := questions w; students := students w;
     student_responses := student_responses w; quizzes := quizzes w;
     system_events := e; rng := rng w; utcnow := utcnow w |}.

Definition set_rng (w : World) (g : list nat) : World :=
  {| questions := questions w; students := students w;
     student_responses := student_responses w; quizzes := quizzes w;
     system_events := system_events w; rng := g; utcnow := utcnow w |}.

Definition set_utcnow (w : World) (t : Z) : World :=
  {| questions := questions w; students := students w;
     student_responses := student_responses w; quizzes := quizzes w;
     system_events := system_events w; rng := rng w; utcnow := t |}.

(** ** The monad of the engine: a world in, a result and a world out.
    A raised exception keeps the writes made before it. *)

Definition M (A : Type) : Type := World -> result A * World.

Definition ret {A} (a : A) : M A := fun w => (Ok a, w).

Definition bind {A B} (m : M A) (k : A -> M B) : M B :=
  fun w => match m w with
           | (Ok a, w') => k a w'
           | (Raise e, w') => (Raise e, w')
           end.

Definition raise {A} (e : exn) : M A := fun w => (Raise e, w).

Definition lift {A} (r : result A) : M A := fun w => (r, w).

Definition get_world : M World := fun w => (Ok w, w).

Definition modify (f : World -> World) : M unit := fun w => (Ok tt, f w).

Declare Scope engine_scope.
Delimit Scope engine_scope with engine.
Notation "x <- m ;; k" := (bind m (fun x => k))
  (at level 61, m at next level, right associativity) : engine_scope.
Notation "m ;;; k" := (bind m (fun _ => k))
  (at level 61, right associativity) : engine_scope.
Open Scope engine_scope.

(** ** Random generator: each draw consumes one number of the supply. *)

Definition draw : M nat :=
  fun w => match rng w with
           | [] => (Ok 0%nat, w)
           | r :: g => (Ok r, set_rng w g)
           end.

(** [random.choice(l)] *)
Definition random_choice {A} (l : list A) : M A :=
  r <- draw ;;
  match nth_error l (r mod List.length l) with
  | Some x => ret x
  | None => raise IndexError
  end.

Fixpoint remove_nth {A} (i : nat) (l : list A) : list A :=
  match l, i with
  | [], _ => []
  | _ :: l', O => l'
  | x :: l', S i' => x :: remove_nth i' l'
  end.

(** [random.sample(l, k)]: [k] draws without replacement; a sample larger
    than the population is refused. *)
Fixpoint sample_draws {A} (l : list A) (k : nat) : M (list A) :=
  match k with
  | O => ret []
  | S k' =>
      r <- draw ;;
      let i := (r mod List.length l)%nat in
      match nth_error l i with
      | Some x =>
          rest <- sample_draws (remove_nth i l) k' ;;
          ret (x :: rest)
      | None => raise ValueError
      end
  end.

Definition random_sample {A} (l : list A) (k : nat) : M (list A) :=
  if (List.length l <? k)%nat then raise ValueError else sample_draws l k.

(** ** Firestore streams: a generator is consumed once. *)

Definition Stream (A : Type) : Type := list A.

(** Iterating a generator to its end hands out every pending document and
    leaves the generator empty. *)
Definition iterate {A} (s : Stream A) : list A * Stream A := (s, []).

(** Decimal rendering of an integer, for identifiers built by f-strings. *)
Definition str_of_Z (z : Z) : string := NilZero.string_of_int (Z.to_int z).

(** [list.append] *)
Definition append {A} (l : list A) (x : A) : list A := l ++ [x].

(** [sum(l)] on floats. *)
Definition py_sum (l : list R) : R := fold_left Rplus l 0.

(** [topic.startswith(...)] cascade. *)
Definition get_subject_from_topic (topic : string) : string :=
  if String.prefix "physics_" topic then "physics"%string
  else if String.prefix "chemistry_" topic then "chemistry"%string
  else if String.prefix "mathematics_" topic then "mathematics"%string
  else "unknown"%string.

(** [db.collection('questions').document(id).get().to_dict()]:
    [None] when there is no such document. *)
Definition get_question (w : World) (qid : string) : option Question :=
  find (fun q => String.eqb (question_id q) qid) (questions w).

(** [db.collection('students').document(id).get().to_dict()] *)
Definition get_student (w : World) (student_id : string) : option StudentData :=
  dict_get (students w) student_id.

(** The [responses] sub-collection of a student, in insertion order. *)
Definition responses_of (w : World) (student_id : string) : list Response :=
  dict_get_default (student_responses w) student_id [].

(** [db.collection('students').document(id).update(...)]: rewrites the
    stored document; there must be one. *)
Definition update_student (student_id : string)
           (f : StudentData -> StudentData) : M unit :=
  fun w => match get_student w student_id with
           | Some s =>
               (Ok tt, set_students w (dict_set (students w) student_id (f s)))
           | None => (Raise NotFound, w)
           end.

(** [....collection('responses').add(response_data)] *)
Definition add_response (student_id : string) (r : Response) : M unit :=
  modify (fun w =>
            set_student_responses w
              (dict_set (student_responses w) student_id
                        (append (responses_of w student_id) r))).

(* ====================================================================== *)
(** * Theta update after each question                                      *)
(* ====================================================================== *)

(** The expected probability, the learning rate and the signed step of
    [update_theta_after_response]. *)
Definition response_delta
           (current_theta : R) (n : Z) (irt : IRTParameters) (correct : bool)
  : result R :=
  let P_correct :=
    calculate_probability_3PL current_theta (difficulty_b irt)
                              (discrimination_a irt) (guessing_c irt) in
  rbind (truediv BASE_LEARNING_RATE (1 + LEARNING_RATE_DECAY * IZR n))
        (fun learning_rate =>
  Ok (if correct then learning_rate * (1 - P_correct)
      else - learning_rate * P_correct)).

Section ThetaUpdate.

(** [scipy.stats.norm.cdf], an external library function. *)
Variable norm_cdf : R -> R.

Definition theta_to_percentile (th : R) : R := norm_cdf th * 100.

Definition get_theta_for_untested_topic
           (student_id tp : string) (student_data : StudentData)
  : result TopicTheta :=
  let subject := get_subject_from_topic tp in
  let subject_topics :=
    filter (fun t => String.eqb (get_subject_from_topic t) subject)
           (dict_keys (theta_by_topic student_data)) in
  rbind
    (if (0 <? List.length subject_topics)%nat then
       rbind
         (fold_right
            (fun t acc =>
               rbind acc (fun l =>
               match dict_get (theta_by_topic student_data) t with
               | Some e => Ok (theta e :: l)
               | None => Raise KeyError
               end))
            (Ok []) subject_topics)
         (fun subject_thetas =>
            truediv (py_sum subject_thetas)
                    (INR (List.length subject_thetas)))
     else
       Ok (match overall_theta student_data with
           | Some t => t
           | None => 0
           end))
    (fun estimated_theta =>
       Ok {| theta := estimated_theta;
             percentile := theta_to_percentile estimated_theta;
             confidence_SE := SE_CEILING;
             attempts := 0;
             accuracy := None;
             last_updated := None |}).

(** The arithmetic of one update: the new entry of [theta_by_topic] and
    the [delta] that is logged with the response. *)
Definition updated_topic_theta
           (topic_theta : TopicTheta) (irt : IRTParameters)
           (correct : bool) (now : Z) : result (TopicTheta * R) :=
  let current_theta := theta topic_theta in
  let current_SE := confidence_SE topic_theta in
  let n := attempts topic_theta in
  rbind (response_delta current_theta n irt correct) (fun delta =>
  let new_theta := bound_theta (current_theta + delta) in
  let new_SE := max2 SE_FLOOR (current_SE * SE_REDUCTION_RATE) in
  rbind
    (match accuracy topic_theta with
     | Some old_accuracy =>
         truediv (old_accuracy * IZR n + (if correct then 1 else 0))
                 (IZR (n + 1))
     | None => Ok (if correct then 1 else 0)
     end)
    (fun new_accuracy =>
       Ok ({| theta := new_theta;
              percentile := theta_to_percentile new_theta;
              confidence_SE := new_SE;
              attempts := n + 1;
              accuracy := Some new_accuracy;
              last_updated := Some now |}, delta))).

(** [student_ref.update] of the three fields written by an update. *)
Definition write_topic_theta
           (tp : string) (t : TopicTheta) (student_data : StudentData)
  : StudentData :=
  {| theta_by_topic := dict_set (theta_by_topic student_data) tp t;
     overall_theta := overall_theta student_data;
     assessment_completed_at := assessment_completed_at student_data;
     completed_quiz_count := completed_quiz_count student_data;
     learning_phase := learning_phase student_data;
     phase_switched_at_quiz := phase_switched_at_quiz student_data;
     total_questions_solved := (total_questions_solved student_data + 1)%Z;
     topic_attempt_counts :=
       dict_set (topic_attempt_counts student_data) tp
                (dict_get_default (topic_attempt_counts student_data) tp 0 + 1)%Z;
     subject_balance := subject_balance student_data;
     last_quiz_completed_at := last_quiz_completed_at student_data |}.

Definition update_theta_after_response
           (student_id qid : string) (correct : bool) (time_taken : Z)
  : M R :=
  w <- get_world ;;
  match get_question w qid with
  | None => raise TypeError
  | Some question_data =>
      let tp := topic question_data in
      let irt_params := irt_parameters question_data in
      match get_student w student_id with
      | None => raise TypeError
      | Some student_data =>
          topic_theta <-
            (match dict_get (theta_by_topic student_data) tp with
             | None => lift (get_theta_for_untested_topic
                               student_id tp student_data)
             | Some t => ret t
             end) ;;
          upd <- lift (updated_topic_theta topic_theta irt_params correct
                                           (utcnow w)) ;;
          let new_topic_theta := fst upd in
          let delta := snd upd in
          update_student student_id (write_topic_theta tp new_topic_theta) ;;;
          let response_data :=
            {| response_id :=
                 ("resp_" ++ student_id ++ "_" ++ qid ++ "_"
                          ++ str_of_Z (utcnow w))%string;
               r_question_id := qid;
               r_topic := tp;
               is_correct := correct;
               time_taken_seconds := time_taken;
               theta_before := theta topic_theta;
               theta_after := theta new_topic_theta;
               theta_delta := delta;
               confidence_SE_before := confidence_SE topic_theta;
               confidence_SE_after := confidence_SE new_topic_theta;
               answered_at := utcnow w |} in
          add_response student_id response_data ;;;
          ret (theta new_topic_theta)
      end
  end.

(** Runs of the ability store: any number of calls of
    [update_theta_after_response], for any students and questions, with
    the clock moving in between. *)
Inductive update_run : World -> World -> Prop :=
| run_start (w : World) : update_run w w
| run_tick (w w' : World) (t : Z) :
    update_run w w' -> update_run w (set_utcnow w' t)
| run_update (w w' : World) (student_id qid : string)
             (correct : bool) (time_taken : Z) :
    update_run w w' ->
    update_run w
      (snd (update_theta_after_response student_id qid correct time_taken w')).

End ThetaUpdate.

(** The stored ability of a student on a topic, if any. *)
Definition topic_entry (w : World) (student_id tp : string) : option TopicTheta :=
  match get_student w student_id with
  | Some s => dict_get (theta_by_topic s) tp
  | None => None
  end.

(** The bounds of the data model on an ability record. *)
Definition theta_in_bounds (t : TopicTheta) : Prop :=
  THETA_MIN <= theta t <= THETA_MAX
  /\ SE_FLOOR <= confidence_SE t <= SE_CEILING.

(* ====================================================================== *)
(** * Circuit breaker                                                       *)
(* ====================================================================== *)

(** The counting loop of [check_circuit_breaker], with its [break]. *)
Fixpoint count_failures (responses_list : list Response)
         (consecutive_failures : nat) : nat :=
  match responses_list with
  | [] => consecutive_failures
  | response :: rest =>
      if negb (is_correct response)
      then count_failures rest (consecutive_failures + 1)
      else consecutive_failures
  end.

Definition check_circuit_breaker (w : World) (student_id : string) : bool :=
  let recent_responses :=
    firstn 10 (order_by_desc answered_at (responses_of w student_id)) in
  let responses_list := recent_responses in
  if (List.length responses_list <? CIRCUIT_BREAKER_THRESHOLD)%nat then false
  else
    let consecutive_failures := count_failures responses_list 0 in
    (CIRCUIT_BREAKER_THRESHOLD <=? consecutive_failures)%nat.

(* ====================================================================== *)
(** * Helpers of quiz generation                                            *)
(* ====================================================================== *)

Definition get_recent_questions (w : World) (student_id : string) (days : Z)
  : list string :=
  let cutoff := minus_days (utcnow w) days in
  map r_question_id
      (filter (fun r => (cutoff <=? answered_at r)%Z)
              (responses_of w student_id)).

(** [db.collection('questions').where('topic', '==', topic).stream()] *)
Definition questions_of_topic (w : World) (tp : string) : Stream Question :=
  filter (fun q => String.eqb (topic q) tp) (questions w).

(** The three filters of the candidate loop, each a [continue]. *)
Definition passes_strict_filter
           (target_theta : R) (recent_questions : list string)
           (discrimination_min : R) (q_data : Question) : bool :=
  let irt := irt_parameters q_data in
  negb (str_in (question_id q_data) recent_questions)
  && negb (Rltb (discrimination_a irt) discrimination_min)
  && negb (Rltb OPTIMAL_DIFFICULTY_RANGE
                (Rabs (difficulty_b irt - target_theta))).

(** The condition of the relaxation comprehension. *)
Definition passes_relaxed_filter
           (recent_questions : list string) (q : Question) : bool :=
  negb (str_in (question_id q) recent_questions).

Definition fisher_at (target_theta : R) (q_data : Question) : R :=
  let irt := irt_parameters q_data in
  calculate_fisher_information target_theta (difficulty_b irt)
                               (discrimination_a irt) (guessing_c irt).

Definition select_optimal_question_IRT
           (w : World) (tp : string) (target_theta : R)
           (recent_questions : list string) (discrimination_min : R)
  : result (option Question) :=
  let questions_query := questions_of_topic w tp in
  (* the [for q_doc in questions_query] loop runs the generator to its end *)
  let '(docs, questions_query) := iterate questions_query in
  let candidates :=
    filter (passes_strict_filter target_theta recent_questions
                                 discrimination_min)
           docs in
  (* the relaxation iterates the same generator once more *)
  let candidates :=
    if (List.length candidates =? 0)%nat then
      let '(docs', _) := iterate questions_query in
      filter (passes_relaxed_filter recent_questions) docs'
    else candidates in
  if (List.length candidates =? 0)%nat then Ok None
  else
    let scored :=
      map (fun q_data => (q_data, fisher_at target_theta q_data))
          candidates in
    rbind (max_by snd scored) (fun best => Ok (Some (fst best))).

(** ** Interleaving *)

Fixpoint group_by_topic (qs : list Question)
         (topic_groups : dict (list Question)) : dict (list Question) :=
  match qs with
  | [] => topic_groups
  | q :: rest =>
      let tp := topic q in
      let topic_groups :=
        if dict_mem topic_groups tp then topic_groups
        else dict_set topic_groups tp [] in
      group_by_topic rest
        (dict_set topic_groups tp
                  (append (dict_get_default topic_groups tp []) q))
  end.

(** The [while remaining_topics] loop; [fuel] bounds its iterations. *)
Fixpoint interleave_loop (fuel : nat)
         (topic_groups : dict (list Question))
         (remaining_topics : list string)
         (interleaved : list Question) : M (list Question) :=
  match remaining_topics with
  | [] => ret interleaved
  | _ :: _ =>
      match fuel with
      | O => raise OutOfFuel
      | S fuel' =>
          let available :=
            match last_item interleaved with
            | Some last_q =>
                filter (fun t => negb (String.eqb t (topic last_q)))
                       remaining_topics
            | None => remaining_topics
            end in
          let available :=
            if (List.length available =? 0)%nat then remaining_topics
            else available in
          next_topic <- random_choice available ;;
          match dict_get topic_groups next_topic with
          | None => raise KeyError
          | Some [] => raise IndexError
          | Some (q :: rest) =>
              let topic_groups := dict_set topic_groups next_topic rest in
              let interleaved := append interleaved q in
              let remaining_topics :=
                if (List.length rest =? 0)%nat
                then list_remove next_topic remaining_topics
                else remaining_topics in
              interleave_loop fuel' topic_groups remaining_topics interleaved
          end
      end
  end.

(** Every iteration emits one question, so [len(questions)] iterations
    are all the loop can make. *)
Definition interleave_questions_by_topic (qs : list Question)
  : M (list Question) :=
  let topic_groups := group_by_topic qs [] in
  let remaining_topics := dict_keys topic_groups in
  interleave_loop (List.length qs) topic_groups remaining_topics [].

(** ** Static topic tables *)

Definition JEE_TOPIC_WEIGHTS : dict R :=
  [ ("physics_mechanics_newtons_laws", 1);
    ("physics_mechanics_work_energy", 1);
    ("physics_mechanics_kinematics", 1);
    ("physics_mechanics_rotational", 1);
    ("physics_mechanics_gravitation", 6 / 10);
    ("physics_mechanics_shm", 6 / 10);
    ("physics_electrostatics_coulomb", 1);
    ("physics_current_electricity", 1);
    ("physics_magnetism_emi", 1);
    ("physics_ac_circuits", 6 / 10);
    ("physics_modern_photoelectric", 3 / 10);
    ("physics_modern_atoms", 3 / 10);
    ("chemistry_physical_thermodynamics", 1);
    ("chemistry_physical_equilibrium", 1);
    ("chemistry_physical_kinetics", 1);
    ("chemistry_physical_electrochemistry", 6 / 10);
    ("chemistry_organic_nomenclature", 6 / 10);
    ("chemistry_organic_reactions", 1);
    ("chemistry_organic_mechanisms", 6 / 10);
    ("chemistry_inorganic_coordination", 3 / 10);
    ("chemistry_inorganic_periodicity", 6 / 10);
    ("mathematics_calculus_limits", 1);
    ("mathematics_calculus_derivatives", 1);
    ("mathematics_calculus_integrals", 1);
    ("mathematics_calculus_differential_equations", 6 / 10);
    ("mathematics_algebra_quadratic", 6 / 10);
    ("mathematics_algebra_sequences", 6 / 10);
    ("mathematics_algebra_complex", 1);
    ("mathematics_coord_geom_circle", 1);
    ("mathematics_coord_geom_parabola", 6 / 10) ]%string.

Definition TOPIC_PREREQUISITE_DEPTH : dict Z :=
  [ ("physics_mechanics_kinematics", 0%Z);
    ("physics_mechanics_newtons_laws", 1%Z);
    ("physics_mechanics_work_energy", 2%Z);
    ("physics_mechanics_rotational", 3%Z) ]%string.

(** ** Topic ranking *)

Definition get_unexplored_topics (topic_attempts : dict Z) (min_attempts : Z)
  : list string :=
  let all_topics := dict_keys JEE_TOPIC_WEIGHTS in
  filter (fun tp =>
            (dict_get_default topic_attempts tp 0 <? min_attempts)%Z
            && negb (Rltb (dict_get_default JEE_TOPIC_WEIGHTS tp 0) (6 / 10)))
         all_topics.

Definition prioritize_exploration_topics
           (unexplored_topics : list string) (balance : dict R)
  : list string :=
  let scored_topics :=
    map (fun tp =>
           let weightage_score := dict_get_default JEE_TOPIC_WEIGHTS tp (5 / 10) / 1 in
           let prereq_depth := dict_get_default TOPIC_PREREQUISITE_DEPTH tp 1%Z in
           let prereq_score := 1 - IZR prereq_depth / 3 in
           let subject := get_subject_from_topic tp in
           let current_coverage := dict_get_default balance subject (33 / 100) in
           let target_coverage := 1 / 3 in
           let balance_score := 1 - Rabs (current_coverage - target_coverage) in
           let priority :=
             weightage_score * (5 / 10) + prereq_score * (3 / 10)
             + balance_score * (2 / 10) in
           (tp, priority))
        unexplored_topics in
  map fst (sorted_by_desc snd scored_topics).

(** Keys of a sort are computed first; a failing key aborts the sort. *)
Fixpoint keyed {A} (key : A -> result R) (l : list A) : result (list (A * R)) :=
  match l with
  | [] => Ok []
  | x :: l' =>
      rbind (key x) (fun k =>
      rbind (keyed key l') (fun rest => Ok ((x, k) :: rest)))
  end.

Definition theta_of (thetas : dict TopicTheta) (tp : string) : result R :=
  match dict_get thetas tp with
  | Some t => Ok (theta t)
  | None => Raise KeyError
  end.

Definition rank_topics_by_weakness (topics : list string)
           (thetas : dict TopicTheta) : result (list string) :=
  rbind (keyed (theta_of thetas) topics) (fun ks =>
  Ok (map fst (sorted_by snd ks))).

Definition days_since_last_attempt (w : World) (tp student_id : string) : Z :=
  let responses :=
    firstn 1 (order_by_desc answered_at
                (filter (fun r => String.eqb (r_topic r) tp)
                        (responses_of w student_id))) in
  match responses with
  | r :: _ => timedelta_days (utcnow w) (answered_at r)
  | [] => 999%Z
  end.

Definition rank_topics_by_priority_formula
           (w : World) (topics : list string) (thetas : dict TopicTheta)
           (topic_attempts : dict Z) (student_id : string)
  : result (list string) :=
  rbind
    (keyed (fun tp =>
              rbind (theta_of thetas tp) (fun th =>
              let normalized_theta := (th + 3) / 6 in
              let weakness_score := 1 - normalized_theta in
              let days_since := days_since_last_attempt w tp student_id in
              let recency_score := min2 1 (IZR days_since / 7) in
              let jee_weight := dict_get_default JEE_TOPIC_WEIGHTS tp (5 / 10) in
              Ok (weakness_score * (6 / 10) + recency_score * (2 / 10)
                  + jee_weight * (2 / 10))))
           topics)
    (fun scored_topics => Ok (map fst (sorted_by_desc snd scored_topics))).

(** ** Review selection *)

Definition review_priority (days_since : Z) : option Z :=
  if (30 <=? days_since)%Z then Some 5%Z
  else if (14 <=? days_since)%Z then Some 4%Z
  else if (7 <=? days_since)%Z then Some 3%Z
  else if (3 <=? days_since)%Z then Some 2%Z
  else if (1 <=? days_since)%Z then Some 1%Z
  else None.

(** Order of the pairs [(priority, days_since)]. *)
Definition pair_ltb (x y : Z * Z) : bool :=
  (fst x <? fst y)%Z || ((fst x =? fst y)%Z && (snd x <? snd y)%Z).

Definition get_spaced_review_question
           (w : World) (student_id : string) (recent_questions : list string)
  : result (option Question) :=
  let responses := filter is_correct (responses_of w student_id) in
  let reviewable :=
    filter (fun r => negb (str_in (r_question_id r) recent_questions))
           responses in
  if (List.length reviewable =? 0)%nat then Ok None
  else
    let now := utcnow w in
    let scored :=
      flat_map (fun response =>
                  let days_since := timedelta_days now (answered_at response) in
                  match review_priority days_since with
                  | Some priority =>
                      [(r_question_id response, (priority, days_since))]
                  | None => []
                  end)
               reviewable in
    if (List.length scored =? 0)%nat then Ok None
    else
      rbind (max_with (fun x y => pair_ltb (snd x) (snd y)) scored)
            (fun best => Ok (get_question w (fst best))).

(** ** Quiz metadata *)

Definition save_quiz_metadata
           (student_id qz_id : string) (quiz_count : Z)
           (phase : string) (qs : list Question) : M unit :=
  w <- get_world ;;
  match get_student w student_id with
  | None => raise TypeError
  | Some student_data =>
      let assessment_date := assessment_completed_at student_data in
      let day := timedelta_days (utcnow w) assessment_date in
      let quiz_data :=
        {| quiz_id := qz_id;
           quiz_number := quiz_count;
           current_day := day;
           quiz_learning_phase := phase;
           generated_at := utcnow w;
           quiz_questions :=
             map (fun iq =>
                    {| e_question_id := question_id (snd iq);
                       e_topic := topic (snd iq);
                       e_difficulty_b := difficulty_b (irt_parameters (snd iq));
                       position := Z.of_nat (fst iq) + 1 |})
                 (combine (seq 0 (List.length qs)) qs);
           topics_covered := nodup string_dec (map topic qs) |} in
      modify (fun w =>
                set_quizzes w
                  (dict_set (quizzes w) student_id
                     (dict_set (dict_get_default (quizzes w) student_id [])
                               qz_id quiz_data)))
  end.

(** [strftime('%Y-%m-%d_%H-%M')]: the instant to the minute; the calendar
    rendering is replaced by the decimal count of minutes. *)
Definition strftime_minutes (t : Z) : string := str_of_Z (t / 60)%Z.

(* ====================================================================== *)
(** * Recovery quiz                                                         *)
(* ====================================================================== *)

Definition select_questions_by_difficulty_range
           (tp : string) (difficulty_min difficulty_max : R) (count : nat)
           (recent_questions : list string) (discrimination_min : R)
  : M (list Question) :=
  w <- get_world ;;
  let qs : Stream Question :=
    filter (fun q =>
              String.eqb (topic q) tp
              && Rleb difficulty_min (difficulty_b (irt_parameters q))
              && Rleb (difficulty_b (irt_parameters q)) difficulty_max)
           (questions w) in
  let '(docs, _) := iterate qs in
  let candidates :=
    filter (fun q =>
              negb (str_in (question_id q) recent_questions)
              && Rleb discrimination_min (discrimination_a (irt_parameters q)))
           docs in
  let candidates :=
    if (List.length candidates =? 0)%nat then
      (* a new query, hence a new generator *)
      let qs' := questions_of_topic w tp in
      let '(docs', _) := iterate qs' in
      filter (fun q => negb (str_in (question_id q) recent_questions)) docs'
    else candidates in
  random_sample candidates (Nat.min count (List.length candidates)).

Definition get_previously_correct_question
           (student_id : string) (recent_questions : list string)
           (from_topics : list string) : M (option Question) :=
  w <- get_world ;;
  let cutoff_start := minus_days (utcnow w) 14 in
  let cutoff_end := minus_days (utcnow w) 7 in
  let responses :=
    filter (fun r => is_correct r
                     && (cutoff_start <=? answered_at r)%Z
                     && (answered_at r <=? cutoff_end)%Z)
           (responses_of w student_id) in
  let candidates :=
    filter (fun r => str_in (r_topic r) from_topics
                     && negb (str_in (r_question_id r) recent_questions))
           responses in
  if (List.length candidates =? 0)%nat then ret None
  else
    chosen <- random_choice candidates ;;
    ret (get_question w (r_question_id chosen)).

Definition log_circuit_breaker_event
           (student_id reason : string) (recovery : bool) : M unit :=
  modify (fun w =>
            set_system_events w
              (append (system_events w)
                 {| ev_student_id := student_id;
                    event_type := "circuit_breaker_triggered";
                    trigger_reason := reason;
                    recovery_quiz_generated := recovery;
                    timestamp := utcnow w |})).

(** A [for] loop whose body extends the list built so far. *)
Fixpoint extend_each {A B} (l : list A) (body : A -> M (list B))
         (acc : list B) : M (list B) :=
  match l with
  | [] => ret acc
  | x :: l' => r <- body x ;; extend_each l' body (acc ++ r)
  end.

Definition generate_recovery_quiz
           (student_id : string) (student_data : StudentData)
  : M (list Question) :=
  w <- get_world ;;
  let thetas := theta_by_topic student_data in
  let recent_questions :=
    get_recent_questions w student_id RECENT_QUESTIONS_WINDOW_DAYS in
  let weak_topics :=
    firstn 5 (sorted_by (fun x => theta (snd x)) thetas) in
  let recovery_questions := [] in
  recovery_questions <-
    extend_each (firstn 4 weak_topics)
      (fun x =>
         select_questions_by_difficulty_range
           (fst x) RECOVERY_EASY_MIN RECOVERY_EASY_MAX 2
           recent_questions 1)
      recovery_questions ;;
  recovery_questions <-
    extend_each (firstn 2 weak_topics)
      (fun x =>
         select_questions_by_difficulty_range
           (fst x) RECOVERY_MEDIUM_MIN RECOVERY_MEDIUM_MAX 1
           recent_questions 1)
      recovery_questions ;;
  review_question <-
    get_previously_correct_question student_id recent_questions
                                    (map fst weak_topics) ;;
  let recovery_questions :=
    match review_question with
    | Some q => append recovery_questions q
    | None => recovery_questions
    end in
  interleaved <- interleave_questions_by_topic (firstn 10 recovery_questions) ;;
  log_circuit_breaker_event student_id "consecutive_failures" true ;;;
  now <- (fun w => (Ok (utcnow w), w)) ;;
  let qz_id := ("recovery_quiz_" ++ strftime_minutes now)%string in
  let quiz_count :=
    match completed_quiz_count student_data with
    | Some n => n
    | None => 0%Z
    end in
  save_quiz_metadata student_id qz_id quiz_count "recovery" interleaved ;;;
  ret interleaved.

(* ====================================================================== *)
(** * Daily quiz generation                                                 *)
(* ====================================================================== *)

(** A [for] loop that appends what its body finds, if anything. *)
Fixpoint append_found {A B} (l : list A) (body : A -> result (option B))
         (acc : list B) : result (list B) :=
  match l with
  | [] => Ok acc
  | x :: l' =>
      rbind (body x) (fun found =>
      append_found l' body
        (match found with
         | Some b => append acc b
         | None => acc
         end))
  end.

Definition set_phase_switched (q : Z) (s : StudentData) : StudentData :=
  {| theta_by_topic := theta_by_topic s;
     overall_theta := overall_theta s;
     assessment_completed_at := assessment_completed_at s;
     completed_quiz_count := completed_quiz_count s;
     learning_phase := learning_phase s;
     phase_switched_at_quiz := Some q;
     total_questions_solved := total_questions_solved s;
     topic_attempt_counts := topic_attempt_counts s;
     subject_balance := subject_balance s;
     last_quiz_completed_at := last_quiz_completed_at s |}.

(** The three fields written when a quiz has been returned. *)
Definition quiz_completed (phase : string) (now : Z) (s : StudentData)
  : StudentData :=
  {| theta_by_topic := theta_by_topic s;
     overall_theta := overall_theta s;
     assessment_completed_at := assessment_completed_at s;
     completed_quiz_count :=
       Some (match completed_quiz_count s with
             | Some n => n
             | None => 0
             end + 1)%Z;
     learning_phase := phase;
     phase_switched_at_quiz := phase_switched_at_quiz s;
     total_questions_solved := total_questions_solved s;
     topic_attempt_counts := topic_attempt_counts s;
     subject_balance := subject_balance s;
     last_quiz_completed_at := Some now |}.

(** The phase decision of [generate_daily_quiz]: the phase, the
    exploration ratio, and the mark left at the first exploitation quiz. *)
Definition determine_learning_phase
           (student_id : string) (student_data : StudentData) (quiz_count : Z)
  : M (string * R) :=
  if (quiz_count <? EXPLORATION_END_QUIZ)%Z then
    ret ("exploration"%string,
         max2 (EXPLORATION_START_RATIO - IZR quiz_count * (4 / 100))
              EXPLORATION_END_RATIO)
  else
    (match phase_switched_at_quiz student_data with
     | None => update_student student_id (set_phase_switched quiz_count)
     | Some _ => ret tt
     end) ;;;
    ret ("exploitation"%string, 0).

(** The exploration branch of [generate_daily_quiz].  The ratio is a
    binary64 float in the source and a real number here.  Where
    [10 * ratio] is an integer over the reals (ratio [0.4] at quiz count
    5) the float product can fall just below it, and [int] then leaves
    one exploration slot less, and one deliberate slot more, than
    [num_exploration] and [num_deliberate] below.  No property of this
    development states the number of slots. *)
Definition exploration_questions
           (w : World) (student_id : string) (student_data : StudentData)
           (exploration_ratio : R) (recent_questions_30d : list string)
  : result (list Question) :=
  let thetas := theta_by_topic student_data in
  let topic_attempts := topic_attempt_counts student_data in
  let num_exploration := int_of_float (IZR QUIZ_LENGTH * exploration_ratio) in
  let num_deliberate := (QUIZ_LENGTH - num_exploration - REVIEW_COUNT)%Z in
  let unexplored_topics := get_unexplored_topics topic_attempts 2 in
  let exploration_topics :=
    slice_to num_exploration
             (prioritize_exploration_topics unexplored_topics
                                            (subject_balance student_data)) in
  rbind
    (append_found exploration_topics
       (fun tp =>
          rbind
            (if negb (dict_mem thetas tp)
                || (dict_get_default topic_attempts tp 0 =? 0)%Z
             then Ok EXPLORATION_TARGET_DIFFICULTY
             else theta_of thetas tp)
            (fun target_difficulty =>
               select_optimal_question_IRT w tp target_difficulty
                                           recent_questions_30d (14 / 10)))
       [])
    (fun quiz =>
  let tested_topics :=
    map fst (filter (fun tc => (2 <=? snd tc)%Z) topic_attempts) in
  rbind (rank_topics_by_weakness tested_topics thetas) (fun weak_topics =>
  rbind
    (append_found (slice_to num_deliberate weak_topics)
       (fun tp =>
          rbind (theta_of thetas tp) (fun th =>
          select_optimal_question_IRT w tp th recent_questions_30d (14 / 10)))
       quiz)
    (fun quiz =>
  rbind (get_spaced_review_question w student_id recent_questions_30d)
        (fun review_q =>
  Ok (match review_q with
      | Some q => append quiz q
      | None => quiz
      end))))).

Definition exploitation_questions
           (student_id : string) (student_data : StudentData)
           (recent_questions_30d : list string) : M (list Question) :=
  w <- get_world ;;
  let thetas := theta_by_topic student_data in
  let topic_attempts := topic_attempt_counts student_data in
  let all_topics := dict_keys thetas in
  ranked_topics <-
    lift (rank_topics_by_priority_formula w all_topics thetas
                                          topic_attempts student_id) ;;
  let weak_topics := slice_to WEAK_TOPIC_COUNT_EXPLOITATION ranked_topics in
  quiz <-
    lift (append_found weak_topics
            (fun tp =>
               rbind (theta_of thetas tp) (fun th =>
               select_optimal_question_IRT w tp th recent_questions_30d
                                           (14 / 10)))
            []) ;;
  let strong_topics := last_n 5 ranked_topics in
  maintenance_topics <-
    random_sample strong_topics
      (Nat.min MAINTENANCE_COUNT_EXPLOITATION (List.length strong_topics)) ;;
  quiz <-
    lift (append_found maintenance_topics
            (fun tp =>
               rbind (theta_of thetas tp) (fun th =>
               select_optimal_question_IRT w tp th recent_questions_30d 1))
            quiz) ;;
  review_q <- lift (get_spaced_review_question w student_id
                                               recent_questions_30d) ;;
  ret (match review_q with
       | Some q => append quiz q
       | None => quiz
       end).

Definition generate_daily_quiz
           (student_id : string) (quiz_count_arg : option Z)
  : M (list Question) :=
  w <- get_world ;;
  match get_student w student_id with
  | None =>
      raise (match quiz_count_arg with
             | None => AttributeError
             | Some _ => TypeError
             end)
  | Some student_data =>
      let quiz_count :=
        match quiz_count_arg with
        | Some n => n
        | None => match completed_quiz_count student_data with
                  | Some n => n
                  | None => 0%Z
                  end
        end in
      if check_circuit_breaker w student_id then
        recovery_quiz <- generate_recovery_quiz student_id student_data ;;
        update_student student_id (quiz_completed "recovery" (utcnow w)) ;;;
        ret recovery_quiz
      else
        let recent_questions_30d :=
          get_recent_questions w student_id RECENT_QUESTIONS_WINDOW_DAYS in
        phase_ratio <-
          determine_learning_phase student_id student_data quiz_count ;;
        let phase := fst phase_ratio in
        let exploration_ratio := snd phase_ratio in
        quiz <-
          (if String.eqb phase "exploration" then
             lift (exploration_questions w student_id student_data
                                         exploration_ratio recent_questions_30d)
           else
             exploitation_questions student_id student_data
                                    recent_questions_30d) ;;
        interleaved_quiz <- interleave_questions_by_topic quiz ;;
        let final_quiz := slice_to QUIZ_LENGTH interleaved_quiz in
        let qz_id :=
          ("quiz_num" ++ str_of_Z quiz_count ++ "_"
                      ++ strftime_minutes (utcnow w))%string in
        save_quiz_metadata student_id qz_id quiz_count phase final_quiz ;;;
        update_student student_id (quiz_completed phase (utcnow w)) ;;;
        ret final_quiz
  end.

(** Runs of the whole engine: answers are recorded and quizzes generated,
    for any students, in any order, with the clock moving in between. *)
Inductive engine_run (norm_cdf : R -> R) : World -> World -> Prop :=
| engine_start (w : World) : engine_run norm_cdf w w
| engine_tick (w w' : World) (t : Z) :
    engine_run norm_cdf w w' -> engine_run norm_cdf w (set_utcnow w' t)
| engine_answer (w w' : World) (student_id qid : string)
                (correct : bool) (time_taken : Z) :
    engine_run norm_cdf w w' ->
    engine_run norm_cdf w
      (snd (update_theta_after_response norm_cdf student_id qid correct
                                        time_taken w'))
| engine_quiz (w w' : World) (student_id : string) (quiz_count_arg : option Z) :
    engine_run norm_cdf w w' ->
    engine_run norm_cdf w
      (snd (generate_daily_quiz student_id quiz_count_arg w')).

(* ====================================================================== *)
(** * Initial assessment processing                                         *)
(* ====================================================================== *)

(** One entry of the [responses] argument of [process_initial_assessment]. *)
Record AssessmentAnswer : Type := {
  a_question_id : string;
  a_answer : string;
  a_is_correct : bool;
  a_time_taken : Z
}.

(** The profile built by [process_initial_assessment]: the fields the
    engine reads later ([profile_data], the document kept in [students])
    and the fields it only reports. *)
Record AssessmentProfile : Type := {
  profile_student_id : string;
  profile_data : StudentData;
  overall_percentile : R;
  profile_current_day : Z;
  topics_explored : Z;
  topics_confident : Z
}.

Definition calculate_weighted_overall_theta (theta_estimates : dict TopicTheta)
  : R :=
  let '(weighted_sum, total_weight) :=
    fold_left
      (fun acc (item : string * TopicTheta) =>
         let weight := dict_get_default JEE_TOPIC_WEIGHTS (fst item) (5 / 10) in
         (fst acc + theta (snd item) * weight, snd acc + weight))
      theta_estimates (0, 0) in
  if Rltb 0 total_weight then weighted_sum / total_weight else 0.

(** The loop [subject_counts[subject] += data["attempts"]]: a subject
    that is not a key of [subject_counts] raises. *)
Fixpoint count_subjects (items : list (string * TopicTheta))
         (subject_counts : dict Z) : result (dict Z) :=
  match items with
  | [] => Ok subject_counts
  | (tp, data) :: rest =>
      let subject := get_subject_from_topic tp in
      match dict_get subject_counts subject with
      | None => Raise KeyError
      | Some n =>
          count_subjects rest
            (dict_set subject_counts subject (n + attempts data)%Z)
      end
  end.

Definition calculate_subject_balance_initial (theta_estimates : dict TopicTheta)
  : result (dict R) :=
  let subject_counts :=
    [ ("physics", 0%Z); ("chemistry", 0%Z); ("mathematics", 0%Z) ]%string in
  rbind (count_subjects theta_estimates subject_counts) (fun subject_counts =>
  let total := fold_left Z.add (map snd subject_counts) 0%Z in
  if (total =? 0)%Z then
    Ok [ ("physics", 1 / 3); ("chemistry", 1 / 3); ("mathematics", 1 / 3) ]%string
  else
    Ok (map (fun sc => (fst sc, IZR (snd sc) / IZR total)) subject_counts)).

(** The grouping loop of [process_initial_assessment]: each response is
    filed under the topic of its question. *)
Fixpoint group_answers (w : World) (responses : list AssessmentAnswer)
         (topic_responses : dict (list AssessmentAnswer))
  : result (dict (list AssessmentAnswer)) :=
  match responses with
  | [] => Ok topic_responses
  | response :: rest =>
      match get_question w (a_question_id response) with
      | None => Raise TypeError
      | Some question_data =>
          let tp := topic question_data in
          let topic_responses :=
            if dict_mem topic_responses tp then topic_responses
            else dict_set topic_responses tp [] in
          group_answers w rest
            (dict_set topic_responses tp
                      (append (dict_get_default topic_responses tp []) response))
      end
  end.

Section InitialAssessment.

Variable norm_cdf : R -> R.

(** The estimate of one topic from its assessment answers. *)
Definition estimate_topic (topic_questions : list AssessmentAnswer) (now : Z)
  : result TopicTheta :=
  let correct_count :=
    Z.of_nat (List.length (filter a_is_correct topic_questions)) in
  let total_count := Z.of_nat (List.length topic_questions) in
  let acc :=
    if (0 <? total_count)%Z then IZR correct_count / IZR total_count else 0 in
  let initial_theta := accuracy_to_theta_mapping acc total_count in
  rbind (calculate_initial_SE total_count acc) (fun standard_error =>
  Ok {| theta := bound_theta initial_theta;
        percentile := theta_to_percentile norm_cdf initial_theta;
        confidence_SE := standard_error;
        attempts := total_count;
        accuracy := Some acc;
        last_updated := Some now |}).

Fixpoint estimate_topics (groups : list (string * list AssessmentAnswer))
         (now : Z) (theta_estimates : dict TopicTheta)
  : result (dict TopicTheta) :=
  match groups with
  | [] => Ok theta_estimates
  | (tp, topic_questions) :: rest =>
      rbind (estimate_topic topic_questions now) (fun entry =>
      estimate_topics rest now (dict_set theta_estimates tp entry))
  end.

Definition process_initial_assessment
           (student_id : string) (responses : list AssessmentAnswer)
  : M AssessmentProfile :=
  w <- get_world ;;
  topic_responses <- lift (group_answers w responses []) ;;
  theta_estimates <- lift (estimate_topics topic_responses (utcnow w) []) ;;
  let overall := calculate_weighted_overall_theta theta_estimates in
  balance <- lift (calculate_subject_balance_initial theta_estimates) ;;
  let student_profile :=
    {| profile_student_id := student_id;
       profile_data :=
         {| theta_by_topic := theta_estimates;
            overall_theta := Some overall;
            assessment_completed_at := utcnow w;
            completed_quiz_count := Some 0%Z;
            learning_phase := "exploration";
            phase_switched_at_quiz := None;
            total_questions_solved := Z.of_nat (List.length responses);
            topic_attempt_counts :=
              map (fun tq => (fst tq, Z.of_nat (List.length (snd tq))))
                  topic_responses;
            subject_balance := balance;
            last_quiz_completed_at := None |};
       overall_percentile := theta_to_percentile norm_cdf overall;
       profile_current_day := 0;
       topics_explored := Z.of_nat (List.length theta_estimates);
       topics_confident :=
         Z.of_nat (List.length
                     (filter (fun v => (2 <=? attempts (snd v))%Z)
                             theta_estimates)) |} in
  modify (fun w =>
            set_students w
              (dict_set (students w) student_id
                        (profile_data student_profile))) ;;;
  ret student_profile.

End InitialAssessment.

(* ====================================================================== *)
(** * Sample data                                                           *)
(* ====================================================================== *)

Module Sample.

Definition kinematics : string := "physics_mechanics_kinematics".

Definition hard_mcq : IRTParameters :=
  {| difficulty_b := 14 / 10; discrimination_a := 16 / 10; guessing_c := 1 / 4 |}.

Definition Q1 : Question :=
  {| question_id := "Q1"; topic := kinematics; irt_parameters := hard_mcq |}.

Definition ability : TopicTheta :=
  {| theta := 1; percentile := 84; confidence_SE := 1 / 2;
     attempts := 0; accuracy := None; last_updated := None |}.

Definition profile (quiz_count : Z) : StudentData :=
  {| theta_by_topic := [(kinematics, ability)];
     overall_theta := Some (1 / 2);
     assessment_completed_at := 0;
     completed_quiz_count := Some quiz_count;
     learning_phase := "exploration";
     phase_switched_at_quiz := None;
     total_questions_solved := 2;
     topic_attempt_counts := [(kinematics, 2%Z)];
     subject_balance := [("physics"%string, 1)];
     last_quiz_completed_at := None |}.

(** One student, one question, an empty response log. *)
Definition world (quiz_count : Z) : World :=
  {| questions := [Q1];
     students := [("s1"%string, profile quiz_count)];
     student_responses := [];
     quizzes := [];
     system_events := [];
     rng := [];
     utcnow := 8640000 |}.

Definition rotational : string := "physics_mechanics_rotational".
Definition limits : string := "mathematics_calculus_limits".

Definition easy_mcq : IRTParameters :=
  {| difficulty_b := 5 / 10; discrimination_a := 12 / 10; guessing_c := 1 / 4 |}.

Definition question (qid tp : string) (irt : IRTParameters) : Question :=
  {| question_id := qid; topic := tp; irt_parameters := irt |}.

(** Three questions of one topic and one question each of two others. *)
Definition K1 : Question := question "K1" kinematics easy_mcq.
Definition K2 : Question := question "K2" kinematics easy_mcq.
Definition K3 : Question := question "K3" kinematics easy_mcq.
Definition R1 : Question := question "R1" rotational easy_mcq.
Definition L1 : Question := question "L1" limits easy_mcq.

Definition with_rng (w : World) (g : list nat) : World := set_rng w g.

Definition with_questions (w : World) (qs : list Question) : World :=
  set_questions w qs.

Definition wrong_answer (at_time : Z) : Response :=
  {| response_id := "r"; r_question_id := "Q9"; r_topic := kinematics;
     is_correct := false; time_taken_seconds := 60;
     theta_before := 0; theta_after := 0; theta_delta := 0;
     confidence_SE_before := 1 / 2; confidence_SE_after := 1 / 2;
     answered_at := at_time |}.

(** Five wrong answers within the last hours. *)
Definition failing_log : list Response :=
  [ wrong_answer 8630000; wrong_answer 8630100; wrong_answer 8630200;
    wrong_answer 8630300; wrong_answer 8630400 ].

Definition with_log (w : World) (log : list Response) : World :=
  set_student_responses w [("s1"%string, log)].

(** *** A struggling student with a well-stocked catalogue *)

Definition reactions : string := "chemistry_organic_reactions".

Definition medium_mcq : IRTParameters :=
  {| difficulty_b := 9 / 10; discrimination_a := 12 / 10; guessing_c := 1 / 4 |}.

Definition very_hard_mcq : IRTParameters :=
  {| difficulty_b := 2; discrimination_a := 12 / 10; guessing_c := 1 / 4 |}.

Definition EK1 : Question := question "EK1" kinematics easy_mcq.
Definition EK2 : Question := question "EK2" kinematics easy_mcq.
Definition ER1 : Question := question "ER1" rotational easy_mcq.
Definition ER2 : Question := question "ER2" rotational easy_mcq.
Definition EL1 : Question := question "EL1" limits easy_mcq.
Definition EL2 : Question := question "EL2" limits easy_mcq.
Definition EC1 : Question := question "EC1" reactions easy_mcq.
Definition EC2 : Question := question "EC2" reactions easy_mcq.
Definition MK1 : Question := question "MK1" kinematics medium_mcq.
Definition MR1 : Question := question "MR1" rotational medium_mcq.
Definition V1 : Question := question "V1" kinematics very_hard_mcq.

Definition ability_at (th : R) : TopicTheta :=
  {| theta := th; percentile := 50; confidence_SE := 3 / 10;
     attempts := 6; accuracy := Some (1 / 2); last_updated := None |}.

Definition struggling_profile : StudentData :=
  {| theta_by_topic :=
       [ (limits, ability_at 0); (kinematics, ability_at (-2));
         (reactions, ability_at 1); (rotational, ability_at (-1)) ];
     overall_theta := Some (- (1 / 2));
     assessment_completed_at := 0;
     completed_quiz_count := Some 3%Z;
     learning_phase := "exploration";
     phase_switched_at_quiz := None;
     total_questions_solved := 24;
     topic_attempt_counts :=
       [ (limits, 6%Z); (kinematics, 6%Z); (reactions, 6%Z); (rotational, 6%Z) ];
     subject_balance :=
       [ ("physics"%string, 1 / 2); ("chemistry"%string, 1 / 4);
         ("mathematics"%string, 1 / 4) ];
     last_quiz_completed_at := None |}.

(** [V1] was answered correctly ten days before the clock of the world. *)
Definition right_answer_ten_days_ago : Response :=
  {| response_id := "r0"; r_question_id := "V1"; r_topic := kinematics;
     is_correct := true; time_taken_seconds := 60;
     theta_before := 0; theta_after := 0; theta_delta := 0;
     confidence_SE_before := 1 / 2; confidence_SE_after := 1 / 2;
     answered_at := 7776000 |}.

Definition struggling_world : World :=
  {| questions := [EK1; EK2; ER1; ER2; EL1; EL2; EC1; EC2; MK1; MR1; V1];
     students := [("s1"%string, struggling_profile)];
     student_responses :=
       [("s1"%string, right_answer_ten_days_ago :: failing_log)];
     quizzes := [];
     system_events := [];
     rng := [];
     utcnow := 8640000 |}.

(** *** A returning student: one right answer, long ago *)

(** [Q1] was answered correctly a hundred days before the clock of the
    world. *)
Definition right_answer_long_ago : Response :=
  {| response_id := "r0"; r_question_id := "Q1"; r_topic := kinematics;
     is_correct := true; time_taken_seconds := 60;
     theta_before := 0; theta_after := 0; theta_delta := 0;
     confidence_SE_before := 1 / 2; confidence_SE_after := 1 / 2;
     answered_at := 0 |}.

Definition returning_world : World :=
  with_log (world 3) [right_answer_long_ago].

End Sample.


(* ====================================================================== *)
(** * Reference definitions, written from the specification                 *)
(* ====================================================================== *)

(** The trigger rule in the specification's words: the number of
    consecutive incorrect answers, counted from the newest entry of a log
    given newest first. *)
Fixpoint failure_streak (newest_first : list Response) : nat :=
  match newest_first with
  | [] => O
  | r :: older => if is_correct r then O else S (failure_streak older)
  end.


(** The questions still waiting in the groups of the remaining topics. *)
Definition pending (topic_groups : dict (list Question))
           (remaining_topics : list string) : list Question :=
  flat_map (fun t => dict_get_default topic_groups t []) remaining_topics.

(** What the interleaver guarantees about the list that follows an item
    of topic [prev]: an item repeats the topic just before it only if
    every item after it has that topic too. *)
Fixpoint repeats_only_when_forced (prev : option string) (l : list Question)
  : Prop :=
  match l with
  | [] => True
  | q :: rest =>
      (prev = Some (topic q) -> forall z, In z rest -> topic z = topic q)
      /\ repeats_only_when_forced (Some (topic q)) rest
  end.

(** Two adjacent items of one topic. *)
Fixpoint has_adjacent_repeat (l : list Question) : bool :=
  match l with
  | x :: (y :: _) as rest =>
      String.eqb (topic x) (topic y) || has_adjacent_repeat rest
  | _ => false
  end.

(** The worlds differ at most in the state of the random generator. *)
Definition same_database (w w' : World) : Prop :=
  questions w' = questions w
  /\ students w' = students w
  /\ student_responses w' = student_responses w
  /\ quizzes w' = quizzes w
  /\ system_events w' = system_events w
  /\ utcnow w' = utcnow w.


(** The invariant of the interleaving loop: the remaining topics are
    distinct and each still has a non-empty group of its own questions. *)
Definition groups_ready (topic_groups : dict (list Question))
           (remaining_topics : list string) : Prop :=
  NoDup remaining_topics
  /\ forall t, In t remaining_topics ->
       exists q rest,
         dict_get topic_groups t = Some (q :: rest)
         /\ forall z, In z (q :: rest) -> topic z = t.


(** A computation that leaves the [students] collection as it found it. *)
Definition keeps_students {A} (m : M A) : Prop :=
  forall w, students (snd (m w)) = students w.

(** A computation that maintains a property of the [students] collection. *)
Definition maintains {A} (Q : dict StudentData -> Prop) (m : M A) : Prop :=
  forall w, Q (students w) -> Q (students (snd (m w))).

(** The mark of the phase transition in a student's document. *)
Definition phase_mark (w : World) (student_id : string) : option (option Z) :=
  option_map phase_switched_at_quiz (get_student w student_id).


(** The count a call of [generate_daily_quiz] works with: the argument,
    or else the stored count, or else [0]. *)
Definition effective_quiz_count (quiz_count_arg : option Z) (s : StudentData) : Z :=
  match quiz_count_arg with
  | Some n => n
  | None => match completed_quiz_count s with
            | Some n => n
            | None => 0%Z
            end
  end.


(** A computation that, whenever it returns, leaves a document of the
    student satisfying [P]. *)
Definition returns_with_student {A} (student_id : string)
           (P : StudentData -> Prop) (m : M A) : Prop :=
  forall w r, fst (m w) = Ok r ->
    exists s', get_student (snd (m w)) student_id = Some s' /\ P s'.

(** The phase a call of [generate_daily_quiz] is expected to record. *)
Definition recorded_phase (breaker : bool) (quiz_count : Z) : string :=
  if breaker then "recovery"
  else if (quiz_count <? EXPLORATION_END_QUIZ)%Z then "exploration"
       else "exploitation".


(** The collections a question selection reads: the catalog, the answer
    logs and the clock. *)
Definition same_sources (w w' : World) : Prop :=
  questions w' = questions w
  /\ student_responses w' = student_responses w
  /\ utcnow w' = utcnow w.

(** A computation that, started on the sources of [w0], leaves them as
    they are whenever it returns, with a result satisfying [Q]. *)
Definition yields {A} (w0 : World) (Q : A -> Prop) (m : M A) : Prop :=
  forall w a w', same_sources w0 w -> m w = (Ok a, w') ->
                 same_sources w0 w' /\ Q a.

(** A question of the catalog outside a list of question ids. *)
Definition on_file_outside (w : World) (ids : list string) (q : Question)
  : Prop :=
  In q (questions w) /\ ~ In (question_id q) ids.

(** A question of the catalog that the student has not answered within
    the window of recent questions. *)
Definition unseen (w : World) (student_id : string) (q : Question) : Prop :=
  In q (questions w)
  /\ forall r, In r (responses_of w student_id) ->
               r_question_id r = question_id q ->
               (answered_at r
                < minus_days (utcnow w) RECENT_QUESTIONS_WINDOW_DAYS)%Z.



(** A computation that, started with a [students] collection satisfying
    [P], ends with one satisfying [Q] whenever it returns. *)
Definition leads {A} (P Q : dict StudentData -> Prop) (m : M A) : Prop :=
  forall w r w', P (students w) -> m w = (Ok r, w') -> Q (students w').

(** Two documents of a student that differ at most in the mark of the
    phase transition. *)
Definition same_but_mark (s s' : StudentData) : Prop :=
  theta_by_topic s' = theta_by_topic s
  /\ overall_theta s' = overall_theta s
  /\ assessment_completed_at s' = assessment_completed_at s
  /\ completed_quiz_count s' = completed_quiz_count s
  /\ total_questions_solved s' = total_questions_solved s
  /\ topic_attempt_counts s' = topic_attempt_counts s
  /\ subject_balance s' = subject_balance s.



(** A computation that logs no system event and leaves the clock alone. *)
Definition silent {A} (m : M A) : Prop :=
  forall w, system_events (snd (m w)) = system_events w
            /\ utcnow (snd (m w)) = utcnow w.



(* ====================================================================== *)
(** * Properties                                                            *)
(* ====================================================================== *)

(** ** Float comparisons *)

Lemma Rltb_true (x y : R) : x < y -> Rltb x y = true.
Proof. intros H. unfold Rltb. destruct (Rlt_dec x y); [reflexivity | contradiction]. Qed.

Lemma Rltb_false (x y : R) : y <= x -> Rltb x y = false.
Proof. intros H. unfold Rltb. destruct (Rlt_dec x y); [lra | reflexivity]. Qed.

Lemma Rleb_true (x y : R) : x <= y -> Rleb x y = true.
Proof. intros H. unfold Rleb. destruct (Rle_dec x y); [reflexivity | contradiction]. Qed.

Lemma Rleb_false (x y : R) : y < x -> Rleb x y = false.
Proof. intros H. unfold Rleb. destruct (Rle_dec x y); [lra | reflexivity]. Qed.

Lemma Reqb_true (x y : R) : x = y -> Reqb x y = true.
Proof. intros H. unfold Reqb. destruct (Req_dec_T x y); [reflexivity | contradiction]. Qed.

Lemma Reqb_false (x y : R) : x <> y -> Reqb x y = false.
Proof. intros H. unfold Reqb. destruct (Req_dec_T x y); [contradiction | reflexivity]. Qed.

Lemma Rltb_cases (x y : R) :
  (x < y /\ Rltb x y = true) \/ (y <= x /\ Rltb x y = false).
Proof.
  destruct (Rlt_le_dec x y) as [H | H].
  - left. split; [assumption | apply Rltb_true; assumption].
  - right. split; [assumption | apply Rltb_false; assumption].
Qed.

(** ** The 3PL curve *)

(** Between the two cut-offs the clamp is the identity: the logistic value
    is strictly between the guessing floor and [1]. *)
Lemma logistic_between (c x : R) :
  0 <= c < 1 ->
  c < c + (1 - c) / (1 + exp x) < 1.
Proof.
  intros [Hc0 Hc1].
  assert (He : 0 < exp x) by apply exp_pos.
  assert (Hd : 0 < 1 + exp x) by lra.
  assert (Hq : 0 < (1 - c) / (1 + exp x)).
  { apply Rdiv_lt_0_compat; lra. }
  assert (Hq1 : (1 - c) / (1 + exp x) < 1 - c).
  { apply (Rmult_lt_reg_r (1 + exp x)); [assumption |].
    unfold Rdiv. rewrite Rmult_assoc, Rinv_l by lra. nra. }
  lra.
Qed.

Lemma clamp_logistic (c x : R) :
  0 <= c < 1 ->
  max2 0 (min2 1 (c + (1 - c) / (1 + exp x))) = c + (1 - c) / (1 + exp x).
Proof.
  intros Hc. pose proof (logistic_between c x Hc) as [H1 H2].
  unfold max2, min2. rewrite Rmin_right by lra. rewrite Rmax_right by lra.
  reflexivity.
Qed.

Lemma probability_cases (th b a c : R) :
  0 <= c < 1 ->
  let x := - a * (th - b) in
  (20 < x /\ calculate_probability_3PL th b a c = c)
  \/ (x < -20 /\ calculate_probability_3PL th b a c = 1)
  \/ (-20 <= x <= 20
      /\ calculate_probability_3PL th b a c = c + (1 - c) / (1 + exp x)).
Proof.
  intros Hc x. unfold calculate_probability_3PL. fold x.
  destruct (Rltb_cases 20 x) as [[H1 E1] | [H1 E1]]; rewrite E1.
  - left. split; [assumption | reflexivity].
  - destruct (Rltb_cases x (-20)) as [[H2 E2] | [H2 E2]]; rewrite E2.
    + right. left. split; [assumption | reflexivity].
    + right. right. split; [lra |]. apply clamp_logistic. assumption.
Qed.

Lemma probability_range (th b a c : R) :
  0 <= c < 1 ->
  c <= calculate_probability_3PL th b a c <= 1.
Proof.
  intros Hc.
  destruct (probability_cases th b a c Hc) as [[_ E] | [[_ E] | [_ E]]];
    rewrite E.
  - lra.
  - lra.
  - pose proof (logistic_between c (- a * (th - b)) Hc). lra.
Qed.

Lemma logistic_antitone (c x1 x2 : R) :
  0 <= c < 1 -> x2 <= x1 ->
  c + (1 - c) / (1 + exp x1) <= c + (1 - c) / (1 + exp x2).
Proof.
  intros Hc Hx.
  assert (He1 : 0 < exp x1) by apply exp_pos.
  assert (He2 : 0 < exp x2) by apply exp_pos.
  assert (Hle : exp x2 <= exp x1).
  { destruct Hx as [Hx | Hx]; [left; apply exp_increasing; assumption
                              | right; rewrite Hx; reflexivity]. }
  apply Rplus_le_compat_l. unfold Rdiv.
  apply Rmult_le_compat_l; [lra |].
  apply Rinv_le_contravar; lra.
Qed.

(** C9. With [a > 0] and [0 <= c < 1], [calculate_probability_3PL] stays
    in [[c, 1]] and is monotone increasing in [theta], whichever of its
    three branches (the [x > 20] cut-off, the [x < -20] cut-off, the
    logistic formula) the two abilities fall in. *)
Theorem probability_3PL_range_and_monotone (b a c : R) :
  0 < a -> 0 <= c < 1 ->
  (forall th, c <= calculate_probability_3PL th b a c <= 1)
  /\ (forall th1 th2, th1 <= th2 ->
        calculate_probability_3PL th1 b a c
        <= calculate_probability_3PL th2 b a c).
Proof.
  intros Ha Hc. split.
  - intros th. apply probability_range. assumption.
  - intros th1 th2 Hth.
    assert (Hx : - a * (th2 - b) <= - a * (th1 - b)) by nra.
    pose proof (probability_range th1 b a c Hc) as R1.
    pose proof (probability_range th2 b a c Hc) as R2.
    destruct (probability_cases th1 b a c Hc) as [[H1 E1] | [[H1 E1] | [H1 E1]]];
      destruct (probability_cases th2 b a c Hc) as [[H2 E2] | [[H2 E2] | [H2 E2]]];
      cbv zeta in *; try lra.
    rewrite E1, E2. apply logistic_antitone; assumption.
Qed.

Lemma probability_3PL_range_and_monotone_witness :
  (forall th, 1 / 4 <= calculate_probability_3PL th 1 (3 / 2) (1 / 4) <= 1)
  /\ (forall th1 th2, th1 <= th2 ->
        calculate_probability_3PL th1 1 (3 / 2) (1 / 4)
        <= calculate_probability_3PL th2 1 (3 / 2) (1 / 4)).
Proof.
  apply (probability_3PL_range_and_monotone 1 (3 / 2) (1 / 4)); lra.
Defined.

(** ** Initial standard error *)

Lemma initial_SE_positive (n : Z) (acc : R) :
  (1 <= n)%Z ->
  calculate_initial_SE n acc
  = Ok (min2 SE_CEILING
             (max2 SE_FLOOR (1 / sqrt (IZR n) * (1 + Rabs (acc - 5 / 10))))).
Proof.
  intros Hn. unfold calculate_initial_SE, math_sqrt, truediv.
  assert (H1 : 1 <= IZR n) by (apply IZR_le in Hn; exact Hn).
  rewrite Rltb_false by lra. cbn [rbind].
  assert (Hs : 0 < sqrt (IZR n)) by (apply sqrt_lt_R0; lra).
  rewrite Reqb_false by lra. reflexivity.
Qed.

(** C10. [calculate_initial_SE] returns a value exactly when
    [num_questions >= 1]: at [0] the division [1.0 / sqrt(0)] raises
    [ZeroDivisionError] (and a negative count makes [sqrt] raise), while
    for every [num_questions >= 1] the value returned lies in
    [[0.1, 0.6]]. *)
Theorem calculate_initial_SE_total_iff_positive :
  (forall acc, calculate_initial_SE 0 acc = Raise ZeroDivisionError)
  /\ (forall n acc, (1 <= n)%Z -> 0 <= acc <= 1 ->
        exists se, calculate_initial_SE n acc = Ok se
                   /\ 1 / 10 <= se <= 6 / 10)
  /\ (forall n acc se, calculate_initial_SE n acc = Ok se -> (1 <= n)%Z).
Proof.
  split; [| split].
  - intros acc. unfold calculate_initial_SE, math_sqrt, truediv.
    rewrite Rltb_false by lra. cbn [rbind].
    rewrite sqrt_0. rewrite Reqb_true by reflexivity. reflexivity.
  - intros n acc Hn _. rewrite initial_SE_positive by assumption.
    eexists. split; [reflexivity |].
    unfold min2, max2, SE_CEILING, SE_FLOOR. split.
    + apply Rmin_glb; [lra | apply Rmax_l].
    + apply Rmin_l.
  - intros n acc se H.
    destruct (Z_lt_le_dec n 1) as [Hlt | Hge]; [| assumption].
    exfalso. unfold calculate_initial_SE, math_sqrt, truediv in H.
    destruct (Z.eq_dec n 0) as [-> | Hne].
    + rewrite Rltb_false in H by lra. cbn [rbind] in H.
      rewrite sqrt_0, Reqb_true in H by reflexivity. discriminate.
    + assert (Hneg : IZR n < 0) by (apply IZR_lt; lia).
      rewrite Rltb_true in H by assumption. discriminate.
Qed.

Lemma calculate_initial_SE_total_iff_positive_witness :
  exists se, calculate_initial_SE 4 (1 / 2) = Ok se /\ 1 / 10 <= se <= 6 / 10.
Proof.
  apply (proj1 (proj2 calculate_initial_SE_total_iff_positive) 4%Z (1 / 2));
    [lia | lra].
Defined.

(** ** The step of one response *)

Lemma learning_rate_pos (n : Z) :
  (0 <= n)%Z -> 0 < BASE_LEARNING_RATE / (1 + LEARNING_RATE_DECAY * IZR n).
Proof.
  intros Hn. apply IZR_le in Hn.
  unfold BASE_LEARNING_RATE, LEARNING_RATE_DECAY.
  apply Rdiv_lt_0_compat; lra.
Qed.

Lemma learning_rate_decreasing (n1 n2 : Z) :
  (0 <= n1 < n2)%Z ->
  BASE_LEARNING_RATE / (1 + LEARNING_RATE_DECAY * IZR n2)
  < BASE_LEARNING_RATE / (1 + LEARNING_RATE_DECAY * IZR n1).
Proof.
  intros [H1 H2]. apply IZR_le in H1. apply IZR_lt in H2.
  unfold BASE_LEARNING_RATE, LEARNING_RATE_DECAY, Rdiv.
  apply Rmult_lt_compat_l; [lra |].
  apply Rinv_lt_contravar; nra.
Qed.

Lemma response_delta_value (th : R) (n : Z) (irt : IRTParameters) (correct : bool) :
  (0 <= n)%Z ->
  response_delta th n irt correct
  = Ok (let lr := BASE_LEARNING_RATE / (1 + LEARNING_RATE_DECAY * IZR n) in
        let P := calculate_probability_3PL th (difficulty_b irt)
                   (discrimination_a irt) (guessing_c irt) in
        if correct then lr * (1 - P) else - lr * P).
Proof.
  intros Hn. unfold response_delta, truediv.
  apply IZR_le in Hn.
  rewrite Reqb_false by (unfold LEARNING_RATE_DECAY; lra).
  reflexivity.
Qed.

Lemma probability_below_one_on_hard_item (th b a c : R) :
  0 < a -> 0 <= c < 1 -> th < b ->
  calculate_probability_3PL th b a c < 1.
Proof.
  intros Ha Hc Hb.
  assert (Hx : 0 < - a * (th - b)) by nra.
  destruct (probability_cases th b a c Hc) as [[_ E] | [[H E] | [_ E]]];
    cbv zeta in *; rewrite E.
  - lra.
  - lra.
  - pose proof (logistic_between c (- a * (th - b)) Hc). lra.
Qed.

Lemma probability_positive (th b a c : R) :
  0 <= c < 1 -> 0 < c \/ a * (b - th) <= 20 ->
  0 < calculate_probability_3PL th b a c.
Proof.
  intros Hc Hor.
  destruct (probability_cases th b a c Hc) as [[H E] | [[_ E] | [_ E]]];
    cbv zeta in *; rewrite E.
  - destruct Hor as [Hpos | Hle]; [assumption | nra].
  - lra.
  - pose proof (logistic_between c (- a * (th - b)) Hc). lra.
Qed.

(** C5, as the code has it.  For an item with [a > 0] and [0 <= c < 1]
    and a non-negative attempts count: a correct response on an item with
    [b > theta] gives a step [> 0]; an incorrect response gives a step
    [<= 0], and [< 0] unless [c = 0] and [a * (b - theta) > 20] (where the
    overflow cut-off returns the probability [0]); for fixed [theta], item
    and correctness the magnitude of the step is non-increasing in the
    attempts count, and strictly decreasing whenever the step is not [0]. *)
Theorem response_delta_sign_and_decay (th : R) (irt : IRTParameters) :
  0 < discrimination_a irt ->
  0 <= guessing_c irt < 1 ->
  (forall n, (0 <= n)%Z -> th < difficulty_b irt ->
     exists d, response_delta th n irt true = Ok d /\ 0 < d)
  /\ (forall n, (0 <= n)%Z ->
        exists d, response_delta th n irt false = Ok d /\ d <= 0
                  /\ (0 < guessing_c irt
                      \/ discrimination_a irt * (difficulty_b irt - th) <= 20
                      -> d < 0))
  /\ (forall correct n1 n2, (0 <= n1 < n2)%Z ->
        exists d1 d2,
          response_delta th n1 irt correct = Ok d1
          /\ response_delta th n2 irt correct = Ok d2
          /\ Rabs d2 <= Rabs d1
          /\ (d1 <> 0 -> Rabs d2 < Rabs d1)).
Proof.
  intros Ha Hc.
  pose proof (probability_range th (difficulty_b irt) (discrimination_a irt)
                                (guessing_c irt) Hc) as HP.
  split; [| split].
  - intros n Hn Hb. rewrite response_delta_value by assumption.
    eexists. split; [reflexivity |]. cbv zeta.
    pose proof (learning_rate_pos n Hn).
    pose proof (probability_below_one_on_hard_item
                  th _ _ _ Ha Hc Hb).
    nra.
  - intros n Hn. rewrite response_delta_value by assumption.
    eexists. split; [reflexivity |]. cbv zeta.
    pose proof (learning_rate_pos n Hn). split.
    + nra.
    + intros Hor.
      pose proof (probability_positive th _ _ _ Hc Hor). nra.
  - intros correct n1 n2 Hn.
    rewrite !response_delta_value by lia.
    eexists. eexists. split; [reflexivity |]. split; [reflexivity |].
    cbv zeta.
    pose proof (learning_rate_pos n1 ltac:(lia)) as L1.
    pose proof (learning_rate_pos n2 ltac:(lia)) as L2.
    pose proof (learning_rate_decreasing n1 n2 Hn) as L12.
    set (l1 := BASE_LEARNING_RATE / (1 + LEARNING_RATE_DECAY * IZR n1)) in *.
    set (l2 := BASE_LEARNING_RATE / (1 + LEARNING_RATE_DECAY * IZR n2)) in *.
    set (P := calculate_probability_3PL th (difficulty_b irt)
                (discrimination_a irt) (guessing_c irt)) in *.
    destruct correct.
    + rewrite !Rabs_pos_eq by nra. split; [nra |].
      intros Hne. assert (0 < 1 - P) by nra. nra.
    + replace (- l1 * P) with (- (l1 * P)) by ring.
      replace (- l2 * P) with (- (l2 * P)) by ring.
      rewrite !Rabs_Ropp, !Rabs_pos_eq by nra. split; [nra |].
      intros Hne. assert (0 < P) by nra. nra.
Qed.

Lemma response_delta_sign_and_decay_witness :
  exists d,
    response_delta (1 / 2) 0
      {| difficulty_b := 14 / 10; discrimination_a := 16 / 10;
         guessing_c := 1 / 4 |} true = Ok d
    /\ 0 < d.
Proof.
  apply (proj1 (response_delta_sign_and_decay (1 / 2)
                  {| difficulty_b := 14 / 10; discrimination_a := 16 / 10;
                     guessing_c := 1 / 4 |}
                  ltac:(simpl; lra) ltac:(simpl; lra)) 0%Z);
    [lia | simpl; lra].
Defined.

(** C5 fails as stated: on a numerical item ([c = 0]) far above the
    ability ([a * (b - theta) = 30 > 20]) the cut-off returns probability
    [0], so an incorrect response moves nothing, whatever the attempts
    count. *)
Lemma incorrect_response_step_can_be_zero :
  exists d1 d2,
    response_delta (-1) 0
      {| difficulty_b := 2; discrimination_a := 10; guessing_c := 0 |} false
    = Ok d1
    /\ response_delta (-1) 1
         {| difficulty_b := 2; discrimination_a := 10; guessing_c := 0 |} false
       = Ok d2
    /\ ~ d1 < 0
    /\ ~ Rabs d2 < Rabs d1.
Proof.
  exists 0, 0.
  assert (HP : calculate_probability_3PL (-1) 2 10 0 = 0).
  { unfold calculate_probability_3PL. rewrite Rltb_true by lra. reflexivity. }
  split; [| split; [| split]].
  - rewrite response_delta_value by lia. cbv zeta. cbn [difficulty_b discrimination_a guessing_c].
    rewrite HP. f_equal. ring.
  - rewrite response_delta_value by lia. cbv zeta. cbn [difficulty_b discrimination_a guessing_c].
    rewrite HP. f_equal. ring.
  - lra.
  - lra.
Qed.

(** ** Dictionaries *)

Lemma dict_get_set_same {V} (d : dict V) (k : string) (v : V) :
  dict_get (dict_set d k v) k = Some v.
Proof.
  induction d as [| [k' v'] d IH]; simpl.
  - rewrite String.eqb_refl. reflexivity.
  - destruct (String.eqb k k') eqn:E; simpl.
    + rewrite String.eqb_refl. reflexivity.
    + rewrite E. exact IH.
Qed.

Lemma dict_get_set_other {V} (d : dict V) (k k' : string) (v : V) :
  k <> k' -> dict_get (dict_set d k v) k' = dict_get d k'.
Proof.
  intros Hne. induction d as [| [k0 v0] d IH]; simpl.
  - destruct (String.eqb k' k) eqn:E; [| reflexivity].
    apply String.eqb_eq in E. congruence.
  - destruct (String.eqb k k0) eqn:E; simpl.
    + apply String.eqb_eq in E. subst k0.
      destruct (String.eqb k' k) eqn:E'; [| reflexivity].
      apply String.eqb_eq in E'. congruence.
    + destruct (String.eqb k' k0); [reflexivity | exact IH].
Qed.

(** ** Bounds of the ability store *)

Lemma bound_theta_range (x : R) : THETA_MIN <= bound_theta x <= THETA_MAX.
Proof.
  unfold bound_theta, max2, min2, THETA_MIN, THETA_MAX. split.
  - apply Rmax_l.
  - apply Rmax_lub; [lra | apply Rmin_l].
Qed.

Lemma updated_topic_theta_bounds
      (norm_cdf : R -> R) (t t' : TopicTheta) (irt : IRTParameters)
      (correct : bool) (now : Z) (d : R) :
  updated_topic_theta norm_cdf t irt correct now = Ok (t', d) ->
  SE_FLOOR <= confidence_SE t <= SE_CEILING ->
  theta_in_bounds t' /\ confidence_SE t' <= confidence_SE t.
Proof.
  unfold updated_topic_theta. intros H [Hlo Hhi].
  destruct (response_delta (theta t) (attempts t) irt correct) as [dl | e];
    [| discriminate].
  cbn [rbind] in H.
  destruct (match accuracy t with
            | Some old_accuracy =>
                truediv (old_accuracy * IZR (attempts t)
                         + (if correct then 1 else 0))
                        (IZR (attempts t + 1))
            | None => Ok (if correct then 1 else 0)
            end) as [acc | e]; [| discriminate].
  cbn [rbind] in H. injection H as <- _.
  unfold theta_in_bounds. cbn [theta confidence_SE].
  unfold SE_FLOOR, SE_CEILING, SE_REDUCTION_RATE, max2 in *.
  split; [split |].
  - apply bound_theta_range.
  - split; [apply Rmax_l | apply Rmax_lub; lra].
  - apply Rmax_lub; lra.
Qed.

Lemma untested_topic_SE
      (norm_cdf : R -> R) (student_id tp : string) (s : StudentData)
      (t : TopicTheta) :
  get_theta_for_untested_topic norm_cdf student_id tp s = Ok t ->
  confidence_SE t = SE_CEILING.
Proof.
  unfold get_theta_for_untested_topic. intros H.
  match type of H with
  | rbind ?x _ = _ => destruct x as [est | e]; [| discriminate]
  end.
  cbn [rbind] in H. injection H as <-. reflexivity.
Qed.

(** What one call does to the stored abilities: nothing, or one entry of
    one student is replaced by the outcome of [updated_topic_theta]. *)
Lemma update_theta_after_response_effect
      (norm_cdf : R -> R) (student_id qid : string) (correct : bool)
      (time_taken : Z) (w : World) :
  let w' := snd (update_theta_after_response norm_cdf student_id qid
                                             correct time_taken w) in
  (forall sid tp, topic_entry w' sid tp = topic_entry w sid tp)
  \/ exists tp0 new_t,
      topic_entry w' student_id tp0 = Some new_t
      /\ match topic_entry w student_id tp0 with
         | Some t =>
             SE_FLOOR <= confidence_SE t <= SE_CEILING ->
             theta_in_bounds new_t /\ confidence_SE new_t <= confidence_SE t
         | None => theta_in_bounds new_t
         end
      /\ (forall sid tp, sid <> student_id \/ tp <> tp0 ->
                         topic_entry w' sid tp = topic_entry w sid tp).
Proof.
  unfold update_theta_after_response, bind, get_world.
  destruct (get_question w qid) as [q |]; [| left; reflexivity].
  destruct (get_student w student_id) as [s |] eqn:Es; [| left; reflexivity].
  assert (Hstep :
    forall t d new_t,
      updated_topic_theta norm_cdf t (irt_parameters q) correct (utcnow w)
      = Ok (new_t, d) ->
      match dict_get (theta_by_topic s) (topic q) with
      | Some t0 => t0 = t
      | None => confidence_SE t = SE_CEILING
      end ->
      forall w1,
        students w1 = dict_set (students w) student_id
                               (write_topic_theta (topic q) new_t s) ->
        exists tp0 new_t0,
          topic_entry w1 student_id tp0 = Some new_t0
          /\ match topic_entry w student_id tp0 with
             | Some t0 =>
                 SE_FLOOR <= confidence_SE t0 <= SE_CEILING ->
                 theta_in_bounds new_t0
                 /\ confidence_SE new_t0 <= confidence_SE t0
             | None => theta_in_bounds new_t0
             end
          /\ (forall sid tp, sid <> student_id \/ tp <> tp0 ->
                             topic_entry w1 sid tp = topic_entry w sid tp)).
  { intros t d new_t Hu Ht w1 Hw1.
    exists (topic q), new_t.
    pose proof (updated_topic_theta_bounds norm_cdf t new_t _ _ _ d Hu) as Hse.
    split; [| split].
    - unfold topic_entry, get_student. rewrite Hw1, dict_get_set_same.
      cbn [write_topic_theta theta_by_topic]. apply dict_get_set_same.
    - unfold topic_entry. rewrite Es.
      destruct (dict_get (theta_by_topic s) (topic q)) as [t0 |].
      + subst t0. exact Hse.
      + apply Hse. rewrite Ht. unfold SE_FLOOR, SE_CEILING. lra.
    - intros sid tp Hne. unfold topic_entry, get_student. rewrite Hw1.
      destruct (string_dec sid student_id) as [-> | Hs].
      + rewrite dict_get_set_same. unfold get_student in Es. rewrite Es.
        cbn [write_topic_theta theta_by_topic].
        apply dict_get_set_other. destruct Hne; congruence.
      + rewrite dict_get_set_other by congruence. reflexivity. }
  destruct (dict_get (theta_by_topic s) (topic q)) as [t |] eqn:Et.
  - unfold ret, lift. cbn beta iota.
    destruct (updated_topic_theta norm_cdf t (irt_parameters q) correct (utcnow w))
      as [[new_t d] |] eqn:Eu; [| left; reflexivity].
    right. cbn beta iota. unfold update_student. rewrite Es. cbn.
    eapply Hstep; [exact Eu | reflexivity | reflexivity].
  - unfold lift.
    destruct (get_theta_for_untested_topic norm_cdf student_id (topic q) s)
      as [t |] eqn:Eg; [| left; reflexivity].
    cbn beta iota.
    destruct (updated_topic_theta norm_cdf t (irt_parameters q) correct (utcnow w))
      as [[new_t d] |] eqn:Eu; [| left; reflexivity].
    right. cbn beta iota. unfold update_student. rewrite Es. cbn.
    eapply Hstep; [exact Eu | | reflexivity].
    eapply untested_topic_SE. exact Eg.
Qed.

(** A successful update really writes: with the question and the student
    on file and a non-negative attempts count the call returns the new
    theta and stores it, with one more attempt. *)
Lemma update_theta_after_response_writes
      (norm_cdf : R -> R) (student_id qid : string) (correct : bool)
      (time_taken : Z) (w : World) (q : Question) (s : StudentData)
      (t : TopicTheta) :
  get_question w qid = Some q ->
  get_student w student_id = Some s ->
  dict_get (theta_by_topic s) (topic q) = Some t ->
  (0 <= attempts t)%Z ->
  exists new_t,
    topic_entry
      (snd (update_theta_after_response norm_cdf student_id qid correct
                                        time_taken w))
      student_id (topic q) = Some new_t
    /\ fst (update_theta_after_response norm_cdf student_id qid correct
                                        time_taken w)
       = Ok (theta new_t)
    /\ attempts new_t = (attempts t + 1)%Z.
Proof.
  intros Hq Hs Ht Hn.
  unfold update_theta_after_response, bind, get_world.
  rewrite Hq, Hs, Ht. unfold ret, lift. cbn beta iota.
  unfold updated_topic_theta.
  rewrite response_delta_value by assumption. cbn [rbind].
  assert (Hacc : exists acc,
             match accuracy t with
             | Some old_accuracy =>
                 truediv (old_accuracy * IZR (attempts t)
                          + (if correct then 1 else 0))
                         (IZR (attempts t + 1))
             | None => Ok (if correct then 1 else 0)
             end = Ok acc).
  { destruct (accuracy t) as [old |]; [| eexists; reflexivity].
    unfold truediv. rewrite Reqb_false; [eexists; reflexivity |].
    apply not_0_IZR. lia. }
  destruct Hacc as [acc ->]. cbn [rbind fst snd].
  unfold update_student. rewrite Hs. cbn.
  eexists. split; [| split].
  - unfold topic_entry, get_student. cbn. rewrite dict_get_set_same.
    cbn. rewrite dict_get_set_same. reflexivity.
  - reflexivity.
  - reflexivity.
Qed.

(** C4. Along every run of [update_theta_after_response] calls that starts
    with an ability record within [theta] in [[-3, 3]] and [SE] in
    [[0.1, 0.6]], the record stays there and within these bounds, and its
    [SE] never exceeds the starting value. *)
Theorem update_run_keeps_bounds
        (norm_cdf : R -> R) (w w' : World) (student_id tp : string)
        (t0 : TopicTheta) :
  topic_entry w student_id tp = Some t0 ->
  theta_in_bounds t0 ->
  update_run norm_cdf w w' ->
  exists t,
    topic_entry w' student_id tp = Some t
    /\ theta_in_bounds t
    /\ confidence_SE t <= confidence_SE t0.
Proof.
  intros H0 Hb Hrun. induction Hrun as [w | w w' t Hrun IH | w w' sid qid c tm Hrun IH].
  - exists t0. split; [assumption | split; [assumption | lra]].
  - destruct (IH H0) as (t1 & E1 & B1 & S1). exists t1.
    split; [exact E1 | split; assumption].
  - destruct (IH H0) as (t1 & E1 & B1 & S1).
    destruct (update_theta_after_response_effect norm_cdf sid qid c tm w')
      as [Hsame | (tp0 & new_t & Hnew & Hold & Hframe)].
    + exists t1. rewrite Hsame. split; [exact E1 | split; assumption].
    + destruct (string_dec student_id sid) as [-> | Hs].
      * destruct (string_dec tp tp0) as [-> | Htp].
        -- rewrite E1 in Hold. destruct B1 as [B1t B1s].
           destruct (Hold B1s) as [Bn Sn].
           exists new_t. split; [exact Hnew | split; [exact Bn | lra]].
        -- exists t1. rewrite Hframe by (right; assumption).
           split; [exact E1 | split; assumption].
      * exists t1. rewrite Hframe by (left; assumption).
        split; [exact E1 | split; assumption].
Qed.

Lemma update_run_keeps_bounds_witness :
  exists t,
    topic_entry
      (snd (update_theta_after_response (fun _ => 1 / 2) "s1" "Q1" true 95
                                        (Sample.world 0)))
      "s1" Sample.kinematics = Some t
    /\ theta_in_bounds t
    /\ confidence_SE t <= confidence_SE Sample.ability.
Proof.
  apply (update_run_keeps_bounds (fun _ => 1 / 2) (Sample.world 0) _
                                 "s1" Sample.kinematics Sample.ability).
  - reflexivity.
  - unfold theta_in_bounds, THETA_MIN, THETA_MAX, SE_FLOOR, SE_CEILING.
    simpl. lra.
  - apply run_update. apply run_start.
Defined.

(** ** Circuit breaker *)

Lemma count_failures_streak (l : list Response) (n : nat) :
  count_failures l n = (n + failure_streak l)%nat.
Proof.
  revert n. induction l as [| r l IH]; intros n; simpl.
  - lia.
  - destruct (is_correct r); simpl.
    + lia.
    + rewrite IH. lia.
Qed.

Lemma failure_streak_le_length (l : list Response) :
  (failure_streak l <= List.length l)%nat.
Proof.
  induction l as [| r l IH]; simpl; [lia |].
  destruct (is_correct r); lia.
Qed.

Lemma insert_desc_Z_length {A} (key : A -> Z) (x : A) (l : list A) :
  List.length (insert_desc_Z key x l) = S (List.length l).
Proof.
  induction l as [| y l IH]; simpl; [reflexivity |].
  destruct (key y <? key x)%Z; simpl; [reflexivity | rewrite IH; reflexivity].
Qed.

Lemma order_by_desc_length {A} (key : A -> Z) (l : list A) :
  List.length (order_by_desc key l) = List.length l.
Proof.
  unfold order_by_desc.
  assert (H : forall acc,
             List.length (fold_left (fun acc x => insert_desc_Z key x acc) l acc)
             = (List.length l + List.length acc)%nat).
  { induction l as [| x l IH]; intros acc; simpl; [reflexivity |].
    rewrite IH, insert_desc_Z_length. lia. }
  rewrite H. simpl. lia.
Qed.

(** A streak of at least [k] says that the [k] newest answers exist and
    are all incorrect. *)
Lemma failure_streak_reaches (k : nat) (l : list Response) :
  (k <= failure_streak l)%nat
  <-> (k <= List.length l)%nat
      /\ forall r, In r (firstn k l) -> is_correct r = false.
Proof.
  revert l. induction k as [| k IH]; intros l.
  - simpl. split; [intros _; split; [lia | intros r []] | lia].
  - destruct l as [| r l]; simpl.
    + split; [lia | intros [H _]; lia].
    + destruct (is_correct r) eqn:E.
      * split; [lia |]. intros [_ H]. specialize (H r (or_introl eq_refl)).
        congruence.
      * rewrite <- Nat.succ_le_mono, IH, <- Nat.succ_le_mono.
        split.
        -- intros [Hl Hall]. split; [assumption |].
           intros r' [<- | Hin]; [assumption | apply Hall; assumption].
        -- intros [Hl Hall]. split; [assumption |].
           intros r' Hin. apply Hall. right. assumption.
Qed.

(** C6. [check_circuit_breaker] answers [true] exactly when, in the ten
    most recent log entries taken newest first, the run of consecutive
    incorrect answers that starts at the newest reaches five; with fewer
    than five responses in the log it answers [false]. *)
Theorem check_circuit_breaker_iff_streak (w : World) (student_id : string) :
  let newest_first := order_by_desc answered_at (responses_of w student_id) in
  (check_circuit_breaker w student_id = true
   <-> (5 <= failure_streak (firstn 10 newest_first))%nat)
  /\ ((List.length (responses_of w student_id) < 5)%nat ->
      check_circuit_breaker w student_id = false).
Proof.
  intros newest_first. unfold check_circuit_breaker. fold newest_first.
  unfold CIRCUIT_BREAKER_THRESHOLD.
  rewrite count_failures_streak. cbn [Nat.add].
  pose proof (failure_streak_le_length (firstn 10 newest_first)) as Hle.
  split.
  - destruct (Nat.ltb_spec (List.length (firstn 10 newest_first)) 5) as [Hlt | Hge].
    + split; [discriminate | lia].
    + rewrite Nat.leb_le. reflexivity.
  - intros Hshort.
    assert (Hlen : (List.length (firstn 10 newest_first) < 5)%nat).
    { rewrite length_firstn. unfold newest_first.
      rewrite order_by_desc_length. lia. }
    destruct (Nat.ltb_spec (List.length (firstn 10 newest_first)) 5);
      [reflexivity | lia].
Qed.

Lemma check_circuit_breaker_iff_streak_witness :
  check_circuit_breaker (Sample.with_log (Sample.world 14) Sample.failing_log) "s1"
  = true.
Proof.
  apply (proj1 (check_circuit_breaker_iff_streak
                  (Sample.with_log (Sample.world 14) Sample.failing_log) "s1")).
  cbn. lia.
Defined.

(** ** Grouping by topic *)

Lemma dict_set_set {V} (d : dict V) (k : string) (v v' : V) :
  dict_set (dict_set d k v) k v' = dict_set d k v'.
Proof.
  induction d as [| [k0 v0] d IH]; simpl.
  - rewrite String.eqb_refl. reflexivity.
  - destruct (String.eqb k k0) eqn:E; simpl.
    + rewrite String.eqb_refl. reflexivity.
    + rewrite E, IH. reflexivity.
Qed.

Lemma dict_get_default_set_same {V} (d : dict V) (k : string) (v dflt : V) :
  dict_get_default (dict_set d k v) k dflt = v.
Proof. unfold dict_get_default. rewrite dict_get_set_same. reflexivity. Qed.

Lemma dict_get_default_set_other {V} (d : dict V) (k k' : string) (v dflt : V) :
  k <> k' ->
  dict_get_default (dict_set d k v) k' dflt = dict_get_default d k' dflt.
Proof.
  intros H. unfold dict_get_default. rewrite dict_get_set_other by assumption.
  reflexivity.
Qed.

Lemma dict_get_none_not_key {V} (d : dict V) (k : string) :
  dict_get d k = None <-> ~ In k (dict_keys d).
Proof.
  induction d as [| [k0 v0] d IH]; simpl.
  - split; [intros _ [] | reflexivity].
  - destruct (String.eqb k k0) eqn:E.
    + apply String.eqb_eq in E. subst. split; [discriminate |].
      intros H. exfalso. apply H. left. reflexivity.
    + apply String.eqb_neq in E. rewrite IH. split.
      * intros H [H1 | H1]; [congruence | contradiction].
      * intros H H1. apply H. right. assumption.
Qed.

Lemma dict_get_some_in {V} (d : dict V) (k : string) (v : V) :
  dict_get d k = Some v -> In (k, v) d.
Proof.
  induction d as [| [k0 v0] d IH]; simpl; [discriminate |].
  destruct (String.eqb k k0) eqn:E.
  - apply String.eqb_eq in E. subst. intros [= ->]. left. reflexivity.
  - intros H. right. apply IH. assumption.
Qed.

Lemma dict_keys_set {V} (d : dict V) (k : string) (v : V) :
  dict_keys (dict_set d k v)
  = if dict_mem d k then dict_keys d else dict_keys d ++ [k].
Proof.
  unfold dict_mem, dict_keys. induction d as [| [k0 v0] d IH]; simpl; [reflexivity |].
  destruct (String.eqb k k0) eqn:E; simpl.
  - apply String.eqb_eq in E. subst. reflexivity.
  - rewrite IH. destruct (dict_get d k); reflexivity.
Qed.

Lemma dict_set_in {V} (d : dict V) (k : string) (v : V) (k' : string) (v' : V) :
  In (k', v') (dict_set d k v) -> (k' = k /\ v' = v) \/ In (k', v') d.
Proof.
  induction d as [| [k0 v0] d IH]; simpl.
  - intros [[= <- <-] | []]. left. split; reflexivity.
  - destruct (String.eqb k k0) eqn:E; simpl.
    + intros [[= <- <-] | H]; [left; split; reflexivity | right; right; assumption].
    + intros [H | H]; [right; left; assumption |].
      destruct (IH H) as [H1 | H1]; [left; assumption | right; right; assumption].
Qed.

(** One pass of the grouping loop files the question at the end of the
    group of its topic. *)
Lemma group_by_topic_step (q : Question) (rest : list Question)
      (d : dict (list Question)) :
  group_by_topic (q :: rest) d
  = group_by_topic rest
      (dict_set d (topic q) (dict_get_default d (topic q) [] ++ [q])).
Proof.
  simpl. f_equal. unfold dict_mem, append, dict_get_default.
  destruct (dict_get d (topic q)) as [g |] eqn:E.
  - rewrite E. reflexivity.
  - rewrite dict_get_set_same, dict_set_set. reflexivity.
Qed.

(** A dictionary of groups is well formed when its keys are distinct and
    every group is a non-empty list of questions of the key's topic. *)
Lemma group_by_topic_well_formed (qs : list Question) (d : dict (list Question)) :
  NoDup (dict_keys d) ->
  (forall k g, In (k, g) d -> g <> [] /\ forall z, In z g -> topic z = k) ->
  let d' := group_by_topic qs d in
  NoDup (dict_keys d')
  /\ (forall k g, In (k, g) d' -> g <> [] /\ forall z, In z g -> topic z = k)
  /\ Permutation (flat_map snd d') (flat_map snd d ++ qs).
Proof.
  revert d. induction qs as [| q qs IH]; intros d Hnd Hwf.
  - simpl. rewrite app_nil_r. split; [assumption | split; [assumption | reflexivity]].
  - cbv zeta. rewrite group_by_topic_step.
    set (d1 := dict_set d (topic q) (dict_get_default d (topic q) [] ++ [q])).
    assert (Hnd1 : NoDup (dict_keys d1)).
    { unfold d1. rewrite dict_keys_set. unfold dict_mem.
      destruct (dict_get d (topic q)) eqn:E; [assumption |].
      apply dict_get_none_not_key in E.
      apply NoDup_app; [assumption | repeat constructor; intros [] | ].
      intros a Ha [<- | []]. contradiction. }
    assert (Hwf1 : forall k g, In (k, g) d1 ->
                               g <> [] /\ forall z, In z g -> topic z = k).
    { intros k g Hin. unfold d1 in Hin.
      apply dict_set_in in Hin. destruct Hin as [[-> ->] | Hin]; [| apply Hwf; assumption].
      split; [destruct (dict_get_default d (topic q) []); discriminate |].
      intros z Hz. apply in_app_or in Hz. destruct Hz as [Hz | [<- | []]]; [| reflexivity].
      unfold dict_get_default in Hz.
      destruct (dict_get d (topic q)) as [g0 |] eqn:E; [| destruct Hz].
      apply dict_get_some_in in E. apply (proj2 (Hwf _ _ E)). assumption. }
    assert (Hperm1 : Permutation (flat_map snd d1) (flat_map snd d ++ [q])).
    { unfold d1. clear. induction d as [| [k0 v0] d IHd].
      - simpl. reflexivity.
      - unfold dict_get_default. simpl.
        destruct (String.eqb (topic q) k0) eqn:E; simpl.
        + rewrite <- !app_assoc. apply Permutation_app_head.
          apply Permutation_app_comm.
        + rewrite <- app_assoc. apply Permutation_app_head. exact IHd. }
    destruct (IH d1 Hnd1 Hwf1) as (H1 & H2 & H3).
    split; [exact H1 | split; [exact H2 |]].
    rewrite H3, Hperm1, <- app_assoc. reflexivity.
Qed.

(** ** The random generator leaves the database alone *)

Lemma same_database_refl (w : World) : same_database w w.
Proof. unfold same_database. repeat split. Qed.

Lemma same_database_trans (w1 w2 w3 : World) :
  same_database w1 w2 -> same_database w2 w3 -> same_database w1 w3.
Proof.
  unfold same_database. intros (a1 & a2 & a3 & a4 & a5 & a6) (b1 & b2 & b3 & b4 & b5 & b6).
  repeat split; congruence.
Qed.

Lemma draw_same_database (w : World) :
  exists r w', draw w = (Ok r, w') /\ same_database w w'.
Proof.
  unfold draw. destruct (rng w) as [| r g].
  - exists 0%nat, w. split; [reflexivity | apply same_database_refl].
  - exists r, (set_rng w g). split; [reflexivity |].
    unfold same_database. repeat split.
Qed.

Lemma random_choice_in {A} (l : list A) (w : World) :
  l <> [] ->
  exists x w', random_choice l w = (Ok x, w') /\ In x l /\ same_database w w'.
Proof.
  intros Hne. unfold random_choice, bind.
  destruct (draw_same_database w) as (r & w' & -> & Hdb).
  assert (Hlt : (r mod List.length l < List.length l)%nat).
  { apply Nat.mod_upper_bound. destruct l; [congruence | simpl; lia]. }
  destruct (nth_error l (r mod List.length l)) as [x |] eqn:E.
  - exists x, w'. split; [reflexivity | split; [| assumption]].
    eapply nth_error_In. exact E.
  - apply nth_error_None in E. lia.
Qed.

(** ** The interleaving loop *)

Lemma last_item_snoc {A} (l : list A) (x : A) : last_item (l ++ [x]) = Some x.
Proof. unfold last_item. rewrite rev_app_distr. reflexivity. Qed.

Lemma list_remove_in (x t : string) (l : list string) :
  NoDup l -> (In t (list_remove x l) <-> In t l /\ t <> x).
Proof.
  induction l as [| y l IH]; intros Hnd; simpl.
  - tauto.
  - inversion Hnd as [| ? ? Hy Hl]; subst.
    destruct (String.eqb x y) eqn:E.
    + apply String.eqb_eq in E. subst y. split.
      * intros H. split; [right; assumption | intros ->; contradiction].
      * intros [[H | H] Hne]; [congruence | assumption].
    + apply String.eqb_neq in E. simpl. rewrite (IH Hl). split.
      * intros [<- | [H1 H2]]; [split; [left; reflexivity | congruence] |].
        split; [right; assumption | assumption].
      * intros [[H | H] Hne]; [left; assumption | right; split; assumption].
Qed.

Lemma list_remove_NoDup (x : string) (l : list string) :
  NoDup l -> NoDup (list_remove x l).
Proof.
  induction l as [| y l IH]; intros Hnd; simpl; [constructor |].
  inversion Hnd as [| ? ? Hy Hl]; subst.
  destruct (String.eqb x y); [assumption |].
  constructor; [| apply IH; assumption].
  intros H. apply (list_remove_in x y l Hl) in H. tauto.
Qed.

Lemma pending_agree (g g' : dict (list Question)) (r : list string) :
  (forall t, In t r -> dict_get g' t = dict_get g t) ->
  pending g' r = pending g r.
Proof.
  intros H. unfold pending. induction r as [| t r IH]; simpl; [reflexivity |].
  unfold dict_get_default at 1 3. rewrite H by (left; reflexivity).
  f_equal. apply IH. intros t' Ht'. apply H. right. assumption.
Qed.

Lemma pending_step (g : dict (list Question)) (r : list string)
      (next : string) (q : Question) (rest : list Question) :
  NoDup r -> In next r -> dict_get g next = Some (q :: rest) ->
  Permutation (pending g r) (q :: pending (dict_set g next rest) r).
Proof.
  intros Hnd Hin Hg. induction r as [| t r IH]; [destruct Hin |].
  inversion Hnd as [| ? ? Ht Hr]; subst.
  unfold pending. simpl. fold (pending g r). fold (pending (dict_set g next rest) r).
  destruct (string_dec t next) as [-> | Hne].
  - rewrite dict_get_default_set_same. unfold dict_get_default at 1. rewrite Hg.
    simpl. apply perm_skip. apply Permutation_app_head.
    rewrite (pending_agree g (dict_set g next rest) r); [reflexivity |].
    intros t' Ht'. apply dict_get_set_other. intros ->. contradiction.
  - rewrite dict_get_default_set_other by congruence.
    destruct Hin as [Hin | Hin]; [congruence |].
    rewrite (IH Hr Hin). symmetry. apply Permutation_middle.
Qed.

Lemma pending_remove_empty (g : dict (list Question)) (r : list string)
      (next : string) :
  dict_get g next = Some [] ->
  pending g (list_remove next r) = pending g r.
Proof.
  intros Hg. unfold pending. induction r as [| t r IH]; simpl; [reflexivity |].
  destruct (String.eqb next t) eqn:E.
  - apply String.eqb_eq in E. subst t. unfold dict_get_default at 2.
    rewrite Hg. reflexivity.
  - simpl. rewrite IH. reflexivity.
Qed.

Lemma pending_topics (g : dict (list Question)) (r : list string) (z : Question) :
  groups_ready g r -> In z (pending g r) -> In (topic z) r.
Proof.
  intros [_ Hg] Hz. unfold pending in Hz. apply in_flat_map in Hz.
  destruct Hz as (t & Ht & Hz). destruct (Hg t Ht) as (q & rest & E & Htop).
  unfold dict_get_default in Hz. rewrite E in Hz.
  rewrite (Htop z Hz). assumption.
Qed.

(** One emission keeps the invariant. *)
Lemma groups_ready_step (g : dict (list Question)) (r : list string)
      (next : string) (q : Question) (rest : list Question) :
  groups_ready g r -> In next r -> dict_get g next = Some (q :: rest) ->
  groups_ready (dict_set g next rest)
               (if (List.length rest =? 0)%nat then list_remove next r else r).
Proof.
  intros [Hnd Hg] Hin E. split.
  - destruct (List.length rest =? 0)%nat; [apply list_remove_NoDup |]; assumption.
  - intros t Ht.
    destruct (string_dec next t) as [<- | Hne].
    + destruct rest as [| q' rest'].
      * simpl in Ht. apply list_remove_in in Ht; [| assumption]. tauto.
      * exists q', rest'. split; [apply dict_get_set_same |].
        destruct (Hg next Hin) as (q0 & rest0 & E0 & Htop).
        rewrite E in E0. injection E0 as <- <-.
        intros z Hz. apply Htop. right. assumption.
    + assert (Ht' : In t r).
      { destruct (List.length rest =? 0)%nat; [| assumption].
        apply list_remove_in in Ht; tauto. }
      destruct (Hg t Ht') as (q0 & rest0 & E0 & Htop).
      exists q0, rest0. split; [| assumption].
      rewrite dict_get_set_other by assumption. assumption.
Qed.

Lemma interleave_loop_done (fuel : nat) (g : dict (list Question))
      (acc : list Question) (w : World) :
  interleave_loop fuel g [] acc w = (Ok acc, w).
Proof. destruct fuel; reflexivity. Qed.

Lemma interleave_loop_unfold (fuel : nat) (g : dict (list Question))
      (r : list string) (acc : list Question) :
  r <> [] ->
  interleave_loop (S fuel) g r acc
  = (let available :=
       match last_item acc with
       | Some last_q =>
           filter (fun t => negb (String.eqb t (topic last_q))) r
       | None => r
       end in
     let available :=
       if (List.length available =? 0)%nat then r else available in
     next_topic <- random_choice available ;;
     match dict_get g next_topic with
     | None => raise KeyError
     | Some [] => raise IndexError
     | Some (q :: rest) =>
         interleave_loop fuel (dict_set g next_topic rest)
           (if (List.length rest =? 0)%nat then list_remove next_topic r else r)
           (append acc q)
     end).
Proof. intros H. destruct r; [congruence | reflexivity]. Qed.

Lemma groups_ready_pending_nonempty (g : dict (list Question)) (r : list string) :
  groups_ready g r -> r <> [] -> (1 <= List.length (pending g r))%nat.
Proof.
  intros [_ Hg] Hne. destruct r as [| t r]; [congruence |].
  destruct (Hg t (or_introl eq_refl)) as (q & rest & E & _).
  unfold pending. simpl. unfold dict_get_default. rewrite E. simpl. lia.
Qed.

(** The loop emits every pending question exactly once, never raises, and
    repeats a topic only when it has to. *)
Lemma interleave_loop_spec (fuel : nat) :
  forall (g : dict (list Question)) (r : list string)
         (acc : list Question) (w : World),
    groups_ready g r ->
    (List.length (pending g r) <= fuel)%nat ->
    exists e w',
      interleave_loop fuel g r acc w = (Ok (acc ++ e), w')
      /\ Permutation e (pending g r)
      /\ repeats_only_when_forced (option_map topic (last_item acc)) e
      /\ same_database w w'.
Proof.
  induction fuel as [| fuel IH]; intros g r acc w Hready Hfuel.
  - destruct r as [| t r].
    + exists [], w. rewrite interleave_loop_done, app_nil_r.
      split; [reflexivity | split; [reflexivity | split; [exact I | apply same_database_refl]]].
    + pose proof (groups_ready_pending_nonempty g (t :: r) Hready ltac:(discriminate)).
      lia.
  - destruct (list_eq_dec string_dec r []) as [-> | Hne].
    + exists [], w. rewrite interleave_loop_done, app_nil_r.
      split; [reflexivity | split; [reflexivity | split; [exact I | apply same_database_refl]]].
    + rewrite interleave_loop_unfold by assumption. cbv zeta.
      set (avail1 := match last_item acc with
                     | Some last_q =>
                         filter (fun t => negb (String.eqb t (topic last_q))) r
                     | None => r
                     end).
      set (avail := if (List.length avail1 =? 0)%nat then r else avail1).
      assert (Havail_ne : avail <> []).
      { unfold avail. destruct (Nat.eqb_spec (List.length avail1) 0) as [E | E].
        - assumption.
        - intros ->. apply E. reflexivity. }
      assert (Havail_sub : forall t, In t avail -> In t r).
      { intros t Ht. unfold avail in Ht.
        destruct (List.length avail1 =? 0)%nat; [assumption |].
        unfold avail1 in Ht. destruct (last_item acc); [| assumption].
        apply filter_In in Ht. tauto. }
      destruct (random_choice_in avail w Havail_ne) as (next & w1 & Hc & Hin & Hdb1).
      unfold bind at 1. rewrite Hc.
      pose proof (Havail_sub next Hin) as Hin_r.
      destruct Hready as [Hnd Hg].
      destruct (Hg next Hin_r) as (q & rest & E & Htop).
      rewrite E.
      pose proof (groups_ready_step g r next q rest (conj Hnd Hg) Hin_r E) as Hready'.
      pose proof (pending_step g r next q rest Hnd Hin_r E) as Hperm.
      set (g' := dict_set g next rest) in *.
      set (r' := if (List.length rest =? 0)%nat then list_remove next r else r) in *.
      assert (Hpend' : pending g' r' = pending g' r).
      { unfold r'. destruct rest as [| q' rest']; [| reflexivity].
        simpl. apply pending_remove_empty. unfold g'. apply dict_get_set_same. }
      assert (Hfuel' : (List.length (pending g' r') <= fuel)%nat).
      { rewrite Hpend'. apply Permutation_length in Hperm. simpl in Hperm. lia. }
      destruct (IH g' r' (append acc q) w1 Hready' Hfuel')
        as (e' & w' & Hrun & Hperm' & Hrep' & Hdb').
      exists (q :: e'), w'.
      split; [| split; [| split]].
      * rewrite Hrun. unfold append. rewrite <- app_assoc. reflexivity.
      * rewrite Hperm, <- Hpend'. apply perm_skip. assumption.
      * simpl. split.
        -- intros Hprev z Hz.
           assert (Hz' : In z (pending g r)).
           { eapply Permutation_in; [symmetry; exact Hperm |]. right.
             rewrite <- Hpend'. eapply Permutation_in; [exact Hperm' | exact Hz]. }
           apply (pending_topics g r z (conj Hnd Hg)) in Hz'.
           assert (Hq : topic q = next) by (apply Htop; left; reflexivity).
           rewrite Hq in *.
           destruct (last_item acc) as [lq |] eqn:El; [| discriminate].
           simpl in Hprev. injection Hprev as Hprev.
           assert (Hempty : avail1 = []).
           { destruct (Nat.eqb_spec (List.length avail1) 0) as [E0 | E0].
             - destruct avail1; [reflexivity | discriminate].
             - exfalso. unfold avail in Hin.
               destruct (Nat.eqb_spec (List.length avail1) 0); [contradiction |].
               unfold avail1 in Hin. apply filter_In in Hin.
               destruct Hin as [_ Hin]. rewrite Hprev, String.eqb_refl in Hin.
               discriminate. }
           unfold avail1 in Hempty.
           destruct (string_dec (topic z) next) as [Heq | Hneq]; [assumption |].
           exfalso.
           assert (Hf : In (topic z)
                           (filter (fun t => negb (String.eqb t (topic lq))) r)).
           { apply filter_In. split; [assumption |].
             rewrite Hprev. apply String.eqb_neq in Hneq. rewrite Hneq. reflexivity. }
           rewrite Hempty in Hf. destruct Hf.
        -- unfold append in Hrep'. rewrite last_item_snoc in Hrep'. exact Hrep'.
      * eapply same_database_trans; eassumption.
Qed.

Lemma dict_get_in_nodup {V} (d : dict V) (k : string) (v : V) :
  NoDup (dict_keys d) -> In (k, v) d -> dict_get d k = Some v.
Proof.
  unfold dict_keys. induction d as [| [k0 v0] d IH]; simpl; [intros _ [] |].
  intros Hnd [Hin | Hin]; inversion Hnd as [| ? ? Hk Hd]; subst.
  - injection Hin as -> ->. rewrite String.eqb_refl. reflexivity.
  - destruct (String.eqb k k0) eqn:E; [| apply IH; assumption].
    apply String.eqb_eq in E. subst k0. exfalso. apply Hk.
    apply (in_map fst) in Hin. exact Hin.
Qed.

Lemma pending_all_keys (d : dict (list Question)) :
  NoDup (dict_keys d) -> pending d (dict_keys d) = flat_map snd d.
Proof.
  unfold dict_keys. induction d as [| [k0 v0] d IH]; intros Hnd; [reflexivity |].
  simpl in Hnd. inversion Hnd as [| ? ? Hk Hd]; subst.
  unfold pending. simpl map. simpl flat_map.
  unfold dict_get_default at 1. simpl. rewrite String.eqb_refl. f_equal.
  rewrite <- (IH Hd). apply pending_agree.
  intros t Ht. simpl. destruct (String.eqb t k0) eqn:E; [| reflexivity].
  apply String.eqb_eq in E. subst. contradiction.
Qed.

(** The interleaver returns for every input and every state of the random
    generator; it returns a rearrangement of its input. *)
Lemma interleave_questions_by_topic_spec (qs : list Question) (w : World) :
  exists out w',
    interleave_questions_by_topic qs w = (Ok out, w')
    /\ Permutation out qs
    /\ repeats_only_when_forced None out
    /\ same_database w w'.
Proof.
  unfold interleave_questions_by_topic.
  destruct (group_by_topic_well_formed qs [] (NoDup_nil _))
    as (Hnd & Hwf & Hperm).
  { intros k g []. }
  cbv zeta in Hnd, Hwf, Hperm. simpl in Hperm.
  set (g := group_by_topic qs []) in *.
  assert (Hready : groups_ready g (dict_keys g)).
  { split; [assumption |]. intros t Ht.
    unfold dict_keys in Ht. apply in_map_iff in Ht.
    destruct Ht as ([k grp] & <- & Hin). simpl.
    destruct (Hwf k grp Hin) as [Hne Htop].
    destruct grp as [| q rest]; [congruence |].
    exists q, rest. split; [apply dict_get_in_nodup; assumption | assumption]. }
  assert (Hlen : (List.length (pending g (dict_keys g)) <= List.length qs)%nat).
  { rewrite pending_all_keys by assumption.
    rewrite (Permutation_length Hperm). lia. }
  destruct (interleave_loop_spec (List.length qs) g (dict_keys g) [] w Hready Hlen)
    as (e & w' & Hrun & Hp & Hrep & Hdb).
  exists e, w'. split; [exact Hrun | split; [| split; assumption]].
  rewrite Hp, pending_all_keys by assumption. exact Hperm.
Qed.

Lemma repeats_only_when_forced_adjacent
      (prev : option string) (l1 l2 : list Question) (x y : Question) :
  repeats_only_when_forced prev (l1 ++ x :: y :: l2) ->
  topic x = topic y ->
  forall z, In z l2 -> topic z = topic x.
Proof.
  revert prev. induction l1 as [| a l1 IH]; intros prev H Hxy z Hz.
  - simpl in H. destruct H as [_ [H _]].
    rewrite Hxy. apply H; [rewrite Hxy; reflexivity | assumption].
  - simpl in H. destruct H as [_ H]. eapply IH; eassumption.
Qed.

Lemma repeats_only_when_forced_prefix
      (prev : option string) (l1 l2 : list Question) :
  repeats_only_when_forced prev (l1 ++ l2) -> repeats_only_when_forced prev l1.
Proof.
  revert prev. induction l1 as [| a l1 IH]; intros prev H; simpl; [exact I |].
  simpl in H. destruct H as [H1 H2]. split.
  - intros Hp z Hz. apply H1; [assumption | apply in_or_app; left; assumption].
  - apply IH. assumption.
Qed.

(** C8 fails as stated.  With three questions of one topic and one of
    another a repetition cannot be avoided; and with two questions of one
    topic and one each of two others the random picks [1, 1] emit the two
    single questions first and leave the pair for the end, although
    another order would have separated it. *)
Lemma interleave_can_put_a_topic_twice_in_a_row :
  fst (interleave_questions_by_topic
         [Sample.K1; Sample.K2; Sample.K3; Sample.R1] (Sample.world 0))
  = Ok [Sample.K1; Sample.R1; Sample.K2; Sample.K3]
  /\ has_adjacent_repeat [Sample.K1; Sample.R1; Sample.K2; Sample.K3] = true
  /\ fst (interleave_questions_by_topic
            [Sample.K1; Sample.K2; Sample.R1; Sample.L1]
            (Sample.with_rng (Sample.world 0) [1%nat; 1%nat]))
     = Ok [Sample.R1; Sample.L1; Sample.K1; Sample.K2]
  /\ has_adjacent_repeat [Sample.R1; Sample.L1; Sample.K1; Sample.K2] = true.
Proof. repeat split. Qed.

(** ** Item selection *)

Lemma str_in_In (x : string) (l : list string) : str_in x l = true <-> In x l.
Proof.
  induction l as [| y l IH]; simpl.
  - split; [discriminate | intros []].
  - destruct (String.eqb x y) eqn:E.
    + apply String.eqb_eq in E. subst. split; [left; reflexivity | reflexivity].
    + apply String.eqb_neq in E. rewrite IH. split.
      * intros H. right. assumption.
      * intros [H | H]; [congruence | assumption].
Qed.

Lemma Rltb_false_iff (x y : R) : Rltb x y = false <-> y <= x.
Proof.
  destruct (Rltb_cases x y) as [[H E] | [H E]]; rewrite E.
  - split; [discriminate | lra].
  - split; [intros _; assumption | reflexivity].
Qed.

(** [max] with a float key returns an element whose key no other exceeds. *)
Lemma max_from_greatest {A} (key : A -> R) (best : A) (l : list A) :
  let m := max_from (fun x y => Rltb (key x) (key y)) best l in
  In m (best :: l) /\ forall x, In x (best :: l) -> key x <= key m.
Proof.
  revert best. induction l as [| y l IH]; intros best; cbn [max_from].
  - split; [left; reflexivity |]. intros x [<- | []]. lra.
  - destruct (Rltb_cases (key best) (key y)) as [[H E] | [H E]]; rewrite E.
    + destruct (IH y) as [Hin Hmax]. split.
      * right. exact Hin.
      * intros x [<- | Hx]; [| apply Hmax; assumption].
        pose proof (Hmax y (or_introl eq_refl)). lra.
    + destruct (IH best) as [Hin Hmax]. split.
      * destruct Hin as [<- | Hin]; [left; reflexivity | right; right; assumption].
      * intros x [<- | [<- | Hx]].
        -- apply Hmax. left. reflexivity.
        -- pose proof (Hmax best (or_introl eq_refl)). lra.
        -- apply Hmax. right. assumption.
Qed.

Lemma passes_strict_filter_iff
      (target : R) (recent : list string) (a_min : R) (q : Question) :
  passes_strict_filter target recent a_min q = true
  <-> ~ In (question_id q) recent
      /\ a_min <= discrimination_a (irt_parameters q)
      /\ Rabs (difficulty_b (irt_parameters q) - target)
         <= OPTIMAL_DIFFICULTY_RANGE.
Proof.
  unfold passes_strict_filter. cbv zeta.
  rewrite !andb_true_iff, !negb_true_iff, !Rltb_false_iff.
  rewrite <- not_true_iff_false, str_in_In. tauto.
Qed.

(** The selector never raises: it answers [None] when the strict filter
    leaves nothing, and otherwise the first candidate of greatest Fisher
    information. *)
Lemma select_optimal_question_IRT_eq
      (w : World) (tp : string) (target : R) (recent : list string) (a_min : R) :
  select_optimal_question_IRT w tp target recent a_min
  = match filter (passes_strict_filter target recent a_min)
                 (questions_of_topic w tp) with
    | [] => Ok None
    | c :: cs =>
        Ok (Some (max_from (fun x y => Rltb (fisher_at target x)
                                            (fisher_at target y)) c cs))
    end.
Proof.
  unfold select_optimal_question_IRT, iterate.
  destruct (filter (passes_strict_filter target recent a_min)
                   (questions_of_topic w tp)) as [| c cs]; [reflexivity |].
  cbn [List.length Nat.eqb map]. unfold max_by, max_with. cbn [rbind].
  do 2 f_equal.
  generalize c. induction cs as [| d cs IH]; intros b; cbn [map max_from fst snd].
  - reflexivity.
  - destruct (Rltb (fisher_at target b) (fisher_at target d)); apply IH.
Qed.

(** The relaxation comprehension by itself keeps every document that is
    not recent, whatever its discrimination and its difficulty: both
    constraints are dropped in one step. *)
Lemma relaxed_filter_keeps_all_but_recent
      (recent : list string) (docs : list Question) (q : Question) :
  In q (filter (passes_relaxed_filter recent) docs)
  <-> In q docs /\ ~ In (question_id q) recent.
Proof.
  rewrite filter_In. unfold passes_relaxed_filter.
  rewrite negb_true_iff, <- not_true_iff_false, str_in_In. tauto.
Qed.

(** What the selector does guarantee.  It never raises.  If the
    strict filter (topic, not recent, [a >= a_min], [|b - target| <= 0.5])
    leaves candidates, the answer is one of them and no candidate has a
    greater Fisher information at the target.  If the topic has no
    question outside the recent set, the answer is [None].  Whatever item
    is returned is a question of the topic that is not recent. *)
Theorem select_optimal_question_IRT_strict_case
        (w : World) (tp : string) (target : R) (recent : list string)
        (a_min : R) :
  let strict q :=
    In q (questions w) /\ topic q = tp
    /\ ~ In (question_id q) recent
    /\ a_min <= discrimination_a (irt_parameters q)
    /\ Rabs (difficulty_b (irt_parameters q) - target) <= OPTIMAL_DIFFICULTY_RANGE in
  (exists r, select_optimal_question_IRT w tp target recent a_min = Ok r)
  /\ ((exists q0, strict q0) ->
      exists q,
        select_optimal_question_IRT w tp target recent a_min = Ok (Some q)
        /\ strict q
        /\ forall q', strict q' -> fisher_at target q' <= fisher_at target q)
  /\ ((forall q, In q (questions w) -> topic q = tp ->
                 In (question_id q) recent) ->
      select_optimal_question_IRT w tp target recent a_min = Ok None)
  /\ (forall q,
        select_optimal_question_IRT w tp target recent a_min = Ok (Some q) ->
        In q (questions w) /\ topic q = tp /\ ~ In (question_id q) recent).
Proof.
  intros strict. rewrite select_optimal_question_IRT_eq.
  set (cands := filter (passes_strict_filter target recent a_min)
                       (questions_of_topic w tp)).
  assert (Hc : forall q, In q cands <-> strict q).
  { intros q. unfold cands, strict, questions_of_topic.
    rewrite !filter_In, passes_strict_filter_iff, String.eqb_eq. tauto. }
  split; [| split; [| split]].
  - destruct cands; eexists; reflexivity.
  - intros [q0 H0]. apply Hc in H0.
    destruct cands as [| c cs]; [destruct H0 |].
    destruct (max_from_greatest (fisher_at target) c cs) as [Hin Hmax].
    eexists. split; [reflexivity |]. split.
    + apply Hc. exact Hin.
    + intros q' Hq'. apply Hmax. apply Hc. assumption.
  - intros Hall. destruct cands as [| c cs] eqn:E; [reflexivity |].
    exfalso. assert (Hs : strict c) by (apply Hc; left; reflexivity).
    destruct Hs as (H1 & H2 & H3 & _). apply H3. apply Hall; assumption.
  - intros q Hq. destruct cands as [| c cs] eqn:E; [discriminate |].
    injection Hq as <-.
    destruct (max_from_greatest (fisher_at target) c cs) as [Hin _].
    apply Hc in Hin. unfold strict in Hin. tauto.
Qed.

(** ** Evaluating the engine on sample data *)

Ltac float_fact :=
  cbv - [Rabs Rminus Rplus Rmult Rdiv Ropp Rinv IZR Rmax Rmin exp
         calculate_fisher_information calculate_probability_3PL
         Rlt Rle Rgt Rge];
  repeat match goal with
         | |- context [Rabs ?x] => unfold Rabs; destruct (Rcase_abs x)
         end;
  lra.

Ltac float_test :=
  match goal with
  | |- context [Rltb ?x ?y] =>
      first [ rewrite (Rltb_true x y) by float_fact
            | rewrite (Rltb_false x y) by float_fact ]
  | |- context [Rleb ?x ?y] =>
      first [ rewrite (Rleb_true x y) by float_fact
            | rewrite (Rleb_false x y) by float_fact ]
  end.

(** Runs the left-hand side up to the next comparison of floats. *)
Ltac run_to_test :=
  match goal with
  | |- ?x = ?r =>
      let y := eval lazy head beta iota zeta delta - [Rltb Rleb Reqb] in x in
      change (y = r); cbv beta
  end.

Ltac evaluate := run_to_test; repeat (float_test; run_to_test).

Lemma select_optimal_question_IRT_strict_case_witness :
  exists q,
    select_optimal_question_IRT (Sample.world 0) Sample.kinematics 1 []
                                (14 / 10) = Ok (Some q)
    /\ In q (questions (Sample.world 0)).
Proof.
  destruct (proj1 (proj2 (select_optimal_question_IRT_strict_case
                            (Sample.world 0) Sample.kinematics 1 [] (14 / 10))))
    as (q & E & Hq & _).
  - exists Sample.Q1. split; [left; reflexivity |].
    split; [reflexivity |]. split; [intros [] |].
    split; simpl; float_fact.
  - exists q. split; [exact E | apply Hq].
Defined.

(** C3 at a failing input.  The only question of the topic is not recent
    but its discrimination [1.2] is below the minimum [1.4].  The strict
    filter leaves nothing; the relaxation, announced by the comment
    [# If no candidates, relax constraints], iterates the generator that
    the candidate loop has already consumed, finds nothing, and the
    selector answers [None] although a question of the topic outside the
    recent set exists.  The relaxation filter applied to a fresh query of
    the topic keeps that question, and the sibling selection
    [select_questions_by_difficulty_range], which makes a new query for
    its fallback, returns it under the same minimum. *)
Lemma selector_gives_up_while_a_question_remains :
  select_optimal_question_IRT
    (Sample.with_questions (Sample.world 0) [Sample.K1])
    Sample.kinematics (1 / 2) [] (14 / 10)
  = Ok None
  /\ In Sample.K1 (questions (Sample.with_questions (Sample.world 0) [Sample.K1]))
  /\ topic Sample.K1 = Sample.kinematics
  /\ ~ In (question_id Sample.K1) []
  /\ filter (passes_relaxed_filter [])
            (questions_of_topic
               (Sample.with_questions (Sample.world 0) [Sample.K1])
               Sample.kinematics)
     = [Sample.K1]
  /\ fst (select_questions_by_difficulty_range
            Sample.kinematics RECOVERY_EASY_MIN RECOVERY_EASY_MAX 1 []
            (14 / 10)
            (Sample.with_questions (Sample.world 0) [Sample.K1]))
     = Ok [Sample.K1].
Proof.
  split; [| split; [left; reflexivity | split; [reflexivity |]]].
  - evaluate. reflexivity.
  - split; [intros [] |]. split; [reflexivity |].
    evaluate. reflexivity.
Qed.

(** ** What the computations of the engine write *)

Lemma keeps_ret {A} (a : A) : keeps_students (ret a).
Proof. intros w. reflexivity. Qed.

Lemma keeps_raise {A} (e : exn) : keeps_students (@raise A e).
Proof. intros w. reflexivity. Qed.

Lemma keeps_lift {A} (r : result A) : keeps_students (lift r).
Proof. intros w. reflexivity. Qed.

Lemma keeps_get_world : keeps_students get_world.
Proof. intros w. reflexivity. Qed.

Lemma keeps_bind {A B} (m : M A) (k : A -> M B) :
  keeps_students m -> (forall a, keeps_students (k a)) ->
  keeps_students (bind m k).
Proof.
  intros Hm Hk w. unfold bind. specialize (Hm w).
  destruct (m w) as [[a | e] w1]; simpl in *.
  - rewrite Hk. exact Hm.
  - exact Hm.
Qed.

Lemma keeps_modify (f : World -> World) :
  (forall w, students (f w) = students w) -> keeps_students (modify f).
Proof. intros H w. simpl. apply H. Qed.

Lemma keeps_draw : keeps_students draw.
Proof. intros w. unfold draw. destruct (rng w); reflexivity. Qed.

Create HintDb keeps.
#[local] Hint Resolve keeps_ret keeps_raise keeps_lift keeps_get_world
  keeps_draw : keeps.

Ltac keeps_step :=
  match goal with
  | |- keeps_students (bind _ _) => apply keeps_bind; [| intros ?]
  | |- keeps_students (match ?x with _ => _ end) => destruct x
  | |- keeps_students (fun w => (Ok _, w)) => intros ?; reflexivity
  | |- keeps_students (modify _) => apply keeps_modify; intros ?; reflexivity
  | |- _ => solve [auto with keeps]
  end.

Ltac keeps := repeat keeps_step.

Lemma keeps_random_choice {A} (l : list A) : keeps_students (random_choice l).
Proof. unfold random_choice. keeps. Qed.

Lemma keeps_sample_draws {A} (k : nat) :
  forall l : list A, keeps_students (sample_draws l k).
Proof.
  induction k as [| k IH]; intros l; cbn [sample_draws]; keeps.
Qed.

Lemma keeps_random_sample {A} (l : list A) (k : nat) :
  keeps_students (random_sample l k).
Proof. unfold random_sample. keeps. apply keeps_sample_draws. Qed.

#[local] Hint Resolve keeps_random_choice keeps_random_sample : keeps.

Lemma keeps_interleave (qs : list Question) :
  keeps_students (interleave_questions_by_topic qs).
Proof.
  intros w.
  destruct (interleave_questions_by_topic_spec qs w)
    as (out & w' & E & _ & _ & Hdb).
  rewrite E. simpl. apply Hdb.
Qed.

Lemma keeps_select_by_difficulty
      (tp : string) (lo hi : R) (count : nat) (recent : list string) (a_min : R) :
  keeps_students
    (select_questions_by_difficulty_range tp lo hi count recent a_min).
Proof. unfold select_questions_by_difficulty_range, iterate. keeps. Qed.

Lemma keeps_previously_correct
      (student_id : string) (recent from_topics : list string) :
  keeps_students (get_previously_correct_question student_id recent from_topics).
Proof. unfold get_previously_correct_question. keeps. Qed.

Lemma keeps_log_event (student_id reason : string) (b : bool) :
  keeps_students (log_circuit_breaker_event student_id reason b).
Proof. unfold log_circuit_breaker_event. keeps. Qed.

Lemma keeps_save_quiz_metadata
      (student_id qz_id : string) (n : Z) (phase : string) (qs : list Question) :
  keeps_students (save_quiz_metadata student_id qz_id n phase qs).
Proof. unfold save_quiz_metadata. keeps. Qed.

Lemma keeps_extend_each {A B} (body : A -> M (list B)) (l : list A) :
  (forall x, keeps_students (body x)) ->
  forall acc, keeps_students (extend_each l body acc).
Proof.
  intros Hb. induction l as [| x l IH]; intros acc; cbn [extend_each]; keeps.
Qed.

#[local] Hint Resolve keeps_interleave keeps_select_by_difficulty
  keeps_previously_correct keeps_log_event keeps_save_quiz_metadata : keeps.

Lemma keeps_generate_recovery_quiz (student_id : string) (s : StudentData) :
  keeps_students (generate_recovery_quiz student_id s).
Proof.
  unfold generate_recovery_quiz. keeps.
  - apply keeps_extend_each. intros x. auto with keeps.
  - apply keeps_extend_each. intros x. auto with keeps.
Qed.

Lemma keeps_exploitation_questions
      (student_id : string) (s : StudentData) (recent : list string) :
  keeps_students (exploitation_questions student_id s recent).
Proof. unfold exploitation_questions. keeps. Qed.

#[local] Hint Resolve keeps_generate_recovery_quiz
  keeps_exploitation_questions : keeps.

Lemma maintains_of_keeps {A} (Q : dict StudentData -> Prop) (m : M A) :
  keeps_students m -> maintains Q m.
Proof. intros H w HQ. rewrite H. exact HQ. Qed.

Lemma maintains_bind {A B} (Q : dict StudentData -> Prop)
      (m : M A) (k : A -> M B) :
  maintains Q m -> (forall a, maintains Q (k a)) -> maintains Q (bind m k).
Proof.
  intros Hm Hk w HQ. unfold bind. specialize (Hm w HQ).
  destruct (m w) as [[a | e] w1]; simpl in *.
  - apply Hk. exact Hm.
  - exact Hm.
Qed.

Lemma maintains_update_student (Q : dict StudentData -> Prop)
      (student_id : string) (f : StudentData -> StudentData) :
  (forall d s, Q d -> dict_get d student_id = Some s ->
               Q (dict_set d student_id (f s))) ->
  maintains Q (update_student student_id f).
Proof.
  intros H w HQ. unfold update_student, get_student.
  destruct (dict_get (students w) student_id) as [s |] eqn:E; simpl.
  - apply H; assumption.
  - exact HQ.
Qed.

(** Rewriting a document with a function that keeps the mark keeps the
    mark of every student. *)
Lemma mark_kept_by_rewrite
      (sid sid' : string) (f : StudentData -> StudentData)
      (x : option Z) (d : dict StudentData) (s : StudentData) :
  (forall s0, phase_switched_at_quiz (f s0) = phase_switched_at_quiz s0) ->
  option_map phase_switched_at_quiz (dict_get d sid) = Some x ->
  dict_get d sid' = Some s ->
  option_map phase_switched_at_quiz (dict_get (dict_set d sid' (f s)) sid)
  = Some x.
Proof.
  intros Hf HQ Hs. destruct (string_dec sid' sid) as [-> | Hne].
  - rewrite dict_get_set_same. rewrite Hs in HQ. simpl in *. rewrite Hf. exact HQ.
  - rewrite dict_get_set_other by assumption. exact HQ.
Qed.

Ltac maintains_step :=
  match goal with
  | |- maintains _ (bind _ _) => apply maintains_bind; [| intros ?]
  | |- maintains _ (update_student _ (quiz_completed _ _)) =>
      apply maintains_update_student; intros ? ? ? ?;
      apply mark_kept_by_rewrite; [intros ?; reflexivity | assumption | assumption]
  | |- maintains _ (if ?x then _ else _) => destruct x
  | |- maintains _ _ => apply maintains_of_keeps; solve [keeps]
  end.

Ltac maintains_tac := repeat maintains_step.

(** What [generate_daily_quiz] does once the phase is decided keeps the
    mark of every student. *)
Lemma quiz_tail_keeps_mark
      (sid student_id : string) (x : option Z) (s : StudentData)
      (w0 : World) (recent : list string) (quiz_count : Z)
      (phase_ratio : string * R) :
  maintains
    (fun d => option_map phase_switched_at_quiz (dict_get d sid) = Some x)
    (quiz <-
       (if String.eqb (fst phase_ratio) "exploration" then
          lift (exploration_questions w0 student_id s (snd phase_ratio) recent)
        else exploitation_questions student_id s recent) ;;
     interleaved_quiz <- interleave_questions_by_topic quiz ;;
     save_quiz_metadata student_id
       ("quiz_num" ++ str_of_Z quiz_count ++ "_"
                   ++ strftime_minutes (utcnow w0))%string
       quiz_count (fst phase_ratio) (slice_to QUIZ_LENGTH interleaved_quiz) ;;;
     update_student student_id (quiz_completed (fst phase_ratio) (utcnow w0)) ;;;
     ret (slice_to QUIZ_LENGTH interleaved_quiz)).
Proof. maintains_tac. Qed.

Lemma recovery_branch_keeps_mark
      (sid student_id : string) (x : option Z) (s : StudentData) (now : Z) :
  maintains
    (fun d => option_map phase_switched_at_quiz (dict_get d sid) = Some x)
    (recovery_quiz <- generate_recovery_quiz student_id s ;;
     update_student student_id (quiz_completed "recovery" now) ;;;
     ret recovery_quiz).
Proof. maintains_tac. Qed.

Lemma returns_with_student_bind {A B} (student_id : string)
      (P : StudentData -> Prop) (m : M A) (k : A -> M B) :
  (forall a, returns_with_student student_id P (k a)) ->
  returns_with_student student_id P (bind m k).
Proof.
  intros Hk w r. unfold bind. destruct (m w) as [[a | e] w1]; simpl.
  - apply Hk.
  - discriminate.
Qed.

Lemma returns_with_student_update {A} (student_id : string)
      (P : StudentData -> Prop) (f : StudentData -> StudentData) (x : A) :
  (forall s, P (f s)) ->
  returns_with_student student_id P (update_student student_id f ;;; ret x).
Proof.
  intros Hf w r. unfold bind, update_student.
  destruct (get_student w student_id) as [s |]; simpl; [| discriminate].
  intros _. exists (f s). split; [| apply Hf].
  unfold get_student. simpl. apply dict_get_set_same.
Qed.

(** The phase decision: its value, and its one write. *)
Lemma determine_learning_phase_value
      (student_id : string) (s : StudentData) (q : Z) (w : World) :
  get_student w student_id <> None ->
  fst (determine_learning_phase student_id s q w)
  = Ok (if (q <? EXPLORATION_END_QUIZ)%Z
        then ("exploration"%string,
              max2 (EXPLORATION_START_RATIO - IZR q * (4 / 100))
                   EXPLORATION_END_RATIO)
        else ("exploitation"%string, 0)).
Proof.
  intros Hs. unfold determine_learning_phase.
  destruct (q <? EXPLORATION_END_QUIZ)%Z; [reflexivity |].
  unfold bind. destruct (phase_switched_at_quiz s); [reflexivity |].
  unfold update_student. destruct (get_student w student_id); [reflexivity | congruence].
Qed.

Lemma generate_daily_quiz_mark
      (w : World) (student_id : string) (quiz_count_arg : option Z)
      (s : StudentData) :
  get_student w student_id = Some s ->
  phase_mark (snd (generate_daily_quiz student_id quiz_count_arg w)) student_id
  = Some (if check_circuit_breaker w student_id
          then phase_switched_at_quiz s
          else if (effective_quiz_count quiz_count_arg s <? EXPLORATION_END_QUIZ)%Z
               then phase_switched_at_quiz s
               else match phase_switched_at_quiz s with
                    | None => Some (effective_quiz_count quiz_count_arg s)
                    | Some v => Some v
                    end).
Proof.
  intros Hs. unfold generate_daily_quiz. unfold bind at 1. cbn [get_world].
  rewrite Hs. fold (effective_quiz_count quiz_count_arg s).
  set (q := effective_quiz_count quiz_count_arg s).
  assert (Hmark : option_map phase_switched_at_quiz
                             (dict_get (students w) student_id)
                  = Some (phase_switched_at_quiz s)).
  { unfold get_student in Hs. rewrite Hs. reflexivity. }
  unfold phase_mark, get_student.
  destruct (check_circuit_breaker w student_id).
  - apply (recovery_branch_keeps_mark student_id student_id
             (phase_switched_at_quiz s) s (utcnow w) w Hmark).
  - unfold bind at 1. unfold determine_learning_phase.
    destruct (q <? EXPLORATION_END_QUIZ)%Z.
    + cbn [ret]. apply (quiz_tail_keeps_mark student_id student_id _ s w). exact Hmark.
    + destruct (phase_switched_at_quiz s) as [v |] eqn:Ev.
      * cbn [bind ret]. apply (quiz_tail_keeps_mark student_id student_id _ s w).
        exact Hmark.
      * unfold bind at 1. unfold update_student. rewrite Hs. cbn [ret].
        apply (quiz_tail_keeps_mark student_id student_id _ s w).
        cbn [students set_students]. rewrite dict_get_set_same. reflexivity.
Qed.

Lemma generate_daily_quiz_keeps_set_mark
      (sid : string) (v : Z) (student_id : string) (quiz_count_arg : option Z) :
  maintains
    (fun d => option_map phase_switched_at_quiz (dict_get d sid) = Some (Some v))
    (generate_daily_quiz student_id quiz_count_arg).
Proof.
  intros w HQ. unfold generate_daily_quiz. unfold bind at 1. cbn [get_world].
  destruct (get_student w student_id) as [s |] eqn:Hs; [| exact HQ].
  destruct (check_circuit_breaker w student_id).
  - apply (recovery_branch_keeps_mark sid student_id _ s (utcnow w) w HQ).
  - unfold bind at 1. unfold determine_learning_phase.
    destruct (_ <? EXPLORATION_END_QUIZ)%Z.
    + cbn [ret]. apply (quiz_tail_keeps_mark sid student_id _ s w). exact HQ.
    + destruct (phase_switched_at_quiz s) as [v' |] eqn:Ev.
      * cbn [bind ret]. apply (quiz_tail_keeps_mark sid student_id _ s w). exact HQ.
      * unfold bind at 1. unfold update_student. rewrite Hs. cbn [ret].
        apply (quiz_tail_keeps_mark sid student_id _ s w).
        cbn [students set_students].
        destruct (string_dec student_id sid) as [-> | Hne].
        -- unfold get_student in Hs. rewrite Hs in HQ. simpl in HQ. congruence.
        -- rewrite dict_get_set_other by assumption. exact HQ.
Qed.

Lemma update_theta_keeps_mark
      (norm_cdf : R -> R) (sid : string) (x : option Z)
      (student_id qid : string) (correct : bool) (time_taken : Z) :
  maintains
    (fun d => option_map phase_switched_at_quiz (dict_get d sid) = Some x)
    (update_theta_after_response norm_cdf student_id qid correct time_taken).
Proof.
  unfold update_theta_after_response.
  apply maintains_bind; [apply maintains_of_keeps; keeps | intros w0].
  destruct (get_question w0 qid); [| apply maintains_of_keeps; keeps].
  destruct (get_student w0 student_id); [| apply maintains_of_keeps; keeps].
  apply maintains_bind; [apply maintains_of_keeps; keeps | intros t].
  apply maintains_bind; [apply maintains_of_keeps; keeps | intros upd].
  apply maintains_bind.
  - apply maintains_update_student. intros d s0 HQ Hs0.
    apply mark_kept_by_rewrite; [intros ?; reflexivity | assumption | assumption].
  - intros _. apply maintains_of_keeps. unfold add_response. keeps.
Qed.

Lemma generate_daily_quiz_records_phase
      (w : World) (student_id : string) (quiz_count_arg : option Z)
      (s : StudentData) (quiz : list Question) :
  get_student w student_id = Some s ->
  fst (generate_daily_quiz student_id quiz_count_arg w) = Ok quiz ->
  exists s',
    get_student (snd (generate_daily_quiz student_id quiz_count_arg w))
                student_id = Some s'
    /\ learning_phase s'
       = recorded_phase (check_circuit_breaker w student_id)
                        (effective_quiz_count quiz_count_arg s).
Proof.
  intros Hs H. unfold generate_daily_quiz in *.
  unfold bind at 1 in H. unfold bind at 1. cbn [get_world] in *.
  rewrite Hs in *. fold (effective_quiz_count quiz_count_arg s) in *.
  set (q := effective_quiz_count quiz_count_arg s) in *.
  unfold recorded_phase.
  destruct (check_circuit_breaker w student_id).
  - revert H.
    apply (returns_with_student_bind student_id
             (fun s' => learning_phase s' = "recovery"%string)).
    intros a. apply returns_with_student_update. reflexivity.
  - pose proof (determine_learning_phase_value student_id s q w) as Hv.
    rewrite Hs in Hv. specialize (Hv ltac:(discriminate)).
    unfold bind at 1 in H. unfold bind at 1.
    destruct (determine_learning_phase student_id s q w) as [[pr | e] w1];
      [| discriminate].
    cbn [fst] in Hv. injection Hv as ->.
    revert H.
    destruct (q <? EXPLORATION_END_QUIZ)%Z; cbn [fst snd].
    + apply (returns_with_student_bind student_id
               (fun s' => learning_phase s' = "exploration"%string)).
      intros quiz0.
      apply returns_with_student_bind. intros iq.
      apply returns_with_student_bind. intros u.
      apply returns_with_student_update. reflexivity.
    + apply (returns_with_student_bind student_id
               (fun s' => learning_phase s' = "exploitation"%string)).
      intros quiz0.
      apply returns_with_student_bind. intros iq.
      apply returns_with_student_bind. intros u.
      apply returns_with_student_update. reflexivity.
Qed.

(** C7, as the code has it.
    - The phase decision is a function of the quiz count [q]:
      exploration with ratio [max(0.6 - 0.04 q, 0.3)] when [q < 14],
      exploitation with ratio [0] when [q >= 14].
    - A call that returns a quiz records the phase: [recovery] when the
      circuit breaker triggered, and the decided phase otherwise.
    - [phase_switched_at_quiz] is written by a call only when the circuit
      breaker did not trigger, [q >= 14] and the mark is still unset; the
      value written is [q].
    - Once set, the mark is the same after any run of the engine. *)
Theorem phase_decision_and_switch_mark (norm_cdf : R -> R) :
  (forall student_id s q w,
     get_student w student_id <> None ->
     fst (determine_learning_phase student_id s q w)
     = Ok (if (q <? 14)%Z
           then ("exploration"%string, Rmax (6 / 10 - IZR q * (4 / 100)) (3 / 10))
           else ("exploitation"%string, 0)))
  /\ (forall w student_id quiz_count_arg s quiz,
        get_student w student_id = Some s ->
        fst (generate_daily_quiz student_id quiz_count_arg w) = Ok quiz ->
        exists s',
          get_student (snd (generate_daily_quiz student_id quiz_count_arg w))
                      student_id = Some s'
          /\ learning_phase s'
             = recorded_phase (check_circuit_breaker w student_id)
                              (effective_quiz_count quiz_count_arg s))
  /\ (forall w student_id quiz_count_arg s,
        get_student w student_id = Some s ->
        phase_mark (snd (generate_daily_quiz student_id quiz_count_arg w))
                   student_id
        = Some (if negb (check_circuit_breaker w student_id)
                   && (14 <=? effective_quiz_count quiz_count_arg s)%Z
                then match phase_switched_at_quiz s with
                     | None => Some (effective_quiz_count quiz_count_arg s)
                     | Some v => Some v
                     end
                else phase_switched_at_quiz s))
  /\ (forall w w' student_id v,
        phase_mark w student_id = Some (Some v) ->
        engine_run norm_cdf w w' ->
        phase_mark w' student_id = Some (Some v)).
Proof.
  split; [| split; [| split]].
  - intros. apply determine_learning_phase_value. assumption.
  - intros. eapply generate_daily_quiz_records_phase; eassumption.
  - intros w sid arg s Hs. rewrite (generate_daily_quiz_mark w sid arg s Hs).
    unfold EXPLORATION_END_QUIZ.
    destruct (check_circuit_breaker w sid); [reflexivity |]. cbn [negb andb].
    destruct (Z.ltb_spec (effective_quiz_count arg s) 14);
      destruct (Z.leb_spec 14 (effective_quiz_count arg s));
      try reflexivity; lia.
  - intros w w' sid v H0 Hrun.
    induction Hrun as [w | w w' t _ IH | w w' sid' qid c tm _ IH | w w' sid' arg _ IH].
    + exact H0.
    + exact (IH H0).
    + apply (update_theta_keeps_mark norm_cdf sid (Some v) sid' qid c tm w').
      exact (IH H0).
    + apply (generate_daily_quiz_keeps_set_mark sid v sid' arg w').
      exact (IH H0).
Qed.

(** ** Length of the emitted quiz *)

Lemma bind_fst_ok {A B} (m : M A) (k : A -> M B) (w : World) (r : B) :
  fst (bind m k w) = Ok r ->
  exists a w1, m w = (Ok a, w1) /\ fst (k a w1) = Ok r.
Proof.
  unfold bind. destruct (m w) as [[a | e] w1]; simpl.
  - intros H. exists a, w1. split; [reflexivity | exact H].
  - discriminate.
Qed.

Ltac bind_inv H :=
  apply bind_fst_ok in H;
  let a := fresh "a" in
  let w1 := fresh "w" in
  let E := fresh "E" in
  destruct H as (a & w1 & E & H).

Lemma slice_to_quiz_length {A} (l : list A) :
  (List.length (slice_to QUIZ_LENGTH l) <= 10)%nat.
Proof.
  unfold slice_to, QUIZ_LENGTH. cbn [Z.leb Z.compare].
  rewrite length_firstn. change (Z.to_nat 10) with 10%nat. lia.
Qed.

Lemma generate_recovery_quiz_length
      (student_id : string) (s : StudentData) (w : World) (quiz : list Question) :
  fst (generate_recovery_quiz student_id s w) = Ok quiz ->
  (List.length quiz <= 10)%nat.
Proof.
  intros H. unfold generate_recovery_quiz in H.
  bind_inv H. bind_inv H. bind_inv H. bind_inv H. bind_inv H.
  match type of E3 with
  | interleave_questions_by_topic ?qs ?w0 = _ =>
      destruct (interleave_questions_by_topic_spec qs w0)
        as (out & w' & Ei & Hperm & _ & _)
  end.
  rewrite Ei in E3. injection E3 as <- _.
  bind_inv H. bind_inv H. bind_inv H.
  cbn [ret fst] in H. injection H as <-.
  rewrite (Permutation_length Hperm), length_firstn. lia.
Qed.

(** C1, as the code has it.  Every quiz that [generate_daily_quiz]
    returns, on the normal path or on the recovery path, has at most ten
    items, whatever profile, catalogue and response history it is given. *)
Theorem generate_daily_quiz_length
        (w : World) (student_id : string) (quiz_count_arg : option Z)
        (quiz : list Question) :
  fst (generate_daily_quiz student_id quiz_count_arg w) = Ok quiz ->
  (List.length quiz <= 10)%nat.
Proof.
  intros H. unfold generate_daily_quiz in H.
  bind_inv H. cbn [get_world] in E. injection E as <- <-.
  destruct (get_student w student_id) as [s |]; [| discriminate].
  destruct (check_circuit_breaker w student_id).
  - bind_inv H. bind_inv H. cbn [ret fst] in H. injection H as <-.
    apply (generate_recovery_quiz_length student_id s w).
    rewrite E. reflexivity.
  - bind_inv H. bind_inv H. bind_inv H. bind_inv H. bind_inv H.
    cbn [ret fst] in H. injection H as <-.
    apply slice_to_quiz_length.
Qed.

(** ** Two sample quizzes *)

(** Quiz 14 of a student with one tested topic and one question on file:
    the weak-topic slot and the maintenance slot both pick that question. *)
Lemma sample_exploitation_quiz :
  fst (generate_daily_quiz "s1" None (Sample.world 14))
  = Ok [Sample.Q1; Sample.Q1].
Proof. evaluate. reflexivity. Qed.

(** The same student after five wrong answers in a row: the recovery quiz
    fills its easy slot and its medium slot from the same fallback. *)
Lemma sample_recovery_quiz :
  fst (generate_daily_quiz "s1" None
         (Sample.with_log (Sample.world 14) Sample.failing_log))
  = Ok [Sample.Q1; Sample.Q1].
Proof. evaluate. reflexivity. Qed.

Lemma generate_daily_quiz_length_witness :
  (List.length [Sample.Q1; Sample.Q1] <= 10)%nat.
Proof.
  apply (generate_daily_quiz_length (Sample.world 14) "s1" None
                                    [Sample.Q1; Sample.Q1]).
  exact sample_exploitation_quiz.
Defined.

(** C1 fails as stated: a quiz can hold the same question id twice, on
    the normal path and on the recovery path alike. *)
Lemma quiz_can_repeat_a_question_id :
  fst (generate_daily_quiz "s1" None (Sample.world 14))
  = Ok [Sample.Q1; Sample.Q1]
  /\ fst (generate_daily_quiz "s1" None
            (Sample.with_log (Sample.world 14) Sample.failing_log))
     = Ok [Sample.Q1; Sample.Q1]
  /\ ~ NoDup (map question_id [Sample.Q1; Sample.Q1]).
Proof.
  split; [exact sample_exploitation_quiz |].
  split; [exact sample_recovery_quiz |].
  intros H. inversion H as [| x l Hin _]; subst. apply Hin. left. reflexivity.
Qed.

Lemma phase_decision_and_switch_mark_witness :
  phase_mark (snd (generate_daily_quiz "s1" None (Sample.world 14))) "s1"
  = Some (Some 14%Z).
Proof.
  rewrite (proj1 (proj2 (proj2 (phase_decision_and_switch_mark (fun _ => 0))))
             (Sample.world 14) "s1"%string None (Sample.profile 14) eq_refl).
  reflexivity.
Defined.

(** C7 fails as stated: the first quiz generated at count [14] is a
    recovery quiz when the circuit breaker triggers.  It is returned, its
    phase is neither exploration nor exploitation, and it leaves
    [phase_switched_at_quiz] unset. *)
Lemma first_quiz_at_14_can_leave_the_mark_unset :
  let w := Sample.with_log (Sample.world 14) Sample.failing_log in
  get_student w "s1" = Some (Sample.profile 14)
  /\ effective_quiz_count None (Sample.profile 14) = 14%Z
  /\ fst (generate_daily_quiz "s1" None w) = Ok [Sample.Q1; Sample.Q1]
  /\ phase_mark (snd (generate_daily_quiz "s1" None w)) "s1" = Some None
  /\ option_map learning_phase
       (get_student (snd (generate_daily_quiz "s1" None w)) "s1")
     = Some "recovery"%string.
Proof.
  intros w.
  assert (Hs : get_student w "s1" = Some (Sample.profile 14)) by reflexivity.
  assert (Hb : check_circuit_breaker w "s1" = true) by reflexivity.
  split; [exact Hs |]. split; [reflexivity |].
  split; [exact sample_recovery_quiz |]. split.
  - rewrite (generate_daily_quiz_mark w "s1" None (Sample.profile 14) Hs).
    rewrite Hb. reflexivity.
  - destruct (generate_daily_quiz_records_phase
                w "s1" None (Sample.profile 14) _ Hs sample_recovery_quiz)
      as (s' & E & Hp).
    rewrite E. simpl. rewrite Hp, Hb. reflexivity.
Qed.

(** ** The recovery quiz *)

Lemma filter_none {A} (f : A -> bool) (l : list A) :
  (forall x, In x l -> f x = false) -> filter f l = [].
Proof.
  induction l as [| x l IH]; intros H; simpl; [reflexivity |].
  rewrite (H x (or_introl eq_refl)). apply IH.
  intros y Hy. apply H. right. assumption.
Qed.

(** An answer given 7 to 14 days ago lies inside the 30-day window of
    recent answers, so the review slot of the recovery quiz excludes every
    one of its own candidates: it is always empty. *)
Lemma recovery_review_never_found
      (w : World) (student_id : string) (from_topics : list string) :
  get_previously_correct_question
    student_id
    (get_recent_questions w student_id RECENT_QUESTIONS_WINDOW_DAYS)
    from_topics w
  = (Ok None, w).
Proof.
  unfold get_previously_correct_question, bind. cbn [get_world].
  rewrite filter_none; [reflexivity |].
  intros r Hr. apply filter_In in Hr. destruct Hr as [Hin Hr].
  rewrite !andb_true_iff in Hr. destruct Hr as [[_ Hlo] _].
  apply Z.leb_le in Hlo.
  assert (Hrecent : In (r_question_id r)
                       (get_recent_questions w student_id
                                             RECENT_QUESTIONS_WINDOW_DAYS)).
  { unfold get_recent_questions. apply in_map. apply filter_In.
    split; [assumption |]. apply Z.leb_le.
    unfold minus_days, RECENT_QUESTIONS_WINDOW_DAYS, SECONDS_PER_DAY in *. lia. }
  apply str_in_In in Hrecent. rewrite Hrecent.
  apply andb_false_r.
Qed.


(** ** The recovery quiz of the struggling student *)

Lemma filter_cons_by {A} (f : A -> bool) (x : A) (l : list A) (b : bool) :
  f x = b -> filter f (x :: l) = if b then x :: filter f l else filter f l.
Proof. intros <-. reflexivity. Qed.

Lemma filter_nil_list {A} (f : A -> bool) : filter f [] = [].
Proof. reflexivity. Qed.

(** Decides the filter on the first document of an explicit list. *)
Ltac filter_step :=
  match goal with
  | |- context [filter ?f (?x :: ?l)] =>
      let b := fresh "b" in
      let H := fresh "H" in
      evar (b : bool);
      assert (H : f x = b) by (subst b; cbv beta; evaluate; reflexivity);
      rewrite (filter_cons_by f x l b H); subst b; clear H; cbv iota
  | |- context [filter ?f []] => rewrite (filter_nil_list f)
  end.

Ltac eval_filters := repeat filter_step.

Lemma struggling_recent :
  get_recent_questions Sample.struggling_world "s1" RECENT_QUESTIONS_WINDOW_DAYS
  = ["V1"; "Q9"; "Q9"; "Q9"; "Q9"; "Q9"]%string.
Proof. reflexivity. Qed.

Lemma struggling_weakest_first :
  sorted_by (fun x : string * TopicTheta => theta (snd x))
            (theta_by_topic Sample.struggling_profile)
  = [ (Sample.kinematics, Sample.ability_at (-2));
      (Sample.rotational, Sample.ability_at (-1));
      (Sample.limits, Sample.ability_at 0);
      (Sample.reactions, Sample.ability_at 1) ].
Proof. evaluate. reflexivity. Qed.

Ltac solve_selection :=
  rewrite struggling_recent;
  unfold select_questions_by_difficulty_range, bind, get_world, iterate,
    questions_of_topic;
  cbv beta iota zeta; cbn [questions Sample.struggling_world];
  eval_filters; reflexivity.

Lemma struggling_easy_kinematics :
  select_questions_by_difficulty_range
    Sample.kinematics RECOVERY_EASY_MIN RECOVERY_EASY_MAX 2
    (get_recent_questions Sample.struggling_world "s1"
                          RECENT_QUESTIONS_WINDOW_DAYS)
    1 Sample.struggling_world
  = (Ok [Sample.EK1; Sample.EK2], Sample.struggling_world).
Proof. solve_selection. Qed.

Lemma struggling_easy_rotational :
  select_questions_by_difficulty_range
    Sample.rotational RECOVERY_EASY_MIN RECOVERY_EASY_MAX 2
    (get_recent_questions Sample.struggling_world "s1"
                          RECENT_QUESTIONS_WINDOW_DAYS)
    1 Sample.struggling_world
  = (Ok [Sample.ER1; Sample.ER2], Sample.struggling_world).
Proof. solve_selection. Qed.

Lemma struggling_easy_limits :
  select_questions_by_difficulty_range
    Sample.limits RECOVERY_EASY_MIN RECOVERY_EASY_MAX 2
    (get_recent_questions Sample.struggling_world "s1"
                          RECENT_QUESTIONS_WINDOW_DAYS)
    1 Sample.struggling_world
  = (Ok [Sample.EL1; Sample.EL2], Sample.struggling_world).
Proof. solve_selection. Qed.

Lemma struggling_easy_reactions :
  select_questions_by_difficulty_range
    Sample.reactions RECOVERY_EASY_MIN RECOVERY_EASY_MAX 2
    (get_recent_questions Sample.struggling_world "s1"
                          RECENT_QUESTIONS_WINDOW_DAYS)
    1 Sample.struggling_world
  = (Ok [Sample.EC1; Sample.EC2], Sample.struggling_world).
Proof. solve_selection. Qed.

Lemma struggling_medium_kinematics :
  select_questions_by_difficulty_range
    Sample.kinematics RECOVERY_MEDIUM_MIN RECOVERY_MEDIUM_MAX 1
    (get_recent_questions Sample.struggling_world "s1"
                          RECENT_QUESTIONS_WINDOW_DAYS)
    1 Sample.struggling_world
  = (Ok [Sample.MK1], Sample.struggling_world).
Proof. solve_selection. Qed.

Lemma struggling_medium_rotational :
  select_questions_by_difficulty_range
    Sample.rotational RECOVERY_MEDIUM_MIN RECOVERY_MEDIUM_MAX 1
    (get_recent_questions Sample.struggling_world "s1"
                          RECENT_QUESTIONS_WINDOW_DAYS)
    1 Sample.struggling_world
  = (Ok [Sample.MR1], Sample.struggling_world).
Proof. solve_selection. Qed.

(** Runs the left-hand side up to the next selection, sort or review. *)
Ltac run_to_selection :=
  match goal with
  | |- ?x = ?r =>
      let y := eval lazy head beta iota zeta delta
                 - [Rltb Rleb Reqb select_questions_by_difficulty_range
                    sorted_by get_previously_correct_question
                    get_recent_questions] in x in
      change (y = r); cbv beta; cbn [fst snd]
  end.

Ltac use_selection :=
  first [ rewrite struggling_weakest_first
        | rewrite struggling_easy_kinematics
        | rewrite struggling_easy_rotational
        | rewrite struggling_easy_limits
        | rewrite struggling_easy_reactions
        | rewrite struggling_medium_kinematics
        | rewrite struggling_medium_rotational
        | rewrite recovery_review_never_found ].

Ltac evaluate_recovery :=
  run_to_selection; repeat (use_selection; run_to_selection).

Lemma struggling_recovery_quiz :
  fst (generate_recovery_quiz "s1" Sample.struggling_profile
                              Sample.struggling_world)
  = Ok [Sample.EK1; Sample.ER1; Sample.EK2; Sample.ER2; Sample.MK1;
        Sample.MR1; Sample.EL1; Sample.EC1; Sample.EL2; Sample.EC2].
Proof. evaluate_recovery. reflexivity. Qed.

Lemma struggling_daily_quiz :
  fst (generate_daily_quiz "s1" None Sample.struggling_world)
  = Ok [Sample.EK1; Sample.ER1; Sample.EK2; Sample.ER2; Sample.MK1;
        Sample.MR1; Sample.EL1; Sample.EC1; Sample.EL2; Sample.EC2].
Proof. evaluate_recovery. reflexivity. Qed.

(** C2 at a failing input.  A student with five wrong answers in a row,
    four tested topics, two easy questions on file for each of them, a
    medium question for each of the two weakest, and a question of the
    weakest topic answered correctly ten days ago.  The recovery quiz has
    eight easy items (two for each of the four topics), two medium items
    and no review item; and the review slot finds nothing in any world. *)
Theorem recovery_quiz_has_eight_easy_and_no_review :
  let w := Sample.struggling_world in
  let easy q :=
    RECOVERY_EASY_MIN <= difficulty_b (irt_parameters q) <= RECOVERY_EASY_MAX
    /\ 1 <= discrimination_a (irt_parameters q) in
  let medium q :=
    RECOVERY_MEDIUM_MIN <= difficulty_b (irt_parameters q) <= RECOVERY_MEDIUM_MAX
    /\ 1 <= discrimination_a (irt_parameters q) in
  check_circuit_breaker w "s1" = true
  /\ fst (generate_daily_quiz "s1" None w)
     = Ok [Sample.EK1; Sample.ER1; Sample.EK2; Sample.ER2; Sample.MK1;
           Sample.MR1; Sample.EL1; Sample.EC1; Sample.EL2; Sample.EC2]
  /\ fst (generate_recovery_quiz "s1" Sample.struggling_profile w)
     = Ok [Sample.EK1; Sample.ER1; Sample.EK2; Sample.ER2; Sample.MK1;
           Sample.MR1; Sample.EL1; Sample.EC1; Sample.EL2; Sample.EC2]
  /\ Forall easy [Sample.EK1; Sample.EK2; Sample.ER1; Sample.ER2;
                  Sample.EL1; Sample.EL2; Sample.EC1; Sample.EC2]
  /\ Forall medium [Sample.MK1; Sample.MR1]
  /\ In Sample.right_answer_ten_days_ago (responses_of w "s1")
  /\ is_correct Sample.right_answer_ten_days_ago = true
  /\ r_topic Sample.right_answer_ten_days_ago = Sample.kinematics
  /\ timedelta_days (utcnow w) (answered_at Sample.right_answer_ten_days_ago)
     = 10%Z
  /\ get_question w (r_question_id Sample.right_answer_ten_days_ago)
     = Some Sample.V1
  /\ (forall w' student_id from_topics,
        get_previously_correct_question
          student_id
          (get_recent_questions w' student_id RECENT_QUESTIONS_WINDOW_DAYS)
          from_topics w'
        = (Ok None, w')).
Proof.
  intros w easy medium.
  split; [reflexivity |].
  split; [exact struggling_daily_quiz |].
  split; [exact struggling_recovery_quiz |].
  split; [repeat constructor; float_fact |].
  split; [repeat constructor; float_fact |].
  split; [left; reflexivity |].
  split; [reflexivity |].
  split; [reflexivity |].
  split; [reflexivity |].
  split; [reflexivity |].
  exact recovery_review_never_found.
Qed.

(** ** Topic order of the emitted quiz *)

Lemma generate_recovery_quiz_order
      (student_id : string) (s : StudentData) (w : World) (quiz : list Question) :
  fst (generate_recovery_quiz student_id s w) = Ok quiz ->
  repeats_only_when_forced None quiz.
Proof.
  intros H. unfold generate_recovery_quiz in H.
  bind_inv H. bind_inv H. bind_inv H. bind_inv H. bind_inv H.
  match type of E3 with
  | interleave_questions_by_topic ?qs ?w0 = _ =>
      destruct (interleave_questions_by_topic_spec qs w0)
        as (out & w' & Ei & _ & Hrep & _)
  end.
  rewrite Ei in E3. injection E3 as <- _.
  bind_inv H. bind_inv H. bind_inv H.
  cbn [ret fst] in H. injection H as <-. exact Hrep.
Qed.

Lemma generate_daily_quiz_order
      (w : World) (student_id : string) (quiz_count_arg : option Z)
      (quiz : list Question) :
  fst (generate_daily_quiz student_id quiz_count_arg w) = Ok quiz ->
  repeats_only_when_forced None quiz.
Proof.
  intros H. unfold generate_daily_quiz in H.
  bind_inv H. cbn [get_world] in E. injection E as <- <-.
  destruct (get_student w student_id) as [s |]; [| discriminate].
  destruct (check_circuit_breaker w student_id).
  - bind_inv H. bind_inv H. cbn [ret fst] in H. injection H as <-.
    apply (generate_recovery_quiz_order student_id s w).
    rewrite E. reflexivity.
  - bind_inv H. bind_inv H. bind_inv H.
    match type of E1 with
    | interleave_questions_by_topic ?qs ?w0 = _ =>
        destruct (interleave_questions_by_topic_spec qs w0)
          as (out & w' & Ei & _ & Hrep & _)
    end.
    rewrite Ei in E1. injection E1 as <- _.
    bind_inv H. bind_inv H. cbn [ret fst] in H. injection H as <-.
    unfold slice_to, QUIZ_LENGTH. cbn [Z.leb Z.compare].
    apply (repeats_only_when_forced_prefix None _ (skipn (Z.to_nat 10) out)).
    rewrite firstn_skipn. exact Hrep.
Qed.

(** C8, as the code has it.  For every input list and every state of the
    random generator the interleaver returns a rearrangement of its input
    in which two adjacent items share a topic only if every item after
    them is of that topic too: a topic is emitted twice in a row only
    when no other topic has a question left.  Every quiz returned by
    [generate_daily_quiz] is ordered in this way. *)
Theorem interleave_repeats_only_at_single_topic_tail :
  (forall (qs : list Question) (w : World),
     exists out w',
       interleave_questions_by_topic qs w = (Ok out, w')
       /\ Permutation out qs
       /\ forall l1 x y l2,
            out = l1 ++ x :: y :: l2 ->
            topic x = topic y ->
            forall z, In z l2 -> topic z = topic x)
  /\ (forall (w : World) (student_id : string) (quiz_count_arg : option Z)
             (quiz : list Question),
        fst (generate_daily_quiz student_id quiz_count_arg w) = Ok quiz ->
        forall l1 x y l2,
          quiz = l1 ++ x :: y :: l2 ->
          topic x = topic y ->
          forall z, In z l2 -> topic z = topic x).
Proof.
  split.
  - intros qs w.
    destruct (interleave_questions_by_topic_spec qs w)
      as (out & w' & Hrun & Hperm & Hrep & _).
    exists out, w'. split; [exact Hrun | split; [exact Hperm |]].
    intros l1 x y l2 -> Hxy.
    apply (repeats_only_when_forced_adjacent None l1 l2 x y Hrep Hxy).
  - intros w sid arg quiz H l1 x y l2 -> Hxy.
    apply generate_daily_quiz_order in H.
    apply (repeats_only_when_forced_adjacent None l1 l2 x y H Hxy).
Qed.

Lemma interleave_repeats_only_at_single_topic_tail_witness :
  fst (interleave_questions_by_topic
         [Sample.K1; Sample.K2; Sample.K3; Sample.R1]
         (Sample.with_rng (Sample.world 0) [1%nat]))
  = Ok [Sample.R1; Sample.K1; Sample.K2; Sample.K3]
  /\ topic Sample.K3 = topic Sample.K1.
Proof.
  destruct (proj1 interleave_repeats_only_at_single_topic_tail
                  [Sample.K1; Sample.K2; Sample.K3; Sample.R1]
                  (Sample.with_rng (Sample.world 0) [1%nat]))
    as (out & w' & E & _ & H).
  assert (Hout : fst (interleave_questions_by_topic
                        [Sample.K1; Sample.K2; Sample.K3; Sample.R1]
                        (Sample.with_rng (Sample.world 0) [1%nat]))
                 = Ok [Sample.R1; Sample.K1; Sample.K2; Sample.K3])
    by reflexivity.
  split; [exact Hout |].
  rewrite E in Hout. cbn [fst] in Hout. injection Hout as ->.
  apply (H [Sample.R1] Sample.K1 Sample.K2 [Sample.K3] eq_refl eq_refl).
  left. reflexivity.
Defined.

(* ====================================================================== *)
(** * Further properties of the engine                                      *)
(* ====================================================================== *)

(** ** The IRT kernel *)

(** X1. [calculate_fisher_information] is never negative, whatever the
    arguments, and it is [0] beyond the overflow cut-off
    [|a (theta - b)| > 20]. *)
Theorem fisher_information_nonnegative (th b a c : R) :
  0 <= calculate_fisher_information th b a c
  /\ (20 < Rabs (- a * (th - b)) ->
      calculate_fisher_information th b a c = 0).
Proof.
  unfold calculate_fisher_information. cbv zeta.
  destruct (Rltb_cases 20 (Rabs (- a * (th - b)))) as [[H E] | [H E]]; rewrite E.
  - split; [lra | reflexivity].
  - split; [| intros H'; lra].
    set (P := calculate_probability_3PL th b a c).
    destruct (Rltb_cases (1 / 100) P) as [[H1 E1] | [H1 E1]]; rewrite E1;
      [| simpl; lra].
    destruct (Rltb_cases P (99 / 100)) as [[H2 E2] | [H2 E2]]; rewrite E2;
      [| simpl; lra].
    cbn [andb].
    assert (Hden : 0 < P * (1 - P)) by nra.
    apply Rmult_le_pos; [| left; apply Rinv_0_lt_compat; assumption].
    apply Rmult_le_pos; apply pow2_ge_0.
Qed.

Lemma fisher_information_nonnegative_witness :
  calculate_fisher_information (-1) 2 10 0 = 0.
Proof.
  apply (proj2 (fisher_information_nonnegative (-1) 2 10 0)).
  unfold Rabs. destruct (Rcase_abs (- (10) * (-1 - 2))); lra.
Defined.

(** X2. [bound_theta] clamps: its value lies in [[-3, 3]], a value already
    in that range is returned unchanged, clamping twice is clamping once,
    and the order of two abilities is kept. *)
Theorem bound_theta_clamps :
  (forall x, -3 <= bound_theta x <= 3)
  /\ (forall x, -3 <= x <= 3 -> bound_theta x = x)
  /\ (forall x, bound_theta (bound_theta x) = bound_theta x)
  /\ (forall x y, x <= y -> bound_theta x <= bound_theta y).
Proof.
  assert (Hval : forall x,
             bound_theta x = if Rle_dec x (-3) then -3
                             else if Rle_dec 3 x then 3 else x).
  { intros x. unfold bound_theta, max2, min2, THETA_MIN, THETA_MAX, Rmax, Rmin.
    destruct (Rle_dec 3 x), (Rle_dec x (-3)); try lra;
      repeat match goal with
             | |- context [Rle_dec ?u ?v] => destruct (Rle_dec u v)
             end; lra. }
  split; [| split; [| split]].
  - intros x. rewrite Hval.
    destruct (Rle_dec x (-3)); [lra |]. destruct (Rle_dec 3 x); lra.
  - intros x Hx. rewrite Hval.
    destruct (Rle_dec x (-3)); [lra |]. destruct (Rle_dec 3 x); lra.
  - intros x. rewrite (Hval (bound_theta x)), (Hval x).
    destruct (Rle_dec x (-3)).
    + destruct (Rle_dec (-3) (-3)); lra.
    + destruct (Rle_dec 3 x).
      * destruct (Rle_dec 3 (-3)); [lra |]. destruct (Rle_dec 3 3); lra.
      * destruct (Rle_dec x (-3)); [lra |]. destruct (Rle_dec 3 x); lra.
  - intros x y Hxy. rewrite (Hval x), (Hval y).
    destruct (Rle_dec x (-3)), (Rle_dec y (-3)), (Rle_dec 3 x), (Rle_dec 3 y);
      lra.
Qed.

Lemma bound_theta_clamps_witness : bound_theta (5 / 2) = 5 / 2.
Proof. apply (proj1 (proj2 bound_theta_clamps)). lra. Defined.

(** ** Initial assessment *)

Lemma Reqb_cases (x y : R) :
  (x = y /\ Reqb x y = true) \/ (x <> y /\ Reqb x y = false).
Proof.
  destruct (Req_dec_T x y) as [H | H].
  - left. split; [assumption | apply Reqb_true; assumption].
  - right. split; [assumption | apply Reqb_false; assumption].
Qed.

(** Splits on every comparison of floats in the goal. *)
Ltac float_cases :=
  repeat match goal with
         | |- context [Rltb ?x ?y] =>
             let H := fresh "H" in
             let E := fresh "E" in
             destruct (Rltb_cases x y) as [[H E] | [H E]]; rewrite E; clear E
         | |- context [Reqb ?x ?y] =>
             let H := fresh "H" in
             let E := fresh "E" in
             destruct (Reqb_cases x y) as [[H E] | [H E]]; rewrite E; clear E
         end.

(** X3. [accuracy_to_theta_mapping] always answers within
    [[-2.5, 2.5]]; between the two extreme scores it is monotone in the
    accuracy; but the extreme scores are damped below their neighbours: a
    perfect score maps to a lower theta than any accuracy in [[0.9, 1)],
    and a zero score to a higher theta than any accuracy in [(0, 0.2)]. *)
Theorem accuracy_to_theta_mapping_shape :
  (forall acc n,
     - (25 / 10) <= accuracy_to_theta_mapping acc n <= 25 / 10)
  /\ (forall acc1 acc2 n1 n2,
        0 < acc1 -> acc1 <= acc2 -> acc2 < 1 ->
        accuracy_to_theta_mapping acc1 n1 <= accuracy_to_theta_mapping acc2 n2)
  /\ (forall acc n n',
        90 / 100 <= acc < 1 ->
        accuracy_to_theta_mapping 1 n < accuracy_to_theta_mapping acc n')
  /\ (forall acc n n',
        0 < acc < 20 / 100 ->
        accuracy_to_theta_mapping acc n' < accuracy_to_theta_mapping 0 n).
Proof.
  split; [| split; [| split]].
  - intros acc n. unfold accuracy_to_theta_mapping.
    float_cases; try destruct (5 <=? n)%Z; lra.
  - intros acc1 acc2 n1 n2 H0 H12 H1. unfold accuracy_to_theta_mapping.
    rewrite (Reqb_false acc1 1), (Reqb_false acc1 0),
      (Reqb_false acc2 1), (Reqb_false acc2 0) by lra.
    float_cases; lra.
  - intros acc n n' [Hlo Hhi]. unfold accuracy_to_theta_mapping.
    rewrite (Reqb_true 1 1) by reflexivity.
    rewrite (Reqb_false acc 1), (Reqb_false acc 0) by lra.
    float_cases; try lra; destruct (5 <=? n)%Z; lra.
  - intros acc n n' [Hlo Hhi]. unfold accuracy_to_theta_mapping.
    rewrite (Reqb_false 0 1), (Reqb_true 0 0) by lra.
    rewrite (Reqb_false acc 1), (Reqb_false acc 0) by lra.
    float_cases; try lra; destruct (5 <=? n)%Z; lra.
Qed.

Lemma accuracy_to_theta_mapping_shape_witness :
  accuracy_to_theta_mapping 1 10 < accuracy_to_theta_mapping (95 / 100) 10.
Proof.
  apply (proj1 (proj2 (proj2 accuracy_to_theta_mapping_shape))). lra.
Defined.

Lemma clamp_SE_monotone (x y : R) :
  x <= y ->
  min2 SE_CEILING (max2 SE_FLOOR x) <= min2 SE_CEILING (max2 SE_FLOOR y).
Proof.
  intros H. unfold min2, max2.
  apply Rle_min_compat_l. apply Rle_max_compat_l. assumption.
Qed.

(** X4. The initial standard error never grows with more evidence: for a
    fixed accuracy it is non-increasing in the number of questions, and
    for a fixed number of questions it is smallest at accuracy [0.5] and
    non-decreasing in the distance of the accuracy from [0.5]. *)
Theorem calculate_initial_SE_monotone :
  (forall n1 n2 acc,
     (1 <= n1 <= n2)%Z ->
     exists s1 s2,
       calculate_initial_SE n1 acc = Ok s1
       /\ calculate_initial_SE n2 acc = Ok s2
       /\ s2 <= s1)
  /\ (forall n acc1 acc2,
        (1 <= n)%Z ->
        Rabs (acc1 - 5 / 10) <= Rabs (acc2 - 5 / 10) ->
        exists s1 s2,
          calculate_initial_SE n acc1 = Ok s1
          /\ calculate_initial_SE n acc2 = Ok s2
          /\ s1 <= s2).
Proof.
  split.
  - intros n1 n2 acc [H1 H12].
    rewrite !initial_SE_positive by lia.
    eexists. eexists. split; [reflexivity | split; [reflexivity |]].
    apply clamp_SE_monotone.
    assert (R1 : 1 <= IZR n1) by (apply IZR_le in H1; exact H1).
    assert (R12 : IZR n1 <= IZR n2) by (apply IZR_le; exact H12).
    assert (S1 : 0 < sqrt (IZR n1)) by (apply sqrt_lt_R0; lra).
    assert (S12 : sqrt (IZR n1) <= sqrt (IZR n2)) by (apply sqrt_le_1_alt; exact R12).
    pose proof (Rabs_pos (acc - 5 / 10)) as Hp.
    apply Rmult_le_compat_r; [lra |].
    unfold Rdiv. rewrite !Rmult_1_l.
    apply Rinv_le_contravar; assumption.
  - intros n acc1 acc2 Hn Habs.
    rewrite !initial_SE_positive by lia.
    eexists. eexists. split; [reflexivity | split; [reflexivity |]].
    apply clamp_SE_monotone.
    assert (R1 : 1 <= IZR n) by (apply IZR_le in Hn; exact Hn).
    assert (S1 : 0 < sqrt (IZR n)) by (apply sqrt_lt_R0; lra).
    apply Rmult_le_compat_l; [| lra].
    unfold Rdiv. rewrite Rmult_1_l. left. apply Rinv_0_lt_compat. assumption.
Qed.

Lemma calculate_initial_SE_monotone_witness :
  exists s1 s2,
    calculate_initial_SE 4 (1 / 2) = Ok s1
    /\ calculate_initial_SE 9 (1 / 2) = Ok s2
    /\ s2 <= s1.
Proof.
  apply (proj1 calculate_initial_SE_monotone 4%Z 9%Z (1 / 2)). lia.
Defined.

Lemma dict_get_default_forall {V} (P : V -> Prop) (d : dict V) (k : string)
      (dflt : V) :
  Forall (fun kv => P (snd kv)) d -> P dflt -> P (dict_get_default d k dflt).
Proof.
  intros Hd Hdflt. unfold dict_get_default.
  destruct (dict_get d k) as [v |] eqn:E; [| assumption].
  apply dict_get_some_in in E.
  rewrite Forall_forall in Hd. apply (Hd (k, v) E).
Qed.

Lemma jee_weight_positive (tp : string) :
  0 < dict_get_default JEE_TOPIC_WEIGHTS tp (5 / 10).
Proof.
  apply (dict_get_default_forall (fun v => 0 < v)); [| lra].
  unfold JEE_TOPIC_WEIGHTS. repeat constructor; simpl; lra.
Qed.

(** The accumulation of the weighted sum keeps it between the bounds of
    the thetas, scaled by the accumulated weight. *)
Lemma weighted_sum_between (lo hi : R) (l : list (string * TopicTheta)) :
  (forall tp t, In (tp, t) l -> lo <= theta t <= hi) ->
  forall S W,
    0 <= W -> lo * W <= S <= hi * W ->
    let SW :=
      fold_left
        (fun acc (item : string * TopicTheta) =>
           let weight := dict_get_default JEE_TOPIC_WEIGHTS (fst item) (5 / 10) in
           (fst acc + theta (snd item) * weight, snd acc + weight))
        l (S, W) in
    lo * snd SW <= fst SW <= hi * snd SW
    /\ W <= snd SW
    /\ (l <> [] -> W < snd SW).
Proof.
  induction l as [| [tp t] l IH]; intros Hl S W HW HS; cbv zeta.
  - simpl. split; [assumption | split; [lra | congruence]].
  - cbn [fold_left fst snd].
    pose proof (jee_weight_positive tp) as Hw.
    pose proof (Hl tp t (or_introl eq_refl)) as Ht.
    set (wt := dict_get_default JEE_TOPIC_WEIGHTS tp (5 / 10)) in *.
    destruct (IH (fun tp' t' H => Hl tp' t' (or_intror H))
                 (S + theta t * wt) (W + wt)) as (H1 & H2 & _).
    + lra.
    + nra.
    + cbv zeta in H1, H2. split; [exact H1 | split; [lra | intros _; lra]].
Qed.

Lemma overall_theta_within (d : dict TopicTheta) (lo hi : R) :
  (forall tp t, In (tp, t) d -> lo <= theta t <= hi) ->
  (d = [] -> lo <= 0 <= hi) ->
  lo <= calculate_weighted_overall_theta d <= hi.
Proof.
  intros Hd Hempty. unfold calculate_weighted_overall_theta.
  destruct (weighted_sum_between lo hi d Hd 0 0) as (H1 & H2 & H3); [lra | lra |].
  cbv zeta in H1, H2, H3.
  destruct d as [| x d'].
  - simpl. rewrite Rltb_false by lra. apply Hempty. reflexivity.
  - specialize (H3 ltac:(discriminate)).
    destruct (fold_left _ (x :: d') (0, 0)) as [S W]. cbn [fst snd] in *.
    rewrite Rltb_true by assumption.
    split.
    + apply (Rmult_le_reg_r W); [assumption |].
      unfold Rdiv. rewrite Rmult_assoc, Rinv_l by lra. lra.
    + apply (Rmult_le_reg_r W); [assumption |].
      unfold Rdiv. rewrite Rmult_assoc, Rinv_l by lra. lra.
Qed.

(** X5. The overall theta is a weighted mean with positive weights: it is
    [0] for an empty set of estimates, and otherwise it lies between any
    two bounds that hold for every topic's theta (so it is within
    [[-3, 3]] whenever the topic thetas are). *)
Theorem weighted_overall_theta_between :
  calculate_weighted_overall_theta [] = 0
  /\ (forall (d : dict TopicTheta) (lo hi : R),
        d <> [] ->
        (forall tp t, In (tp, t) d -> lo <= theta t <= hi) ->
        lo <= calculate_weighted_overall_theta d <= hi).
Proof.
  split.
  - unfold calculate_weighted_overall_theta. simpl.
    rewrite Rltb_false by lra. reflexivity.
  - intros d lo hi Hne Hd. apply overall_theta_within; [exact Hd |].
    intros E. contradiction.
Qed.

Lemma weighted_overall_theta_between_witness :
  -2 <= calculate_weighted_overall_theta
          (theta_by_topic Sample.struggling_profile) <= 1.
Proof.
  apply (proj2 weighted_overall_theta_between).
  - discriminate.
  - intros tp t Hin. simpl in Hin.
    destruct Hin as [E | [E | [E | [E | []]]]]; injection E as _ <-; simpl; lra.
Defined.

Lemma subject_cases (tp : string) :
  get_subject_from_topic tp = "physics"%string
  \/ get_subject_from_topic tp = "chemistry"%string
  \/ get_subject_from_topic tp = "mathematics"%string
  \/ get_subject_from_topic tp = "unknown"%string.
Proof.
  unfold get_subject_from_topic.
  destruct (String.prefix "physics_" tp); [tauto |].
  destruct (String.prefix "chemistry_" tp); [tauto |].
  destruct (String.prefix "mathematics_" tp); tauto.
Qed.

(** The counting loop keeps the three keys, raises exactly on a topic of
    unknown subject, and keeps the counts non-negative. *)
Lemma count_subjects_outcome (l : list (string * TopicTheta)) :
  forall p c m,
    match count_subjects l
            [ ("physics", p); ("chemistry", c); ("mathematics", m) ]%string with
    | Ok sc =>
        (forall tp t, In (tp, t) l ->
                      get_subject_from_topic tp <> "unknown"%string)
        /\ exists p' c' m',
            sc = [ ("physics", p'); ("chemistry", c'); ("mathematics", m') ]%string
            /\ ((forall tp t, In (tp, t) l -> (0 <= attempts t)%Z) ->
                (p <= p' /\ c <= c' /\ m <= m')%Z)
    | Raise e =>
        e = KeyError
        /\ exists tp t, In (tp, t) l
                        /\ get_subject_from_topic tp = "unknown"%string
    end.
Proof.
  induction l as [| [tp t] l IH]; intros p c m.
  - simpl. split; [intros ? ? [] |].
    exists p, c, m. split; [reflexivity | intros _; lia].
  - cbn [count_subjects].
    destruct (subject_cases tp) as [E | [E | [E | E]]]; rewrite E; simpl dict_get;
      cbn [dict_set String.eqb Ascii.eqb Bool.eqb].
    1-3: match goal with
         | |- context [count_subjects _ [(_, ?p1); (_, ?c1); (_, ?m1)]] =>
             specialize (IH p1 c1 m1)
         end;
      destruct (count_subjects l _) as [sc | e];
      [ destruct IH as (Hk & p' & c' & m' & -> & Hmono); split;
        [ intros tp' t' [H | H];
          [ injection H as <- <-; rewrite E; discriminate | eapply Hk; exact H ]
        | exists p', c', m'; split; [reflexivity |];
          intros Hpos;
          pose proof (Hpos tp t (or_introl eq_refl));
          specialize (Hmono (fun tp' t' H => Hpos tp' t' (or_intror H))); lia ]
      | destruct IH as (-> & tp' & t' & Hin & Hu); split; [reflexivity |];
        exists tp', t'; split; [right; exact Hin | exact Hu] ].
    split; [reflexivity |]. exists tp, t. split; [left; reflexivity | exact E].
Qed.

(** X6. [calculate_subject_balance_initial] raises [KeyError] exactly when
    some topic is of none of the three subjects (its prefix is not
    [physics_], [chemistry_] or [mathematics_]); otherwise, with
    non-negative attempt counts, it returns a proportion for each of the
    three subjects, none negative, that add up to [1]. *)
Theorem subject_balance_initial_outcome (d : dict TopicTheta) :
  ((exists tp t, In (tp, t) d
                 /\ get_subject_from_topic tp = "unknown"%string)
   <-> calculate_subject_balance_initial d = Raise KeyError)
  /\ ((forall tp t, In (tp, t) d ->
         get_subject_from_topic tp <> "unknown"%string
         /\ (0 <= attempts t)%Z) ->
      exists p c m,
        calculate_subject_balance_initial d
        = Ok [ ("physics", p); ("chemistry", c); ("mathematics", m) ]%string
        /\ 0 <= p /\ 0 <= c /\ 0 <= m /\ p + c + m = 1).
Proof.
  unfold calculate_subject_balance_initial.
  pose proof (count_subjects_outcome d 0 0 0) as H.
  destruct (count_subjects d _) as [sc | e]; cbn [rbind].
  - destruct H as (Hk & p' & c' & m' & -> & Hmono). split.
    + split.
      * intros (tp & t & Hin & Hu). exfalso. apply (Hk tp t Hin Hu).
      * cbn [map snd fold_left].
        destruct (0 + p' + c' + m' =? 0)%Z; discriminate.
    + intros Hd.
      destruct (Hmono (fun tp t Hin => proj2 (Hd tp t Hin))) as (Hp & Hc & Hm).
      cbn [map snd fst fold_left].
      destruct (Z.eqb_spec (0 + p' + c' + m') 0) as [E0 | E0].
      * exists (1 / 3), (1 / 3), (1 / 3). split; [reflexivity |]. lra.
      * eexists. eexists. eexists. split; [reflexivity |].
        assert (Ht : 0 < IZR (0 + p' + c' + m')) by (apply IZR_lt; lia).
        apply IZR_le in Hp, Hc, Hm.
        assert (Hsum : IZR (0 + p' + c' + m') = IZR p' + IZR c' + IZR m').
        { rewrite !plus_IZR. lra. }
        repeat split; try (apply Rmult_le_pos;
                           [assumption | left; apply Rinv_0_lt_compat; assumption]).
        unfold Rdiv. rewrite <- !Rmult_plus_distr_r, <- Hsum.
        apply Rinv_r. lra.
  - destruct H as (-> & tp & t & Hin & Hu). split.
    + split; [reflexivity |]. intros _. exists tp, t. split; assumption.
    + intros Hd. exfalso. apply (proj1 (Hd tp t Hin)). exact Hu.
Qed.

Lemma subject_balance_initial_outcome_witness :
  calculate_subject_balance_initial
    [ ("biology_cells"%string, Sample.ability_at 0) ]
  = Raise KeyError.
Proof.
  apply (proj1 (proj1 (subject_balance_initial_outcome
                         [ ("biology_cells"%string, Sample.ability_at 0) ]))).
  exists "biology_cells"%string, (Sample.ability_at 0).
  split; [left; reflexivity | reflexivity].
Defined.

(** Filing a value under a key, creating the key's list when needed. *)
Lemma dict_file_under {V} (d : dict (list V)) (k : string) (x : V) :
  dict_set (if dict_mem d k then d else dict_set d k []) k
           (append
              (dict_get_default (if dict_mem d k then d else dict_set d k [])
                                k [])
              x)
  = dict_set d k (dict_get_default d k [] ++ [x]).
Proof.
  unfold dict_mem, append, dict_get_default.
  destruct (dict_get d k) as [g |] eqn:E.
  - rewrite E. reflexivity.
  - rewrite dict_get_set_same, dict_set_set. reflexivity.
Qed.

Lemma group_answers_outcome (w : World) (responses : list AssessmentAnswer) :
  forall tr,
    (forall k g, In (k, g) tr -> g <> []) ->
    match group_answers w responses tr with
    | Ok tr' => forall k g, In (k, g) tr' -> g <> []
    | Raise e =>
        e = TypeError
        /\ exists r, In r responses /\ get_question w (a_question_id r) = None
    end.
Proof.
  induction responses as [| r rest IH]; intros tr Htr; cbn [group_answers].
  - exact Htr.
  - destruct (get_question w (a_question_id r)) as [q |] eqn:Eq.
    + rewrite dict_file_under.
      specialize (IH (dict_set tr (topic q)
                               (dict_get_default tr (topic q) [] ++ [r]))).
      destruct (group_answers w rest _) as [tr' | e].
      * apply IH. intros k g Hin. apply dict_set_in in Hin.
        destruct Hin as [[_ ->] | Hin]; [| eapply Htr; exact Hin].
        destruct (dict_get_default tr (topic q) []); discriminate.
      * destruct IH as (-> & r' & Hin & Hr').
        -- intros k g Hin. apply dict_set_in in Hin.
           destruct Hin as [[_ ->] | Hin]; [| eapply Htr; exact Hin].
           destruct (dict_get_default tr (topic q) []); discriminate.
        -- split; [reflexivity |]. exists r'. split; [right; exact Hin | exact Hr'].
    + split; [reflexivity |]. exists r. split; [left; reflexivity | exact Eq].
Qed.

Lemma group_answers_unknown_question
      (w : World) (responses : list AssessmentAnswer) :
  (exists r, In r responses /\ get_question w (a_question_id r) = None) ->
  forall tr, group_answers w responses tr = Raise TypeError.
Proof.
  intros (r0 & Hin & Hr0).
  induction responses as [| r rest IH]; intros tr; [destruct Hin |].
  cbn [group_answers].
  destruct (get_question w (a_question_id r)) as [q |] eqn:Eq; [| reflexivity].
  destruct Hin as [-> | Hin]; [congruence |]. apply IH. exact Hin.
Qed.

Lemma initial_SE_in_bounds (n : Z) (acc : R) :
  (1 <= n)%Z ->
  exists se, calculate_initial_SE n acc = Ok se
             /\ SE_FLOOR <= se <= SE_CEILING.
Proof.
  intros Hn. rewrite initial_SE_positive by assumption.
  eexists. split; [reflexivity |].
  unfold min2, max2, SE_CEILING, SE_FLOOR. split.
  - apply Rmin_glb; [lra | apply Rmax_l].
  - apply Rmin_l.
Qed.

(** The estimate of a topic with at least one answer. *)
Lemma estimate_topic_in_bounds
      (norm_cdf : R -> R) (g : list AssessmentAnswer) (now : Z) :
  g <> [] ->
  exists t,
    estimate_topic norm_cdf g now = Ok t
    /\ theta_in_bounds t
    /\ (1 <= attempts t)%Z
    /\ exists a, accuracy t = Some a /\ 0 <= a <= 1.
Proof.
  intros Hg. unfold estimate_topic. cbv zeta.
  assert (Hlen : (1 <= List.length g)%nat).
  { destruct g; [congruence | simpl; lia]. }
  assert (Hcorrect : (List.length (filter a_is_correct g) <= List.length g)%nat)
    by apply filter_length_le.
  set (total := Z.of_nat (List.length g)).
  set (correct := Z.of_nat (List.length (filter a_is_correct g))).
  assert (Ht : (1 <= total)%Z) by (unfold total; lia).
  destruct (Z.ltb_spec 0 total) as [_ | Hc]; [| lia].
  destruct (initial_SE_in_bounds total (IZR correct / IZR total) Ht)
    as (se & -> & Hse).
  cbn [rbind]. eexists. split; [reflexivity |].
  unfold theta_in_bounds. cbn [theta confidence_SE attempts accuracy].
  split; [split; [apply bound_theta_range | exact Hse] |].
  split; [exact Ht |]. eexists. split; [reflexivity |].
  assert (R1 : 0 < IZR total) by (apply IZR_lt; lia).
  assert (R2 : 0 <= IZR correct) by (apply IZR_le; unfold correct; lia).
  assert (R3 : IZR correct <= IZR total) by (apply IZR_le; unfold correct, total; lia).
  split.
  - apply Rmult_le_pos; [assumption | left; apply Rinv_0_lt_compat; assumption].
  - apply (Rmult_le_reg_r (IZR total)); [assumption |].
    unfold Rdiv. rewrite Rmult_assoc, Rinv_l by lra. lra.
Qed.

Lemma estimate_topics_in_bounds
      (norm_cdf : R -> R) (now : Z)
      (groups : list (string * list AssessmentAnswer)) :
  (forall k g, In (k, g) groups -> g <> []) ->
  forall est,
    (forall k t, In (k, t) est ->
       theta_in_bounds t /\ (1 <= attempts t)%Z
       /\ exists a, accuracy t = Some a /\ 0 <= a <= 1) ->
    exists est',
      estimate_topics norm_cdf groups now est = Ok est'
      /\ forall k t, In (k, t) est' ->
           theta_in_bounds t /\ (1 <= attempts t)%Z
           /\ exists a, accuracy t = Some a /\ 0 <= a <= 1.
Proof.
  induction groups as [| [k g] groups IH]; intros Hg est Hest.
  - exists est. split; [reflexivity | exact Hest].
  - cbn [estimate_topics].
    destruct (estimate_topic_in_bounds norm_cdf g now (Hg k g (or_introl eq_refl)))
      as (t & -> & Ht).
    cbn [rbind]. apply IH.
    + intros k' g' Hin. apply (Hg k' g'). right. exact Hin.
    + intros k' t' Hin. apply dict_set_in in Hin.
      destruct Hin as [[_ ->] | Hin]; [exact Ht | eapply Hest; exact Hin].
Qed.

Lemma group_answers_keys (w : World) (responses : list AssessmentAnswer) :
  forall tr tr',
    group_answers w responses tr = Ok tr' ->
    forall k g, In (k, g) tr' ->
      In k (dict_keys tr)
      \/ exists r q, In r responses
                     /\ get_question w (a_question_id r) = Some q
                     /\ topic q = k.
Proof.
  induction responses as [| r rest IH]; intros tr tr' H k g Hin;
    cbn [group_answers] in H.
  - injection H as <-. left. apply (in_map fst) in Hin. exact Hin.
  - destruct (get_question w (a_question_id r)) as [q |] eqn:Eq; [| discriminate].
    rewrite dict_file_under in H.
    destruct (IH _ _ H k g Hin) as [Hk | (r' & q' & Hr' & Hq' & Hk)].
    + rewrite dict_keys_set in Hk.
      destruct (dict_mem tr (topic q)); [left; exact Hk |].
      apply in_app_or in Hk. destruct Hk as [Hk | [<- | []]]; [left; exact Hk |].
      right. exists r, q. split; [left; reflexivity | split; [exact Eq | reflexivity]].
    + right. exists r', q'. split; [right; exact Hr' | split; assumption].
Qed.

Lemma group_answers_known (w : World) (responses : list AssessmentAnswer) :
  (forall r, In r responses -> get_question w (a_question_id r) <> None) ->
  forall tr, exists tr', group_answers w responses tr = Ok tr'.
Proof.
  induction responses as [| r rest IH]; intros Hall tr; cbn [group_answers].
  - eexists. reflexivity.
  - destruct (get_question w (a_question_id r)) as [q |] eqn:Eq.
    + apply IH. intros r' Hr'. apply Hall. right. exact Hr'.
    + exfalso. apply (Hall r (or_introl eq_refl)). exact Eq.
Qed.

Lemma estimate_topics_keys
      (norm_cdf : R -> R) (now : Z)
      (groups : list (string * list AssessmentAnswer)) :
  forall est est',
    estimate_topics norm_cdf groups now est = Ok est' ->
    forall k t, In (k, t) est' ->
      In k (dict_keys est) \/ In k (dict_keys groups).
Proof.
  induction groups as [| [k0 g0] groups IH]; intros est est' H k t Hin;
    cbn [estimate_topics] in H.
  - injection H as <-. left. apply (in_map fst) in Hin. exact Hin.
  - destruct (estimate_topic norm_cdf g0 now) as [t0 | e]; [| discriminate].
    cbn [rbind] in H.
    destruct (IH _ _ H k t Hin) as [Hk | Hk].
    + rewrite dict_keys_set in Hk.
      destruct (dict_mem est k0); [left; exact Hk |].
      apply in_app_or in Hk. destruct Hk as [Hk | [<- | []]]; [left; exact Hk |].
      right. left. reflexivity.
    + right. right. exact Hk.
Qed.

(** X7. [process_initial_assessment] either fails without writing, or
    returns a profile and stores it as the student's document.  In the
    stored profile every topic estimate is within the bounds of the data
    model (theta in [[-3, 3]], SE in [[0.1, 0.6]]), counts at least one
    attempt and has an accuracy in [[0, 1]]; the overall theta is within
    [[-3, 3]]; the quiz count is [0], the phase [exploration], the phase
    mark unset, and the number of solved questions is the number of
    responses.  A response to a question that is not on file makes the
    call fail with [TypeError]; when every response is to a question on
    file whose topic is of one of the three subjects, the call returns. *)
Theorem process_initial_assessment_outcome
        (norm_cdf : R -> R) (student_id : string)
        (responses : list AssessmentAnswer) (w : World) :
  let run := process_initial_assessment norm_cdf student_id responses w in
  (forall e, fst run = Raise e -> snd run = w)
  /\ ((exists r, In r responses /\ get_question w (a_question_id r) = None) ->
      fst run = Raise TypeError)
  /\ ((forall r, In r responses ->
         exists q, get_question w (a_question_id r) = Some q
                   /\ get_subject_from_topic (topic q) <> "unknown"%string) ->
      exists profile, fst run = Ok profile)
  /\ (forall profile,
        fst run = Ok profile ->
        let data := profile_data profile in
        get_student (snd run) student_id = Some data
        /\ (forall tp t, In (tp, t) (theta_by_topic data) ->
              theta_in_bounds t /\ (1 <= attempts t)%Z
              /\ exists a, accuracy t = Some a /\ 0 <= a <= 1)
        /\ (exists o, overall_theta data = Some o /\ -3 <= o <= 3)
        /\ completed_quiz_count data = Some 0%Z
        /\ learning_phase data = "exploration"%string
        /\ phase_switched_at_quiz data = None
        /\ total_questions_solved data = Z.of_nat (List.length responses)).
Proof.
  cbv zeta. unfold process_initial_assessment, bind, get_world, lift, modify, ret.
  cbv beta iota.
  pose proof (group_answers_outcome w responses [] ltac:(intros ? ? [])) as Hgroup.
  split; [| split; [| split]].
  - intros e.
    destruct (group_answers w responses []) as [tr | e1]; cbv beta iota;
      [| reflexivity].
    destruct (estimate_topics norm_cdf tr (utcnow w) []) as [est | e2];
      cbv beta iota; [| reflexivity].
    destruct (calculate_subject_balance_initial est) as [bal | e3];
      cbv beta iota; [discriminate | reflexivity].
  - intros Hex.
    rewrite (group_answers_unknown_question w responses Hex []). reflexivity.
  - intros Hall.
    destruct (group_answers_known w responses) with (tr := @nil (string * list AssessmentAnswer))
      as [tr Etr].
    { intros r Hr. destruct (Hall r Hr) as (q & -> & _). discriminate. }
    rewrite Etr in *. cbv beta iota.
    destruct (estimate_topics_in_bounds norm_cdf (utcnow w) tr Hgroup []
                                        ltac:(intros ? ? []))
      as (est & Eest & Hest).
    rewrite Eest. cbv beta iota.
    destruct (calculate_subject_balance_initial est) as [bal | e3] eqn:Ebal;
      cbv beta iota; [eexists; reflexivity |].
    exfalso.
    assert (Hunk : exists tp t, In (tp, t) est
                                /\ get_subject_from_topic tp = "unknown"%string).
    { unfold calculate_subject_balance_initial in Ebal.
      pose proof (count_subjects_outcome est 0 0 0) as Hc.
      destruct (count_subjects est _) as [sc | e4]; cbn [rbind] in Ebal.
      - destruct (fold_left Z.add (map snd sc) 0 =? 0)%Z; discriminate.
      - destruct Hc as (_ & tp & t & Hin & Hu). exists tp, t. split; assumption. }
    destruct Hunk as (tp & t & Hin & Hu).
    destruct (estimate_topics_keys norm_cdf (utcnow w) tr [] est Eest tp t Hin)
      as [[] | Hk].
    unfold dict_keys in Hk. apply in_map_iff in Hk.
    destruct Hk as ([k g] & Ek & Hkg). cbn [fst] in Ek. subst k.
    destruct (group_answers_keys w responses [] tr Etr tp g Hkg)
      as [[] | (r & q & Hr & Hq & Htq)].
    destruct (Hall r Hr) as (q' & Hq' & Hsub).
    rewrite Hq in Hq'. injection Hq' as <-. rewrite Htq in Hsub. contradiction.
  - intros profile.
    destruct (group_answers w responses []) as [tr | e1]; cbv beta iota;
      [| discriminate].
    destruct (estimate_topics_in_bounds norm_cdf (utcnow w) tr Hgroup []
                                        ltac:(intros ? ? []))
      as (est & -> & Hest).
    cbv beta iota.
    destruct (calculate_subject_balance_initial est) as [bal | e3];
      cbv beta iota; [| discriminate].
    cbn [fst snd]. intros [= <-]. cbn [profile_data].
    split; [unfold get_student; cbn [students set_students];
            apply dict_get_set_same |].
    split; [exact Hest |].
    split.
    { eexists. split; [reflexivity |].
      apply overall_theta_within; [| intros _; lra].
      intros tp t Hin. destruct (Hest tp t Hin) as [[Hth _] _].
      unfold THETA_MIN, THETA_MAX in Hth. exact Hth. }
    repeat split.
Qed.

Lemma process_initial_assessment_outcome_witness :
  exists profile,
    fst (process_initial_assessment
           (fun _ => 1 / 2) "s2"
           [ {| a_question_id := "Q1"; a_answer := "A"; a_is_correct := true;
                a_time_taken := 95 |};
             {| a_question_id := "Q1"; a_answer := "C"; a_is_correct := false;
                a_time_taken := 140 |} ]
           (Sample.world 0))
    = Ok profile.
Proof.
  apply (proj1 (proj2 (proj2 (process_initial_assessment_outcome
                                (fun _ => 1 / 2) "s2" _ (Sample.world 0))))).
  intros r [<- | [<- | []]]; exists Sample.Q1; split;
    solve [reflexivity | discriminate].
Defined.

(** ** The ability store *)

(** X8. [update_theta_after_response] writes nothing when it raises.
    When it returns, the student's response log has grown by exactly one
    entry, which records the question, the correctness, the clock and a
    [theta_after] that is the value returned, the value stored for the
    topic, and [bound_theta (theta_before + theta_delta)]; the attempt
    counter of the topic and the number of solved questions have each
    grown by one. *)
Theorem update_theta_after_response_outcome
        (norm_cdf : R -> R) (student_id qid : string) (correct : bool)
        (time_taken : Z) (w : World) :
  let run := update_theta_after_response norm_cdf student_id qid correct
                                         time_taken w in
  (forall e, fst run = Raise e -> snd run = w)
  /\ (forall th,
        fst run = Ok th ->
        exists q s s' r,
          get_question w qid = Some q
          /\ get_student w student_id = Some s
          /\ get_student (snd run) student_id = Some s'
          /\ responses_of (snd run) student_id
             = responses_of w student_id ++ [r]
          /\ r_question_id r = qid
          /\ r_topic r = topic q
          /\ is_correct r = correct
          /\ answered_at r = utcnow w
          /\ theta_after r = th
          /\ theta_after r = bound_theta (theta_before r + theta_delta r)
          /\ option_map theta (dict_get (theta_by_topic s') (topic q)) = Some th
          /\ dict_get (topic_attempt_counts s') (topic q)
             = Some (dict_get_default (topic_attempt_counts s) (topic q) 0 + 1)%Z
          /\ total_questions_solved s' = (total_questions_solved s + 1)%Z).
Proof.
  cbv zeta. unfold update_theta_after_response, bind, get_world.
  destruct (get_question w qid) as [q |] eqn:Eq;
    [| split; [reflexivity | discriminate]].
  destruct (get_student w student_id) as [s |] eqn:Es;
    [| split; [reflexivity | discriminate]].
  set (prior := match dict_get (theta_by_topic s) (topic q) with
                | Some t => ret t
                | None => lift (get_theta_for_untested_topic
                                  norm_cdf student_id (topic q) s)
                end).
  assert (Hprior : exists res, prior w = (res, w)).
  { unfold prior. destruct (dict_get (theta_by_topic s) (topic q));
      eexists; reflexivity. }
  destruct Hprior as [res ->].
  destruct res as [t | e0]; [| split; [reflexivity | discriminate]].
  unfold lift.
  destruct (updated_topic_theta norm_cdf t (irt_parameters q) correct (utcnow w))
    as [[new_t d] | e1] eqn:Eu; [| split; [reflexivity | discriminate]].
  cbn [fst snd]. unfold update_student. rewrite Es. unfold add_response, modify, ret.
  cbv beta iota. cbn [fst snd].
  split; [discriminate |].
  intros th [= <-].
  exists q, s. eexists. eexists.
  split; [reflexivity |]. split; [reflexivity |].
  split.
  { unfold get_student. cbn [students set_students set_student_responses].
    apply dict_get_set_same. }
  split.
  { unfold responses_of at 1. cbn [student_responses set_student_responses].
    rewrite dict_get_default_set_same. unfold append. f_equal. }
  cbn [r_question_id r_topic is_correct answered_at theta_after theta_before
       theta_delta].
  repeat (split; [reflexivity |]).
  split.
  { unfold updated_topic_theta in Eu.
    destruct (response_delta (theta t) (attempts t) (irt_parameters q) correct)
      as [dl | e]; [| discriminate].
    cbn [rbind] in Eu.
    match type of Eu with
    | rbind ?x _ = _ => destruct x as [acc | e]; [| discriminate]
    end.
    cbn [rbind] in Eu. injection Eu as <- <-. reflexivity. }
  cbn [write_topic_theta theta_by_topic topic_attempt_counts
       total_questions_solved].
  rewrite !dict_get_set_same. repeat split.
Qed.

Lemma update_theta_after_response_outcome_witness :
  exists r,
    responses_of
      (snd (update_theta_after_response (fun _ => 1 / 2) "s1" "Q1" true 95
                                        (Sample.world 0))) "s1"
    = responses_of (Sample.world 0) "s1" ++ [r]
    /\ is_correct r = true.
Proof.
  destruct (update_theta_after_response_writes
              (fun _ => 1 / 2) "s1" "Q1" true 95 (Sample.world 0)
              Sample.Q1 (Sample.profile 0) Sample.ability
              eq_refl eq_refl eq_refl ltac:(simpl; lia))
    as (new_t & _ & Hfst & _).
  destruct (proj2 (update_theta_after_response_outcome
                     (fun _ => 1 / 2) "s1" "Q1" true 95 (Sample.world 0))
                  (theta new_t) Hfst)
    as (q & s & s' & r & _ & _ & _ & Hlog & _ & _ & Hc & _).
  exists r. split; [exact Hlog | exact Hc].
Defined.

Lemma updated_topic_theta_value
      (norm_cdf : R -> R) (t : TopicTheta) (irt : IRTParameters)
      (correct : bool) (now : Z) (t' : TopicTheta) (d : R) :
  (0 <= attempts t)%Z ->
  updated_topic_theta norm_cdf t irt correct now = Ok (t', d) ->
  let lr := BASE_LEARNING_RATE / (1 + LEARNING_RATE_DECAY * IZR (attempts t)) in
  let P := calculate_probability_3PL (theta t) (difficulty_b irt)
             (discrimination_a irt) (guessing_c irt) in
  d = (if correct then lr * (1 - P) else - lr * P)
  /\ theta t' = bound_theta (theta t + d)
  /\ attempts t' = (attempts t + 1)%Z
  /\ accuracy t'
     = Some (match accuracy t with
             | Some old => (old * IZR (attempts t) + (if correct then 1 else 0))
                           / IZR (attempts t + 1)
             | None => if correct then 1 else 0
             end).
Proof.
  intros Hn H. unfold updated_topic_theta in H.
  rewrite response_delta_value in H by assumption. cbn [rbind] in H.
  assert (Hacc : match accuracy t with
                 | Some old_accuracy =>
                     truediv (old_accuracy * IZR (attempts t)
                              + (if correct then 1 else 0))
                             (IZR (attempts t + 1))
                 | None => Ok (if correct then 1 else 0)
                 end
                 = Ok (match accuracy t with
                       | Some old =>
                           (old * IZR (attempts t) + (if correct then 1 else 0))
                           / IZR (attempts t + 1)
                       | None => if correct then 1 else 0
                       end)).
  { destruct (accuracy t); [| reflexivity].
    unfold truediv. rewrite Reqb_false; [reflexivity |].
    apply not_0_IZR. lia. }
  rewrite Hacc in H. cbn [rbind] in H. injection H as <- <-.
  cbv zeta. cbn [theta attempts accuracy]. repeat split.
Qed.

(** X9. One answer moves the stored theta in the direction of the answer
    and by no more than the base learning rate: for an entry with theta in
    [[-3, 3]] and a non-negative attempts count, and an item with
    [0 <= c < 1], the new theta is not below the old one after a correct
    answer, not above it after an incorrect one, and it differs from the
    old one by at most [0.3]. *)
Theorem updated_theta_direction_and_step
        (norm_cdf : R -> R) (t : TopicTheta) (irt : IRTParameters)
        (correct : bool) (now : Z) (t' : TopicTheta) (d : R) :
  (0 <= attempts t)%Z ->
  THETA_MIN <= theta t <= THETA_MAX ->
  0 <= guessing_c irt < 1 ->
  updated_topic_theta norm_cdf t irt correct now = Ok (t', d) ->
  (if correct then theta t <= theta t' else theta t' <= theta t)
  /\ Rabs (theta t' - theta t) <= BASE_LEARNING_RATE.
Proof.
  intros Hn Hth Hc H.
  destruct (updated_topic_theta_value norm_cdf t irt correct now t' d Hn H)
    as (Hd & Ht' & _).
  cbv zeta in Hd.
  pose proof (probability_range (theta t) (difficulty_b irt)
                                (discrimination_a irt) (guessing_c irt) Hc) as HP.
  pose proof (learning_rate_pos (attempts t) Hn) as Hlr.
  assert (Hlr1 : BASE_LEARNING_RATE / (1 + LEARNING_RATE_DECAY * IZR (attempts t))
                 <= BASE_LEARNING_RATE).
  { apply IZR_le in Hn. unfold BASE_LEARNING_RATE, LEARNING_RATE_DECAY.
    apply (Rmult_le_reg_r (1 + 2 / 100 * IZR (attempts t))); [lra |].
    unfold Rdiv at 1. rewrite Rmult_assoc, Rinv_l by lra. nra. }
  set (lr := BASE_LEARNING_RATE / (1 + LEARNING_RATE_DECAY * IZR (attempts t))) in *.
  set (P := calculate_probability_3PL (theta t) (difficulty_b irt)
              (discrimination_a irt) (guessing_c irt)) in *.
  assert (Hclamp : forall x,
             bound_theta x = if Rle_dec x (-3) then -3
                             else if Rle_dec 3 x then 3 else x).
  { intros x. unfold bound_theta, max2, min2, THETA_MIN, THETA_MAX, Rmax, Rmin.
    destruct (Rle_dec 3 x), (Rle_dec x (-3)); try lra;
      repeat match goal with
             | |- context [Rle_dec ?u ?v] => destruct (Rle_dec u v)
             end; lra. }
  rewrite Ht', Hclamp. unfold THETA_MIN, THETA_MAX, BASE_LEARNING_RATE in *.
  destruct correct; subst d.
  - assert (0 <= lr * (1 - P) <= 3 / 10) by nra.
    destruct (Rle_dec (theta t + lr * (1 - P)) (-3));
      [| destruct (Rle_dec 3 (theta t + lr * (1 - P)))];
      (split; [lra | unfold Rabs; destruct (Rcase_abs _); lra]).
  - assert (0 <= lr * P <= 3 / 10) by nra.
    destruct (Rle_dec (theta t + - lr * P) (-3));
      [| destruct (Rle_dec 3 (theta t + - lr * P))];
      (split; [lra | unfold Rabs; destruct (Rcase_abs _); lra]).
Qed.

Lemma updated_topic_theta_total
      (norm_cdf : R -> R) (t : TopicTheta) (irt : IRTParameters)
      (correct : bool) (now : Z) :
  (0 <= attempts t)%Z ->
  exists t' d, updated_topic_theta norm_cdf t irt correct now = Ok (t', d).
Proof.
  intros Hn. unfold updated_topic_theta.
  rewrite response_delta_value by assumption. cbn [rbind].
  destruct (accuracy t) as [old |].
  - unfold truediv. rewrite Reqb_false by (apply not_0_IZR; lia).
    cbn [rbind]. eexists. eexists. reflexivity.
  - cbn [rbind]. eexists. eexists. reflexivity.
Qed.

Lemma updated_theta_direction_and_step_witness :
  exists t' d,
    updated_topic_theta (fun _ => 1 / 2) Sample.ability Sample.hard_mcq
                        true 0 = Ok (t', d)
    /\ theta Sample.ability <= theta t'.
Proof.
  destruct (updated_topic_theta_total (fun _ => 1 / 2) Sample.ability
                                      Sample.hard_mcq true 0)
    as (t' & d & E); [simpl; lia |].
  exists t', d. split; [exact E |].
  apply (proj1 (updated_theta_direction_and_step
                  (fun _ => 1 / 2) Sample.ability Sample.hard_mcq true 0 t' d
                  ltac:(simpl; lia)
                  ltac:(unfold THETA_MIN, THETA_MAX; simpl; lra)
                  ltac:(simpl; lra) E)).
Defined.

(** X10. The running accuracy stays a proportion: with a non-negative
    attempts count and a stored accuracy in [[0, 1]] the new accuracy is
    in [[0, 1]] again, and if the stored accuracy is [k] correct answers
    out of the [n > 0] attempts counted so far, the new one is [k] (plus
    one after a correct answer) out of [n + 1].  A record without an
    accuracy gets [1.0] or [0.0], whatever its attempts count. *)
Theorem running_accuracy_stays_a_proportion
        (norm_cdf : R -> R) (t : TopicTheta) (irt : IRTParameters)
        (correct : bool) (now : Z) (t' : TopicTheta) (d : R) :
  (0 <= attempts t)%Z ->
  updated_topic_theta norm_cdf t irt correct now = Ok (t', d) ->
  exists a',
    accuracy t' = Some a'
    /\ (forall a, accuracy t = Some a -> 0 <= a <= 1 -> 0 <= a' <= 1)
    /\ (forall a k, accuracy t = Some a ->
          a * IZR (attempts t) = IZR k ->
          a' * IZR (attempts t') = IZR (k + (if correct then 1 else 0)))
    /\ (accuracy t = None -> a' = if correct then 1 else 0).
Proof.
  intros Hn H.
  destruct (updated_topic_theta_value norm_cdf t irt correct now t' d Hn H)
    as (_ & _ & Hatt & Hacc).
  eexists. split; [exact Hacc |].
  assert (Hpos : 0 < IZR (attempts t + 1)) by (apply IZR_lt; lia).
  assert (Hn' : 0 <= IZR (attempts t)) by (apply IZR_le; exact Hn).
  assert (Hplus : IZR (attempts t + 1) = IZR (attempts t) + 1)
    by (rewrite plus_IZR; reflexivity).
  assert (Hx : 0 <= (if correct then 1 else 0) <= 1) by (destruct correct; lra).
  split; [| split].
  - intros a Ha Hrange. rewrite Ha. split.
    + apply Rmult_le_pos; [nra | left; apply Rinv_0_lt_compat; assumption].
    + apply (Rmult_le_reg_r (IZR (attempts t + 1))); [assumption |].
      unfold Rdiv. rewrite Rmult_assoc, Rinv_l by lra. nra.
  - intros a k Ha Hk. rewrite Ha, Hatt.
    unfold Rdiv. rewrite Rmult_assoc, Rinv_l by lra.
    rewrite Hk, plus_IZR. destruct correct; lra.
  - intros Hnone. rewrite Hnone. reflexivity.
Qed.

Lemma running_accuracy_stays_a_proportion_witness :
  exists t' d a',
    updated_topic_theta (fun _ => 1 / 2) (Sample.ability_at 0) Sample.hard_mcq
                        true 0 = Ok (t', d)
    /\ accuracy t' = Some a'
    /\ 0 <= a' <= 1.
Proof.
  destruct (updated_topic_theta_total (fun _ => 1 / 2) (Sample.ability_at 0)
                                      Sample.hard_mcq true 0)
    as (t' & d & E); [simpl; lia |].
  destruct (running_accuracy_stays_a_proportion
              (fun _ => 1 / 2) (Sample.ability_at 0) Sample.hard_mcq true 0 t' d
              ltac:(simpl; lia) E)
    as (a' & Ha' & Hrange & _).
  exists t', d, a'. split; [exact E | split; [exact Ha' |]].
  apply (Hrange (1 / 2)); [reflexivity | lra].
Defined.

Lemma collect_thetas (d : dict TopicTheta) (keys : list string) :
  (forall k, In k keys -> In k (dict_keys d)) ->
  exists l,
    fold_right
      (fun t acc =>
         rbind acc (fun l =>
         match dict_get d t with
         | Some e => Ok (theta e :: l)
         | None => Raise KeyError
         end))
      (Ok []) keys = Ok l
    /\ List.length l = List.length keys
    /\ forall x, In x l -> exists k e, In (k, e) d /\ x = theta e.
Proof.
  induction keys as [| k keys IH]; intros Hk.
  - exists []. split; [reflexivity | split; [reflexivity | intros x []]].
  - destruct IH as (l & E & Hlen & Hl).
    { intros k' H'. apply Hk. right. exact H'. }
    cbn [fold_right]. rewrite E. cbn [rbind].
    destruct (dict_get d k) as [e |] eqn:Ed.
    + exists (theta e :: l). split; [reflexivity |].
      split; [simpl; rewrite Hlen; reflexivity |].
      intros x [<- | Hx]; [| apply Hl; exact Hx].
      exists k, e. split; [apply dict_get_some_in; exact Ed | reflexivity].
    + exfalso. apply dict_get_none_not_key in Ed. apply Ed. apply Hk.
      left. reflexivity.
Qed.

Lemma py_sum_between (lo hi : R) (l : list R) :
  (forall x, In x l -> lo <= x <= hi) ->
  lo * INR (List.length l) <= py_sum l <= hi * INR (List.length l).
Proof.
  intros Hl. unfold py_sum.
  assert (H : forall a,
             lo * INR (List.length l) + a <= fold_left Rplus l a
             <= hi * INR (List.length l) + a).
  { induction l as [| x l IH]; intros a.
    - simpl. lra.
    - cbn [fold_left]. change (List.length (x :: l)) with (S (List.length l)).
      rewrite S_INR.
      pose proof (Hl x (or_introl eq_refl)).
      specialize (IH (fun y Hy => Hl y (or_intror Hy)) (a + x)). lra. }
  specialize (H 0). lra.
Qed.

(** X11. The prior for an untested topic never raises.  It has the
    ceiling standard error [0.6], no attempts, no accuracy and no update
    time, and its theta is the mean of the thetas of the tested topics of
    the same subject, or else the profile's overall theta, or else [0]:
    it lies between any two bounds that hold for every stored theta and
    for the overall theta. *)
Theorem untested_topic_prior
        (norm_cdf : R -> R) (student_id tp : string) (s : StudentData) :
  exists t,
    get_theta_for_untested_topic norm_cdf student_id tp s = Ok t
    /\ confidence_SE t = SE_CEILING
    /\ attempts t = 0%Z
    /\ accuracy t = None
    /\ last_updated t = None
    /\ forall lo hi,
         (forall k e, In (k, e) (theta_by_topic s) -> lo <= theta e <= hi) ->
         match overall_theta s with
         | Some o => lo <= o <= hi
         | None => lo <= 0 <= hi
         end ->
         lo <= theta t <= hi.
Proof.
  unfold get_theta_for_untested_topic. cbv zeta.
  set (keys := filter (fun t => String.eqb (get_subject_from_topic t)
                                           (get_subject_from_topic tp))
                      (dict_keys (theta_by_topic s))).
  destruct (collect_thetas (theta_by_topic s) keys) as (l & El & Hlen & Hl).
  { intros k Hk. unfold keys in Hk. apply filter_In in Hk. tauto. }
  destruct (Nat.ltb_spec 0 (List.length keys)) as [Hpos | Hzero].
  - rewrite El. cbn [rbind]. unfold truediv.
    assert (Hn : 0 < INR (List.length l)).
    { rewrite Hlen. apply lt_0_INR. exact Hpos. }
    rewrite Reqb_false by lra. cbn [rbind].
    eexists. split; [reflexivity |].
    cbn [theta confidence_SE attempts accuracy last_updated].
    repeat (split; [reflexivity |]).
    intros lo hi Hd _.
    destruct (py_sum_between lo hi l) as [H1 H2].
    { intros x Hx. destruct (Hl x Hx) as (k & e & Hin & ->). eapply Hd. exact Hin. }
    split.
    + apply (Rmult_le_reg_r (INR (List.length l))); [assumption |].
      unfold Rdiv. rewrite Rmult_assoc, Rinv_l by lra. lra.
    + apply (Rmult_le_reg_r (INR (List.length l))); [assumption |].
      unfold Rdiv. rewrite Rmult_assoc, Rinv_l by lra. lra.
  - cbn [rbind]. eexists. split; [reflexivity |].
    cbn [theta confidence_SE attempts accuracy last_updated].
    repeat (split; [reflexivity |]).
    intros lo hi _ Ho. destruct (overall_theta s); exact Ho.
Qed.

Lemma untested_topic_prior_witness :
  exists t,
    get_theta_for_untested_topic (fun _ => 1 / 2) "s1" Sample.rotational
                                 Sample.struggling_profile = Ok t
    /\ -2 <= theta t <= 1.
Proof.
  destruct (untested_topic_prior (fun _ => 1 / 2) "s1" Sample.rotational
                                 Sample.struggling_profile)
    as (t & E & _ & _ & _ & _ & Hb).
  exists t. split; [exact E |]. apply Hb.
  - intros k e Hin. simpl in Hin.
    destruct Hin as [H | [H | [H | [H | []]]]]; injection H as _ <-; simpl; lra.
  - simpl. lra.
Defined.

(** ** Topic ranking *)

Lemma insert_by_perm {A} (key : A -> R) (x : A) (l : list A) :
  Permutation (insert_by key x l) (x :: l).
Proof.
  induction l as [| y l IH]; simpl; [reflexivity |].
  destruct (Rltb (key x) (key y)); [reflexivity |].
  rewrite IH. apply perm_swap.
Qed.

Lemma insert_by_sorted {A} (key : A -> R) (x : A) (l : list A) :
  StronglySorted (fun a b => key a <= key b) l ->
  StronglySorted (fun a b => key a <= key b) (insert_by key x l).
Proof.
  induction l as [| y l IH]; intros Hs; simpl.
  - constructor; [constructor | constructor].
  - inversion Hs as [| ? ? Hl Hy]; subst.
    destruct (Rltb_cases (key x) (key y)) as [[H E] | [H E]]; rewrite E.
    + constructor; [exact Hs |]. constructor; [lra |].
      rewrite Forall_forall in *. intros z Hz. specialize (Hy z Hz). lra.
    + constructor; [apply IH; exact Hl |].
      rewrite Forall_forall in *. intros z Hz.
      apply (Permutation_in _ (insert_by_perm key x l)) in Hz.
      destruct Hz as [<- | Hz]; [exact H | apply Hy; exact Hz].
Qed.

Lemma sorted_by_spec {A} (key : A -> R) (l : list A) :
  Permutation (sorted_by key l) l
  /\ StronglySorted (fun a b => key a <= key b) (sorted_by key l).
Proof.
  unfold sorted_by.
  assert (H : forall acc,
             StronglySorted (fun a b => key a <= key b) acc ->
             Permutation (fold_left (fun acc x => insert_by key x acc) l acc)
                         (acc ++ l)
             /\ StronglySorted (fun a b => key a <= key b)
                               (fold_left (fun acc x => insert_by key x acc) l acc)).
  { induction l as [| x l IH]; intros acc Hacc; cbn [fold_left].
    - rewrite app_nil_r. split; [reflexivity | exact Hacc].
    - destruct (IH (insert_by key x acc) (insert_by_sorted key x acc Hacc))
        as [Hp Hs].
      split; [| exact Hs].
      rewrite Hp, insert_by_perm. simpl. apply Permutation_middle. }
  destruct (H [] (SSorted_nil _)) as [Hp Hs]. split; assumption.
Qed.

Lemma insert_by_desc_perm {A} (key : A -> R) (x : A) (l : list A) :
  Permutation (insert_by_desc key x l) (x :: l).
Proof.
  induction l as [| y l IH]; simpl; [reflexivity |].
  destruct (Rltb (key y) (key x)); [reflexivity |].
  rewrite IH. apply perm_swap.
Qed.

Lemma insert_by_desc_sorted {A} (key : A -> R) (x : A) (l : list A) :
  StronglySorted (fun a b => key b <= key a) l ->
  StronglySorted (fun a b => key b <= key a) (insert_by_desc key x l).
Proof.
  induction l as [| y l IH]; intros Hs; simpl.
  - constructor; [constructor | constructor].
  - inversion Hs as [| ? ? Hl Hy]; subst.
    destruct (Rltb_cases (key y) (key x)) as [[H E] | [H E]]; rewrite E.
    + constructor; [exact Hs |]. constructor; [lra |].
      rewrite Forall_forall in *. intros z Hz. specialize (Hy z Hz). lra.
    + constructor; [apply IH; exact Hl |].
      rewrite Forall_forall in *. intros z Hz.
      apply (Permutation_in _ (insert_by_desc_perm key x l)) in Hz.
      destruct Hz as [<- | Hz]; [exact H | apply Hy; exact Hz].
Qed.

Lemma sorted_by_desc_spec {A} (key : A -> R) (l : list A) :
  Permutation (sorted_by_desc key l) l
  /\ StronglySorted (fun a b => key b <= key a) (sorted_by_desc key l).
Proof.
  unfold sorted_by_desc.
  assert (H : forall acc,
             StronglySorted (fun a b => key b <= key a) acc ->
             Permutation (fold_left (fun acc x => insert_by_desc key x acc) l acc)
                         (acc ++ l)
             /\ StronglySorted (fun a b => key b <= key a)
                               (fold_left (fun acc x => insert_by_desc key x acc)
                                          l acc)).
  { induction l as [| x l IH]; intros acc Hacc; cbn [fold_left].
    - rewrite app_nil_r. split; [reflexivity | exact Hacc].
    - destruct (IH (insert_by_desc key x acc)
                   (insert_by_desc_sorted key x acc Hacc)) as [Hp Hs].
      split; [| exact Hs].
      rewrite Hp, insert_by_desc_perm. simpl. apply Permutation_middle. }
  destruct (H [] (SSorted_nil _)) as [Hp Hs]. split; assumption.
Qed.

(** The keys of a sort are all computed, in order, unless one fails. *)
Lemma keyed_outcome {A} (key : A -> result R) (l : list A) :
  match keyed key l with
  | Ok ks => map fst ks = l /\ forall x k, In (x, k) ks -> key x = Ok k
  | Raise e => exists x, In x l /\ key x = Raise e
  end.
Proof.
  induction l as [| x l IH]; cbn [keyed].
  - split; [reflexivity | intros ? ? []].
  - destruct (key x) as [k |] eqn:Ek; cbn [rbind].
    + destruct (keyed key l) as [ks | e]; cbn [rbind].
      * destruct IH as [Hm Hk]. split; [simpl; rewrite Hm; reflexivity |].
        intros x' k' [H | H]; [injection H as <- <-; exact Ek | apply Hk; exact H].
      * destruct IH as (x' & Hin & Hx'). exists x'. split; [right |]; assumption.
    + exists x. split; [left; reflexivity | exact Ek].
Qed.

Lemma StronglySorted_map {A B} (f : A -> B) (P : B -> B -> Prop) (l : list A) :
  StronglySorted (fun a b => P (f a) (f b)) l -> StronglySorted P (map f l).
Proof.
  induction 1 as [| a l Hl IH Ha]; simpl; constructor; [exact IH |].
  rewrite Forall_forall in *. intros y Hy. apply in_map_iff in Hy.
  destruct Hy as (x & <- & Hx). apply Ha. exact Hx.
Qed.

Lemma StronglySorted_impl_in {A} (P Q : A -> A -> Prop) (l : list A) :
  (forall a b, In a l -> In b l -> P a b -> Q a b) ->
  StronglySorted P l -> StronglySorted Q l.
Proof.
  intros H Hs. induction Hs as [| a l Hl IH Ha].
  - constructor.
  - constructor.
    + apply IH. intros x y Hx Hy. apply H; right; assumption.
    + rewrite Forall_forall in *. intros y Hy.
      apply H; [left; reflexivity | right; exact Hy | apply Ha; exact Hy].
Qed.

(** Sorting decorated items by their keys and dropping the keys gives a
    rearrangement of the items in the order of their keys. *)
Lemma ranked_ascending {A} (key : A -> result R) (ks : list (A * R)) :
  (forall x k, In (x, k) ks -> key x = Ok k) ->
  Permutation (map fst (sorted_by snd ks)) (map fst ks)
  /\ StronglySorted
       (fun a b => forall ka kb, key a = Ok ka -> key b = Ok kb -> ka <= kb)
       (map fst (sorted_by snd ks)).
Proof.
  intros Hk. destruct (sorted_by_spec (@snd A R) ks) as [Hp Hs].
  split; [apply Permutation_map; exact Hp |].
  apply StronglySorted_map.
  apply (StronglySorted_impl_in (fun a b => snd a <= snd b)); [| exact Hs].
  intros [a ka'] [b kb'] Ha Hb Hab ka kb Eka Ekb. cbn [fst snd] in *.
  apply (Permutation_in _ Hp) in Ha. apply (Permutation_in _ Hp) in Hb.
  rewrite (Hk a ka' Ha) in Eka. rewrite (Hk b kb' Hb) in Ekb.
  injection Eka as <-. injection Ekb as <-. exact Hab.
Qed.

Lemma ranked_descending {A} (key : A -> result R) (ks : list (A * R)) :
  (forall x k, In (x, k) ks -> key x = Ok k) ->
  Permutation (map fst (sorted_by_desc snd ks)) (map fst ks)
  /\ StronglySorted
       (fun a b => forall ka kb, key a = Ok ka -> key b = Ok kb -> kb <= ka)
       (map fst (sorted_by_desc snd ks)).
Proof.
  intros Hk. destruct (sorted_by_desc_spec (@snd A R) ks) as [Hp Hs].
  split; [apply Permutation_map; exact Hp |].
  apply StronglySorted_map.
  apply (StronglySorted_impl_in (fun a b => snd b <= snd a)); [| exact Hs].
  intros [a ka'] [b kb'] Ha Hb Hab ka kb Eka Ekb. cbn [fst snd] in *.
  apply (Permutation_in _ Hp) in Ha. apply (Permutation_in _ Hp) in Hb.
  rewrite (Hk a ka' Ha) in Eka. rewrite (Hk b kb' Hb) in Ekb.
  injection Eka as <-. injection Ekb as <-. exact Hab.
Qed.

(** X12. [rank_topics_by_weakness] raises [KeyError] exactly when one of
    the topics has no entry in [theta_by_topic]; otherwise it returns a
    rearrangement of the topics in which no topic comes before a topic of
    lower theta (weakest first). *)
Theorem rank_topics_by_weakness_outcome
        (topics : list string) (thetas : dict TopicTheta) :
  ((exists tp, In tp topics /\ dict_get thetas tp = None)
   <-> rank_topics_by_weakness topics thetas = Raise KeyError)
  /\ (forall ranked,
        rank_topics_by_weakness topics thetas = Ok ranked ->
        Permutation ranked topics
        /\ StronglySorted
             (fun a b => forall ta tb,
                  option_map theta (dict_get thetas a) = Some ta ->
                  option_map theta (dict_get thetas b) = Some tb ->
                  ta <= tb)
             ranked).
Proof.
  unfold rank_topics_by_weakness.
  pose proof (keyed_outcome (theta_of thetas) topics) as Hk.
  destruct (keyed (theta_of thetas) topics) as [ks | e]; cbn [rbind].
  - destruct Hk as [Hm Hkeys]. split.
    + split; [| discriminate].
      intros (tp & Hin & Hnone). exfalso.
      rewrite <- Hm in Hin. apply in_map_iff in Hin.
      destruct Hin as ([x k] & <- & Hx). cbn [fst] in Hnone.
      specialize (Hkeys x k Hx). unfold theta_of in Hkeys.
      rewrite Hnone in Hkeys. discriminate.
    + intros ranked [= <-].
      destruct (ranked_ascending (theta_of thetas) ks Hkeys) as [Hp Hs].
      split; [rewrite Hp, Hm; reflexivity |].
      apply (StronglySorted_impl_in
               (fun a b => forall ka kb, theta_of thetas a = Ok ka ->
                                         theta_of thetas b = Ok kb -> ka <= kb));
        [| exact Hs].
      intros a b _ _ H ta tb Ha Hb. unfold theta_of in H.
      destruct (dict_get thetas a) as [ea |]; [| discriminate].
      destruct (dict_get thetas b) as [eb |]; [| discriminate].
      simpl in Ha, Hb. injection Ha as <-. injection Hb as <-.
      apply H; reflexivity.
  - destruct Hk as (x & Hin & Hx). unfold theta_of in Hx.
    destruct (dict_get thetas x) eqn:Ed; [discriminate |].
    injection Hx as <-. split.
    + split; [reflexivity |]. intros _. exists x. split; assumption.
    + discriminate.
Qed.

Lemma rank_topics_by_weakness_outcome_witness :
  rank_topics_by_weakness [Sample.kinematics; "physics_ac_circuits"%string]
                          (theta_by_topic Sample.struggling_profile)
  = Raise KeyError.
Proof.
  apply (proj1 (proj1 (rank_topics_by_weakness_outcome
                         [Sample.kinematics; "physics_ac_circuits"%string]
                         (theta_by_topic Sample.struggling_profile)))).
  exists "physics_ac_circuits"%string. split; [right; left; reflexivity | reflexivity].
Defined.

(** X13. [prioritize_exploration_topics] returns a rearrangement of the
    unexplored topics in which no topic comes before a topic of higher
    strategic priority
    [0.5 weight + 0.3 (1 - depth / 3) + 0.2 (1 - |coverage - 1/3|)]. *)
Theorem prioritize_exploration_topics_outcome
        (unexplored_topics : list string) (balance : dict R) :
  let priority tp :=
    dict_get_default JEE_TOPIC_WEIGHTS tp (5 / 10) / 1 * (5 / 10)
    + (1 - IZR (dict_get_default TOPIC_PREREQUISITE_DEPTH tp 1%Z) / 3) * (3 / 10)
    + (1 - Rabs (dict_get_default balance (get_subject_from_topic tp) (33 / 100)
                 - 1 / 3)) * (2 / 10) in
  Permutation (prioritize_exploration_topics unexplored_topics balance)
              unexplored_topics
  /\ StronglySorted (fun a b => priority b <= priority a)
                    (prioritize_exploration_topics unexplored_topics balance).
Proof.
  intros priority. unfold prioritize_exploration_topics.
  set (ks := map (fun tp => (tp, priority tp)) unexplored_topics).
  change (map _ unexplored_topics) with ks.
  assert (Hk : forall x k, In (x, k) ks -> (fun tp => Ok (priority tp)) x = Ok k).
  { intros x k Hin. unfold ks in Hin. apply in_map_iff in Hin.
    destruct Hin as (tp & [= <- <-] & _). reflexivity. }
  destruct (ranked_descending (fun tp => Ok (priority tp)) ks Hk) as [Hp Hs].
  assert (Hm : map fst ks = unexplored_topics).
  { unfold ks. rewrite map_map. cbn [fst]. apply map_id. }
  split; [rewrite Hp, Hm; reflexivity |].
  apply (StronglySorted_impl_in
           (fun a b => forall ka kb, Ok (priority a) = Ok ka ->
                                     Ok (priority b) = Ok kb -> kb <= ka));
    [| exact Hs].
  intros a b _ _ H. apply H; reflexivity.
Qed.

(** X14. [rank_topics_by_priority_formula] raises [KeyError] exactly when
    one of the topics has no entry in [theta_by_topic]; otherwise it
    returns a rearrangement of the topics in which no topic comes before a
    topic of higher priority
    [0.6 (1 - (theta + 3) / 6) + 0.2 min(1, days / 7) + 0.2 weight]. *)
Theorem rank_topics_by_priority_formula_outcome
        (w : World) (topics : list string) (thetas : dict TopicTheta)
        (topic_attempts : dict Z) (student_id : string) :
  let priority tp th :=
    (1 - (th + 3) / 6) * (6 / 10)
    + min2 1 (IZR (days_since_last_attempt w tp student_id) / 7) * (2 / 10)
    + dict_get_default JEE_TOPIC_WEIGHTS tp (5 / 10) * (2 / 10) in
  ((exists tp, In tp topics /\ dict_get thetas tp = None)
   <-> rank_topics_by_priority_formula w topics thetas topic_attempts student_id
       = Raise KeyError)
  /\ (forall ranked,
        rank_topics_by_priority_formula w topics thetas topic_attempts student_id
        = Ok ranked ->
        Permutation ranked topics
        /\ StronglySorted
             (fun a b => forall ta tb,
                  option_map theta (dict_get thetas a) = Some ta ->
                  option_map theta (dict_get thetas b) = Some tb ->
                  priority b tb <= priority a ta)
             ranked).
Proof.
  intros priority. unfold rank_topics_by_priority_formula.
  set (key := fun tp => rbind (theta_of thetas tp) (fun th => Ok (priority tp th))).
  change (keyed _ topics) with (keyed key topics).
  pose proof (keyed_outcome key topics) as Hk.
  destruct (keyed key topics) as [ks | e]; cbn [rbind].
  - destruct Hk as [Hm Hkeys]. split.
    + split; [| discriminate].
      intros (tp & Hin & Hnone). exfalso.
      rewrite <- Hm in Hin. apply in_map_iff in Hin.
      destruct Hin as ([x k] & <- & Hx). cbn [fst] in Hnone.
      specialize (Hkeys x k Hx). unfold key, theta_of in Hkeys.
      rewrite Hnone in Hkeys. discriminate.
    + intros ranked [= <-].
      destruct (ranked_descending key ks Hkeys) as [Hp Hs].
      split; [rewrite Hp, Hm; reflexivity |].
      apply (StronglySorted_impl_in
               (fun a b => forall ka kb, key a = Ok ka -> key b = Ok kb -> kb <= ka));
        [| exact Hs].
      intros a b _ _ H ta tb Ha Hb. unfold key, theta_of in H.
      destruct (dict_get thetas a) as [ea |]; [| discriminate].
      destruct (dict_get thetas b) as [eb |]; [| discriminate].
      simpl in Ha, Hb. injection Ha as <-. injection Hb as <-.
      apply H; reflexivity.
  - destruct Hk as (x & Hin & Hx). unfold key, theta_of in Hx.
    destruct (dict_get thetas x) eqn:Ed; [discriminate |].
    injection Hx as <-. split.
    + split; [reflexivity |]. intros _. exists x. split; assumption.
    + discriminate.
Qed.

Lemma rank_topics_by_priority_formula_outcome_witness :
  rank_topics_by_priority_formula
    Sample.struggling_world ["physics_ac_circuits"%string]
    (theta_by_topic Sample.struggling_profile) [] "s1"
  = Raise KeyError.
Proof.
  apply (proj1 (proj1 (rank_topics_by_priority_formula_outcome
                         Sample.struggling_world ["physics_ac_circuits"%string]
                         (theta_by_topic Sample.struggling_profile) [] "s1"))).
  exists "physics_ac_circuits"%string. split; [left; reflexivity | reflexivity].
Defined.

(** ** The answer log: recency and review *)

Lemma insert_desc_Z_perm {A} (key : A -> Z) (x : A) (l : list A) :
  Permutation (insert_desc_Z key x l) (x :: l).
Proof.
  induction l as [| y l IH]; simpl; [reflexivity |].
  destruct (key y <? key x)%Z; [reflexivity |].
  rewrite IH. apply perm_swap.
Qed.

Lemma insert_desc_Z_sorted {A} (key : A -> Z) (x : A) (l : list A) :
  StronglySorted (fun a b => (key b <= key a)%Z) l ->
  StronglySorted (fun a b => (key b <= key a)%Z) (insert_desc_Z key x l).
Proof.
  induction l as [| y l IH]; intros Hs; simpl.
  - constructor; [constructor | constructor].
  - inversion Hs as [| ? ? Hl Hy]; subst.
    destruct (Z.ltb_spec (key y) (key x)) as [H | H].
    + constructor; [exact Hs |]. constructor; [lia |].
      rewrite Forall_forall in *. intros z Hz. specialize (Hy z Hz). lia.
    + constructor; [apply IH; exact Hl |].
      rewrite Forall_forall in *. intros z Hz.
      apply (Permutation_in _ (insert_desc_Z_perm key x l)) in Hz.
      destruct Hz as [<- | Hz]; [exact H | apply Hy; exact Hz].
Qed.

Lemma order_by_desc_spec {A} (key : A -> Z) (l : list A) :
  Permutation (order_by_desc key l) l
  /\ StronglySorted (fun a b => (key b <= key a)%Z) (order_by_desc key l).
Proof.
  unfold order_by_desc.
  assert (H : forall acc,
             StronglySorted (fun a b => (key b <= key a)%Z) acc ->
             Permutation (fold_left (fun acc x => insert_desc_Z key x acc) l acc)
                         (acc ++ l)
             /\ StronglySorted (fun a b => (key b <= key a)%Z)
                               (fold_left (fun acc x => insert_desc_Z key x acc)
                                          l acc)).
  { induction l as [| x l IH]; intros acc Hacc; cbn [fold_left].
    - rewrite app_nil_r. split; [reflexivity | exact Hacc].
    - destruct (IH (insert_desc_Z key x acc)
                   (insert_desc_Z_sorted key x acc Hacc)) as [Hp Hs].
      split; [| exact Hs].
      rewrite Hp, insert_desc_Z_perm. simpl. apply Permutation_middle. }
  destruct (H [] (SSorted_nil _)) as [Hp Hs]. split; assumption.
Qed.

Lemma timedelta_days_antitone (now t t' : Z) :
  (t' <= t)%Z -> (timedelta_days now t <= timedelta_days now t')%Z.
Proof.
  intros H. unfold timedelta_days, SECONDS_PER_DAY.
  apply Z.div_le_mono; lia.
Qed.

(** X15. [days_since_last_attempt] answers [999] when the student has no
    answer on the topic.  Otherwise it answers the whole days between the
    clock and the latest answer on the topic, which is the least such
    number over all answers on the topic. *)
Theorem days_since_last_attempt_outcome (w : World) (tp student_id : string) :
  let on_topic :=
    filter (fun r => String.eqb (r_topic r) tp) (responses_of w student_id) in
  (on_topic = [] -> days_since_last_attempt w tp student_id = 999%Z)
  /\ (on_topic <> [] ->
      exists r,
        In r on_topic
        /\ (forall r', In r' on_topic -> (answered_at r' <= answered_at r)%Z)
        /\ days_since_last_attempt w tp student_id
           = timedelta_days (utcnow w) (answered_at r)
        /\ (forall r', In r' on_topic ->
              (days_since_last_attempt w tp student_id
               <= timedelta_days (utcnow w) (answered_at r'))%Z)).
Proof.
  intros on_topic. unfold days_since_last_attempt. fold on_topic.
  destruct (order_by_desc_spec answered_at on_topic) as [Hp Hs].
  destruct (order_by_desc answered_at on_topic) as [| r rest].
  - split; [reflexivity |]. intros Hne. exfalso. apply Hne.
    apply Permutation_nil. exact Hp.
  - split.
    + intros E. rewrite E in Hp. symmetry in Hp.
      apply Permutation_nil in Hp. discriminate.
    + intros _. cbn [firstn].
      assert (Hmax : forall r', In r' on_topic ->
                                (answered_at r' <= answered_at r)%Z).
      { intros r' Hr'. symmetry in Hp.
        apply (Permutation_in _ Hp) in Hr'.
        inversion Hs as [| ? ? _ Hall]; subst.
        destruct Hr' as [<- | Hr']; [lia |].
        rewrite Forall_forall in Hall. apply Hall. exact Hr'. }
      exists r. split; [apply (Permutation_in _ Hp); left; reflexivity |].
      split; [exact Hmax |]. split; [reflexivity |].
      intros r' Hr'. apply timedelta_days_antitone. apply Hmax. exact Hr'.
Qed.

Lemma days_since_last_attempt_outcome_witness :
  exists r,
    In r (filter (fun r => String.eqb (r_topic r) Sample.kinematics)
                 (responses_of Sample.struggling_world "s1"))
    /\ days_since_last_attempt Sample.struggling_world Sample.kinematics "s1"
       = timedelta_days (utcnow Sample.struggling_world) (answered_at r).
Proof.
  destruct (proj2 (days_since_last_attempt_outcome
                     Sample.struggling_world Sample.kinematics "s1"))
    as (r & Hin & _ & E & _).
  - discriminate.
  - exists r. split; [exact Hin | exact E].
Defined.

(** The order of the pairs [(priority, days_since)] is a total order. *)
Lemma pair_ltb_false (x y : Z * Z) :
  pair_ltb x y = false
  <-> (fst y < fst x)%Z \/ (fst x = fst y /\ snd y <= snd x)%Z.
Proof.
  unfold pair_ltb.
  destruct (Z.ltb_spec (fst x) (fst y)), (Z.eqb_spec (fst x) (fst y)),
    (Z.ltb_spec (snd x) (snd y)); simpl; split; intros; try discriminate;
    try reflexivity; lia.
Qed.

(** [max] answers an element that no element of the list exceeds, for any
    comparison whose negation is transitive. *)
Lemma max_from_maximal {A} (lt : A -> A -> bool) (best : A) (l : list A) :
  (forall x y z, lt x y = false -> lt y z = false -> lt x z = false) ->
  (forall x y, lt x y = true -> lt y x = false) ->
  (forall x, lt x x = false) ->
  let m := max_from lt best l in
  In m (best :: l) /\ forall x, In x (best :: l) -> lt m x = false.
Proof.
  intros Htrans Hasym Hirr. revert best.
  induction l as [| y l IH]; intros best; cbn [max_from].
  - split; [left; reflexivity |]. intros x [<- | []]. apply Hirr.
  - destruct (lt best y) eqn:E.
    + destruct (IH y) as [Hin Hmax]. split; [right; exact Hin |].
      intros x [<- | Hx]; [| apply Hmax; exact Hx].
      apply (Htrans _ y); [apply Hmax; left; reflexivity | apply Hasym; exact E].
    + destruct (IH best) as [Hin Hmax]. split.
      * destruct Hin as [<- | Hin]; [left; reflexivity | right; right; exact Hin].
      * intros x [<- | [<- | Hx]].
        -- apply Hmax. left. reflexivity.
        -- apply (Htrans _ best); [apply Hmax; left; reflexivity | exact E].
        -- apply Hmax. right. exact Hx.
Qed.

Lemma review_priority_some (d : Z) :
  (1 <= d)%Z <-> exists p, review_priority d = Some p.
Proof.
  unfold review_priority.
  destruct (Z.leb_spec 30 d), (Z.leb_spec 14 d), (Z.leb_spec 7 d),
    (Z.leb_spec 3 d), (Z.leb_spec 1 d); split; intros Hd;
    try lia; try (eexists; reflexivity); destruct Hd as [p Hd]; discriminate.
Qed.

Lemma review_priority_monotone (d d' p p' : Z) :
  (d <= d')%Z -> review_priority d = Some p -> review_priority d' = Some p' ->
  (p <= p')%Z.
Proof.
  unfold review_priority. intros Hd.
  destruct (Z.leb_spec 30 d), (Z.leb_spec 14 d), (Z.leb_spec 7 d),
    (Z.leb_spec 3 d), (Z.leb_spec 1 d),
    (Z.leb_spec 30 d'), (Z.leb_spec 14 d'), (Z.leb_spec 7 d'),
    (Z.leb_spec 3 d'), (Z.leb_spec 1 d');
    intros [= <-] [= <-]; lia.
Qed.

(** The review selection never raises.  Either no answer is eligible and
    it answers [None], or it looks up the question of an eligible answer
    that lies furthest back. *)
Lemma get_spaced_review_question_spec
      (w : World) (student_id : string) (recent : list string) :
  let days r := timedelta_days (utcnow w) (answered_at r) in
  let eligible r :=
    In r (responses_of w student_id) /\ is_correct r = true
    /\ ~ In (r_question_id r) recent /\ (1 <= days r)%Z in
  ((forall r, ~ eligible r)
   /\ get_spaced_review_question w student_id recent = Ok None)
  \/ (exists r,
        eligible r
        /\ (forall r', eligible r' -> (days r' <= days r)%Z)
        /\ get_spaced_review_question w student_id recent
           = Ok (get_question w (r_question_id r))).
Proof.
  intros days eligible. unfold get_spaced_review_question.
  set (reviewable := filter _ (filter is_correct (responses_of w student_id))).
  assert (Hrev : forall r, In r reviewable
                           <-> In r (responses_of w student_id)
                               /\ is_correct r = true
                               /\ ~ In (r_question_id r) recent).
  { intros r. unfold reviewable. rewrite !filter_In, negb_true_iff.
    rewrite <- not_true_iff_false, str_in_In. tauto. }
  set (scored := flat_map _ reviewable).
  assert (Hsc : forall x, In x scored
                          <-> exists r, In r reviewable
                                        /\ review_priority (days r) = Some (fst (snd x))
                                        /\ x = (r_question_id r,
                                                (fst (snd x), days r))).
  { intros x. unfold scored. rewrite in_flat_map. split.
    - intros (r & Hr & Hx). exists r. split; [exact Hr |]. fold (days r) in Hx.
      destruct (review_priority (days r)) as [p |]; [| destruct Hx].
      destruct Hx as [<- | []]. split; reflexivity.
    - intros (r & Hr & Hp & Hx). exists r. split; [exact Hr |].
      fold (days r). rewrite Hp. left. symmetry. exact Hx. }
  assert (Hel : forall r, eligible r ->
                          exists p, In (r_question_id r, (p, days r)) scored
                                    /\ review_priority (days r) = Some p).
  { intros r (H1 & H2 & H3 & H4).
    destruct (proj1 (review_priority_some (days r)) H4) as [p Hp].
    exists p. split; [| exact Hp]. apply Hsc. exists r.
    split; [apply Hrev; tauto |]. split; [exact Hp | reflexivity]. }
  assert (Hempty : reviewable = [] -> scored = []).
  { intros E. unfold scored. rewrite E. reflexivity. }
  destruct scored as [| x xs] eqn:Es.
  - left. split.
    + intros r Hr. destruct (Hel r Hr) as (p & [] & _).
    + destruct (List.length reviewable =? 0)%nat; reflexivity.
  - right.
    destruct (List.length reviewable =? 0)%nat eqn:Hne.
    { apply Nat.eqb_eq, length_zero_iff_nil in Hne.
      apply Hempty in Hne. discriminate. } cbn [List.length Nat.eqb max_with rbind].
    destruct (max_from_maximal (fun x y => pair_ltb (snd x) (snd y)) x xs)
      as [Hin Hmax].
    { intros a b c. rewrite !pair_ltb_false. lia. }
    { intros a b Hab. apply pair_ltb_false.
      destruct (pair_ltb (snd b) (snd a)) eqn:E; [| apply pair_ltb_false; exact E].
      unfold pair_ltb in Hab, E.
      destruct (Z.ltb_spec (fst (snd a)) (fst (snd b))),
        (Z.eqb_spec (fst (snd a)) (fst (snd b))),
        (Z.ltb_spec (snd (snd a)) (snd (snd b))),
        (Z.ltb_spec (fst (snd b)) (fst (snd a))),
        (Z.eqb_spec (fst (snd b)) (fst (snd a))),
        (Z.ltb_spec (snd (snd b)) (snd (snd a)));
        simpl in Hab, E; try discriminate; lia. }
    { intros a. apply pair_ltb_false. lia. }
    set (best := max_from (fun x y => pair_ltb (snd x) (snd y)) x xs) in *.
    destruct (proj1 (Hsc best) Hin) as (r & Hr & Hp & Hbest).
    exists r. split; [| split].
    + apply Hrev in Hr. destruct Hr as (H1 & H2 & H3).
      split; [exact H1 |]. split; [exact H2 |]. split; [exact H3 |].
      apply review_priority_some. eexists. exact Hp.
    + intros r' Hr'. destruct (Hel r' Hr') as (p' & Hin' & Hp').
      specialize (Hmax _ Hin'). rewrite Hbest in Hmax. cbn [fst snd] in Hmax.
      apply pair_ltb_false in Hmax. cbn [fst snd] in Hmax.
      destruct (Z.le_gt_cases (days r') (days r)) as [Hle | Hgt]; [exact Hle |].
      pose proof (review_priority_monotone (days r) (days r') _ _
                    ltac:(lia) Hp Hp') as Hmono.
      lia.
    + rewrite Hbest. reflexivity.
Qed.

(** X16. [get_spaced_review_question] never raises.  An answer is eligible
    when it is a correct answer of the student, to a question outside
    [recent_questions], given at least one whole day ago.  Without an
    eligible answer the result is [None]; otherwise the result is the
    catalog entry of the question of an eligible answer than which no
    eligible answer lies further back ([None] if the catalog has no such
    entry). *)
Theorem get_spaced_review_question_outcome
        (w : World) (student_id : string) (recent_questions : list string) :
  let days r := timedelta_days (utcnow w) (answered_at r) in
  let eligible r :=
    In r (responses_of w student_id) /\ is_correct r = true
    /\ ~ In (r_question_id r) recent_questions /\ (1 <= days r)%Z in
  exists res,
    get_spaced_review_question w student_id recent_questions = Ok res
    /\ ((forall r, ~ eligible r) -> res = None)
    /\ ((exists r, eligible r) ->
        exists r,
          eligible r
          /\ (forall r', eligible r' -> (days r' <= days r)%Z)
          /\ res = get_question w (r_question_id r))
    /\ (forall q, res = Some q ->
                  In q (questions w) /\ ~ In (question_id q) recent_questions).
Proof.
  cbv zeta.
  pose proof (get_spaced_review_question_spec w student_id recent_questions)
    as Hspec.
  cbv zeta in Hspec. destruct Hspec as [[Hno E] | (r & Hr & Hmax & E)].
  - exists None. split; [exact E |]. split; [reflexivity |].
    split; [| discriminate].
    intros (r & Hr). destruct (Hno r Hr).
  - exists (get_question w (r_question_id r)). split; [exact E |].
    split; [intros Hno; destruct (Hno r Hr) |].
    split; [intros _; exists r; split; [exact Hr | split; [exact Hmax | reflexivity]] |].
    intros q Hq. unfold get_question in Hq. apply find_some in Hq.
    destruct Hq as [Hin Hid]. apply String.eqb_eq in Hid.
    split; [exact Hin |]. rewrite Hid. apply Hr.
Qed.

Lemma get_spaced_review_question_outcome_witness :
  exists res,
    get_spaced_review_question Sample.struggling_world "s1" [] = Ok res
    /\ exists r,
         In r (responses_of Sample.struggling_world "s1")
         /\ res = get_question Sample.struggling_world (r_question_id r).
Proof.
  destruct (get_spaced_review_question_outcome Sample.struggling_world "s1" [])
    as (res & E & _ & Hsome & _).
  exists res. split; [exact E |].
  destruct Hsome as (r & Hr & _ & Hres).
  - exists Sample.right_answer_ten_days_ago.
    split; [left; reflexivity |]. split; [reflexivity |].
    split; [intros [] |]. vm_compute. discriminate.
  - exists r. split; [apply Hr | exact Hres].
Defined.

(** X17. In [generate_daily_quiz] the review selection is given the
    questions answered in the last 30 days as [recent_questions].  A
    review question found with that argument belongs to a correct answer
    given at least 30 whole days ago, so its priority is always the
    highest one: the intervals of 1, 3, 7 and 14 days never decide. *)
Theorem daily_review_question_is_a_month_old
        (w : World) (student_id : string) (q : Question) :
  get_spaced_review_question
    w student_id
    (get_recent_questions w student_id RECENT_QUESTIONS_WINDOW_DAYS)
  = Ok (Some q) ->
  exists r,
    In r (responses_of w student_id)
    /\ is_correct r = true
    /\ r_question_id r = question_id q
    /\ (30 <= timedelta_days (utcnow w) (answered_at r))%Z
    /\ review_priority (timedelta_days (utcnow w) (answered_at r)) = Some 5%Z.
Proof.
  intros H.
  pose proof (get_spaced_review_question_spec
                w student_id
                (get_recent_questions w student_id RECENT_QUESTIONS_WINDOW_DAYS))
    as Hspec.
  cbv zeta in Hspec.
  destruct Hspec as [[_ E] | (r & (H1 & H2 & H3 & H4) & _ & E)];
    rewrite E in H; [discriminate |].
  injection H as H. exists r.
  split; [exact H1 |]. split; [exact H2 |].
  split.
  { unfold get_question in H. apply find_some in H. destruct H as [_ Hid].
    apply String.eqb_eq in Hid. symmetry. exact Hid. }
  assert (Hold : (30 <= timedelta_days (utcnow w) (answered_at r))%Z).
  { destruct (Z.leb_spec (minus_days (utcnow w) RECENT_QUESTIONS_WINDOW_DAYS)
                         (answered_at r)) as [Hle | Hlt].
    - exfalso. apply H3. unfold get_recent_questions. apply in_map.
      apply filter_In. split; [exact H1 |]. apply Z.leb_le. exact Hle.
    - unfold minus_days, RECENT_QUESTIONS_WINDOW_DAYS, timedelta_days,
        SECONDS_PER_DAY in *.
      apply Z.div_le_lower_bound; lia. }
  split; [exact Hold |].
  unfold review_priority.
  destruct (Z.leb_spec 30 (timedelta_days (utcnow w) (answered_at r)));
    [reflexivity | lia].
Qed.

Lemma daily_review_question_is_a_month_old_witness :
  exists r,
    In r (responses_of Sample.returning_world "s1")
    /\ r_question_id r = question_id Sample.Q1
    /\ (30 <= timedelta_days (utcnow Sample.returning_world) (answered_at r))%Z.
Proof.
  destruct (daily_review_question_is_a_month_old
              Sample.returning_world "s1" Sample.Q1)
    as (r & Hin & _ & Hid & Hold & _).
  - reflexivity.
  - exists r. split; [exact Hin | split; [exact Hid | exact Hold]].
Defined.

(** ** What a quiz is made of *)

Lemma same_sources_refl (w : World) : same_sources w w.
Proof. repeat split. Qed.

Lemma same_sources_trans (w1 w2 w3 : World) :
  same_sources w1 w2 -> same_sources w2 w3 -> same_sources w1 w3.
Proof.
  intros (A1 & A2 & A3) (B1 & B2 & B3).
  repeat split; congruence.
Qed.

Lemma same_database_sources (w w' : World) :
  same_database w w' -> same_sources w w'.
Proof. intros (H1 & _ & H3 & _ & _ & H6). repeat split; assumption. Qed.

Lemma get_recent_questions_same (w0 w : World) (student_id : string) (days : Z) :
  same_sources w0 w ->
  get_recent_questions w student_id days
  = get_recent_questions w0 student_id days.
Proof.
  intros (_ & H2 & H3). unfold get_recent_questions, responses_of.
  rewrite H2, H3. reflexivity.
Qed.

Lemma bind_ok {A B} (m : M A) (k : A -> M B) (w w' : World) (b : B) :
  bind m k w = (Ok b, w') ->
  exists a w1, m w = (Ok a, w1) /\ k a w1 = (Ok b, w').
Proof.
  unfold bind. destruct (m w) as [[a | e] w1].
  - intros H. exists a, w1. split; [reflexivity | exact H].
  - discriminate.
Qed.

Lemma rbind_ok {A B} (r : result A) (k : A -> result B) (b : B) :
  rbind r k = Ok b -> exists a, r = Ok a /\ k a = Ok b.
Proof.
  destruct r as [a | e]; simpl; [| discriminate].
  intros H. exists a. split; [reflexivity | exact H].
Qed.

Lemma yields_ret {A} (w0 : World) (Q : A -> Prop) (a : A) :
  Q a -> yields w0 Q (ret a).
Proof. intros H w a' w' Hw [= <- <-]. split; assumption. Qed.

Lemma yields_raise {A} (w0 : World) (Q : A -> Prop) (e : exn) :
  yields w0 Q (raise e).
Proof. intros w a w' _. discriminate. Qed.

Lemma yields_lift {A} (w0 : World) (Q : A -> Prop) (r : result A) :
  (forall a, r = Ok a -> Q a) -> yields w0 Q (lift r).
Proof.
  intros H w a w' Hw. unfold lift. intros [= -> <-].
  split; [exact Hw | apply H; reflexivity].
Qed.

Lemma yields_bind {A B} (w0 : World) (Q1 : A -> Prop) (Q2 : B -> Prop)
      (m : M A) (k : A -> M B) :
  yields w0 Q1 m -> (forall a, Q1 a -> yields w0 Q2 (k a)) ->
  yields w0 Q2 (bind m k).
Proof.
  intros Hm Hk w b w' Hw H.
  apply bind_ok in H. destruct H as (a & w1 & E1 & E2).
  destruct (Hm w a w1 Hw E1) as [Hw1 Ha].
  exact (Hk a Ha w1 b w' Hw1 E2).
Qed.

Lemma yields_weaken {A} (w0 : World) (Q Q' : A -> Prop) (m : M A) :
  (forall a, Q a -> Q' a) -> yields w0 Q m -> yields w0 Q' m.
Proof.
  intros HQ Hm w a w' Hw E. destruct (Hm w a w' Hw E) as [Hw' Ha].
  split; [exact Hw' | apply HQ; exact Ha].
Qed.

Lemma yields_get_world (w0 : World) : yields w0 (same_sources w0) get_world.
Proof. intros w a w' Hw [= <- <-]. split; assumption. Qed.

(** A computation that writes neither the catalog, nor the answer logs,
    nor the clock. *)
Lemma yields_writes {A} (w0 : World) (m : M A) :
  (forall w, same_sources w (snd (m w))) -> yields w0 (fun _ => True) m.
Proof.
  intros H w a w' Hw E. split; [| exact I].
  apply (same_sources_trans _ w); [exact Hw |].
  specialize (H w). rewrite E in H. exact H.
Qed.

Lemma update_student_sources
      (student_id : string) (f : StudentData -> StudentData) (w : World) :
  same_sources w (snd (update_student student_id f w)).
Proof.
  unfold update_student. destruct (get_student w student_id); repeat split.
Qed.

Lemma determine_learning_phase_sources
      (student_id : string) (s : StudentData) (q : Z) (w : World) :
  same_sources w (snd (determine_learning_phase student_id s q w)).
Proof.
  unfold determine_learning_phase.
  destruct (q <? EXPLORATION_END_QUIZ)%Z; [repeat split |].
  unfold bind. destruct (phase_switched_at_quiz s); [repeat split |].
  unfold update_student. destruct (get_student w student_id); repeat split.
Qed.

Lemma save_quiz_metadata_sources
      (student_id qz_id : string) (n : Z) (phase : string)
      (qs : list Question) (w : World) :
  same_sources w (snd (save_quiz_metadata student_id qz_id n phase qs w)).
Proof.
  unfold save_quiz_metadata, bind, get_world.
  destruct (get_student w student_id); repeat split.
Qed.

Lemma log_circuit_breaker_event_sources
      (student_id reason : string) (b : bool) (w : World) :
  same_sources w (snd (log_circuit_breaker_event student_id reason b w)).
Proof. repeat split. Qed.

Lemma draw_sources (w : World) : same_sources w (snd (draw w)).
Proof. unfold draw. destruct (rng w); repeat split. Qed.

Lemma yields_random_choice {A} (w0 : World) (l : list A) :
  yields w0 (fun x => In x l) (random_choice l).
Proof.
  unfold random_choice.
  eapply yields_bind; [apply yields_writes; apply draw_sources | intros r _].
  destruct (nth_error l (r mod List.length l)) as [x |] eqn:E.
  - apply yields_ret. apply nth_error_In in E. exact E.
  - apply yields_raise.
Qed.

Lemma remove_nth_perm {A} (l : list A) :
  forall i x, nth_error l i = Some x -> Permutation (x :: remove_nth i l) l.
Proof.
  induction l as [| y l IH]; intros [| i] x; simpl; try discriminate.
  - intros [= ->]. reflexivity.
  - intros H. rewrite perm_swap. constructor. apply IH. exact H.
Qed.

(** Drawing without replacement: what is drawn, together with what is
    left, is the population. *)
Lemma yields_sample_draws {A} (w0 : World) (k : nat) :
  forall l : list A,
    yields w0 (fun r => List.length r = k
                        /\ exists rest, Permutation (r ++ rest) l)
           (sample_draws l k).
Proof.
  induction k as [| k IH]; intros l; cbn [sample_draws].
  - apply yields_ret. split; [reflexivity |]. exists l. reflexivity.
  - eapply yields_bind; [apply yields_writes; apply draw_sources | intros r _].
    destruct (nth_error l (r mod List.length l)) as [x |] eqn:E;
      [| apply yields_raise].
    eapply yields_bind; [apply IH | intros rest0 [Hlen (rest & Hp)]].
    apply yields_ret. split; [simpl; rewrite Hlen; reflexivity |].
    exists rest. simpl. rewrite Hp. apply remove_nth_perm. exact E.
Qed.

Lemma yields_random_sample {A} (w0 : World) (l : list A) (k : nat) :
  yields w0 (fun r => List.length r = k
                      /\ exists rest, Permutation (r ++ rest) l)
         (random_sample l k).
Proof.
  unfold random_sample. destruct (List.length l <? k)%nat.
  - apply yields_raise.
  - apply yields_sample_draws.
Qed.

Lemma yields_interleave (w0 : World) (qs : list Question) :
  yields w0 (fun out => Permutation out qs) (interleave_questions_by_topic qs).
Proof.
  intros w a w' Hw E.
  destruct (interleave_questions_by_topic_spec qs w)
    as (out & w1 & E1 & Hp & _ & Hdb).
  rewrite E1 in E. injection E as <- <-. split; [| exact Hp].
  apply (same_sources_trans _ w); [exact Hw |].
  apply same_database_sources. exact Hdb.
Qed.

Lemma yields_extend_each {A B} (w0 : World) (P : B -> Prop)
      (body : A -> M (list B)) (l : list A) :
  (forall x, yields w0 (Forall P) (body x)) ->
  forall acc, Forall P acc -> yields w0 (Forall P) (extend_each l body acc).
Proof.
  intros Hb. induction l as [| x l IH]; intros acc Hacc; cbn [extend_each].
  - apply yields_ret. exact Hacc.
  - eapply yields_bind; [apply Hb | intros r Hr].
    apply IH. apply Forall_app. split; assumption.
Qed.

Lemma append_found_forall {A B} (P : B -> Prop)
      (body : A -> result (option B)) (l : list A) :
  (forall x b, body x = Ok (Some b) -> P b) ->
  forall acc r, Forall P acc -> append_found l body acc = Ok r -> Forall P r.
Proof.
  intros Hb. induction l as [| x l IH]; intros acc r Hacc; cbn [append_found].
  - intros [= <-]. exact Hacc.
  - intros H. apply rbind_ok in H. destruct H as ([b |] & Ex & H).
    + apply (IH _ _ (proj2 (Forall_app P acc [b])
                           (conj Hacc (Forall_cons b (Hb x b Ex) (Forall_nil P))))
                H).
    + apply (IH _ _ Hacc H).
Qed.

Lemma Forall_slice_to {A} (P : A -> Prop) (n : Z) (l : list A) :
  Forall P l -> Forall P (slice_to n l).
Proof.
  intros H. unfold slice_to.
  destruct (0 <=? n)%Z.
  - rewrite <- (firstn_skipn (Z.to_nat n) l) in H.
    apply Forall_app in H. apply H.
  - rewrite <- (firstn_skipn (List.length l - Z.to_nat (- n)) l) in H.
    apply Forall_app in H. apply H.
Qed.

Lemma Forall_firstn_of {A} (P : A -> Prop) (n : nat) (l : list A) :
  Forall P l -> Forall P (firstn n l).
Proof.
  intros H. rewrite <- (firstn_skipn n l) in H.
  apply Forall_app in H. apply H.
Qed.

(** The target selector only ever answers a question of the catalog
    outside the recent ones. *)
Lemma select_optimal_question_IRT_candidate
      (w : World) (tp : string) (target : R) (recent : list string)
      (a_min : R) (q : Question) :
  select_optimal_question_IRT w tp target recent a_min = Ok (Some q) ->
  on_file_outside w recent q.
Proof.
  rewrite select_optimal_question_IRT_eq.
  destruct (filter (passes_strict_filter target recent a_min)
                   (questions_of_topic w tp)) as [| c cs] eqn:E;
    [discriminate |].
  intros [= <-].
  destruct (max_from_greatest (fisher_at target) c cs) as [Hin _].
  cbv zeta in Hin. rewrite <- E in Hin. apply filter_In in Hin.
  destruct Hin as [Hq Hpass]. unfold questions_of_topic in Hq.
  apply filter_In in Hq. apply passes_strict_filter_iff in Hpass.
  split; [apply Hq | apply Hpass].
Qed.

Lemma targeted_selection_candidate
      (w : World) (tp : string) (target : result R) (recent : list string)
      (a_min : R) (q : Question) :
  rbind target
        (fun th => select_optimal_question_IRT w tp th recent a_min)
  = Ok (Some q) ->
  on_file_outside w recent q.
Proof.
  destruct target as [th | e]; [| discriminate].
  apply select_optimal_question_IRT_candidate.
Qed.

Lemma review_candidate
      (w : World) (student_id : string) (recent : list string) (q : Question) :
  get_spaced_review_question w student_id recent = Ok (Some q) ->
  on_file_outside w recent q.
Proof.
  intros H.
  pose proof (get_spaced_review_question_spec w student_id recent) as Hspec.
  cbv zeta in Hspec.
  destruct Hspec as [[_ E] | (r & (_ & _ & H3 & _) & _ & E)];
    rewrite E in H; [discriminate |].
  injection H as H. unfold get_question in H. apply find_some in H.
  destruct H as [Hin Hid]. apply String.eqb_eq in Hid.
  split; [exact Hin | rewrite Hid; exact H3].
Qed.

Lemma exploration_questions_candidates
      (w : World) (student_id : string) (s : StudentData) (ratio : R)
      (recent : list string) (quiz : list Question) :
  exploration_questions w student_id s ratio recent = Ok quiz ->
  Forall (on_file_outside w recent) quiz.
Proof.
  unfold exploration_questions. cbv zeta. intros H.
  apply rbind_ok in H. destruct H as (quiz1 & E1 & H).
  apply rbind_ok in H. destruct H as (weak & _ & H).
  apply rbind_ok in H. destruct H as (quiz2 & E2 & H).
  apply rbind_ok in H. destruct H as (review_q & E3 & H).
  injection H as <-.
  assert (H1 : Forall (on_file_outside w recent) quiz1).
  { revert E1. apply append_found_forall; [| constructor].
    intros tp b. apply targeted_selection_candidate. }
  assert (H2 : Forall (on_file_outside w recent) quiz2).
  { revert E2. apply append_found_forall; [| exact H1].
    intros tp b. apply targeted_selection_candidate. }
  destruct review_q as [q |]; [| exact H2].
  apply Forall_app. split; [exact H2 |].
  constructor; [| constructor]. apply (review_candidate w student_id). exact E3.
Qed.

Lemma on_file_outside_same (w0 w : World) (ids : list string) (q : Question) :
  same_sources w0 w -> on_file_outside w ids q -> on_file_outside w0 ids q.
Proof. intros (H1 & _) [Hq Hid]. split; [rewrite <- H1; exact Hq | exact Hid]. Qed.

Lemma Forall_on_file_outside_same
      (w0 w : World) (ids : list string) (l : list Question) :
  same_sources w0 w ->
  Forall (on_file_outside w ids) l -> Forall (on_file_outside w0 ids) l.
Proof.
  intros Hw. apply Forall_impl. intros q. apply on_file_outside_same. exact Hw.
Qed.

Lemma yields_exploitation_questions
      (w0 : World) (student_id : string) (s : StudentData)
      (recent : list string) :
  yields w0 (Forall (on_file_outside w0 recent))
         (exploitation_questions student_id s recent).
Proof.
  unfold exploitation_questions.
  eapply yields_bind; [apply yields_get_world | intros w Hw].
  apply (yields_bind w0 (fun _ => True));
    [apply yields_lift; intros; exact I | intros ranked _].
  apply (yields_bind w0 (Forall (on_file_outside w recent))).
  { apply yields_lift. intros quiz. apply append_found_forall; [| constructor].
    intros tp b. apply targeted_selection_candidate. }
  intros quiz1 H1.
  eapply yields_bind; [apply yields_random_sample | intros maint _].
  apply (yields_bind w0 (Forall (on_file_outside w recent))).
  { apply yields_lift. intros quiz. apply append_found_forall; [| exact H1].
    intros tp b. apply targeted_selection_candidate. }
  intros quiz2 H2.
  apply (yields_bind w0 (fun o => forall q, o = Some q ->
                                            on_file_outside w recent q)).
  { apply yields_lift. intros o Ho q ->.
    apply (review_candidate w student_id). exact Ho. }
  intros [q |] Hq; apply yields_ret;
    apply (Forall_on_file_outside_same w0 w); try assumption.
  apply Forall_app. split; [exact H2 |].
  constructor; [apply Hq; reflexivity | constructor].
Qed.

(** The selection by difficulty range: where its candidates come from. *)
Lemma difficulty_range_candidates
      (w : World) (tp : string) (lo hi : R) (recent : list string) (a_min : R) :
  let in_range q :=
    topic q = tp /\ lo <= difficulty_b (irt_parameters q) <= hi
    /\ ~ In (question_id q) recent
    /\ a_min <= discrimination_a (irt_parameters q) in
  let strict :=
    filter (fun q =>
              negb (str_in (question_id q) recent)
              && Rleb a_min (discrimination_a (irt_parameters q)))
           (filter (fun q =>
                      String.eqb (topic q) tp
                      && Rleb lo (difficulty_b (irt_parameters q))
                      && Rleb (difficulty_b (irt_parameters q)) hi)
                   (questions w)) in
  let relaxed :=
    filter (fun q => negb (str_in (question_id q) recent))
           (questions_of_topic w tp) in
  (forall q, In q strict <-> In q (questions w) /\ in_range q)
  /\ (forall q, In q relaxed
                <-> In q (questions w) /\ topic q = tp
                    /\ ~ In (question_id q) recent).
Proof.
  cbv zeta. split; intros q.
  - rewrite !filter_In, !andb_true_iff, negb_true_iff, String.eqb_eq.
    rewrite <- not_true_iff_false, str_in_In.
    assert (Hle : forall x y, Rleb x y = true <-> x <= y).
    { intros x y. unfold Rleb. destruct (Rle_dec x y); split; intros;
        try reflexivity; try assumption; try discriminate; contradiction. }
    rewrite !Hle. tauto.
  - unfold questions_of_topic.
    rewrite !filter_In, negb_true_iff, String.eqb_eq.
    rewrite <- not_true_iff_false, str_in_In. tauto.
Qed.

Lemma yields_select_questions_by_difficulty_range
      (w0 : World) (tp : string) (lo hi : R) (count : nat)
      (recent : list string) (a_min : R) :
  yields w0 (Forall (fun q => on_file_outside w0 recent q /\ topic q = tp))
         (select_questions_by_difficulty_range tp lo hi count recent a_min).
Proof.
  unfold select_questions_by_difficulty_range, iterate.
  eapply yields_bind; [apply yields_get_world | intros w Hw].
  cbv beta iota zeta.
  eapply yields_weaken; [| apply yields_random_sample].
  intros r [_ (rest & Hp)]. apply Forall_forall. intros q Hq.
  assert (Hin : In q (r ++ rest)) by (apply in_or_app; left; exact Hq).
  apply (Permutation_in _ Hp) in Hin.
  destruct (difficulty_range_candidates w tp lo hi recent a_min) as [Hs Hr].
  destruct Hw as (Hw & _).
  match type of Hin with
  | In _ (if ?c then _ else _) => destruct c
  end.
  - apply Hr in Hin. destruct Hin as (H1 & H2 & H3).
    split; [split; [rewrite <- Hw; exact H1 | exact H3] | exact H2].
  - apply Hs in Hin. destruct Hin as (H1 & H2 & _ & H3 & _).
    split; [split; [rewrite <- Hw; exact H1 | exact H3] | exact H2].
Qed.

Lemma yields_get_previously_correct_question
      (w0 : World) (student_id : string) (recent from_topics : list string) :
  yields w0 (fun o => forall q, o = Some q -> on_file_outside w0 recent q)
         (get_previously_correct_question student_id recent from_topics).
Proof.
  unfold get_previously_correct_question.
  eapply yields_bind; [apply yields_get_world | intros w Hw].
  cbv zeta.
  match goal with
  | |- yields _ _ (if ?c then _ else _) => destruct c
  end.
  - apply yields_ret. discriminate.
  - eapply yields_bind; [apply yields_random_choice | intros chosen Hc].
    apply yields_ret. intros q Hq.
    apply filter_In in Hc. destruct Hc as [_ Hc].
    apply andb_true_iff in Hc. destruct Hc as [_ Hc].
    apply negb_true_iff in Hc. apply not_true_iff_false in Hc.
    rewrite str_in_In in Hc.
    unfold get_question in Hq. apply find_some in Hq.
    destruct Hq as [Hin Hid]. apply String.eqb_eq in Hid.
    destruct Hw as (Hw & _).
    split; [rewrite <- Hw; exact Hin | rewrite Hid; exact Hc].
Qed.

Lemma yields_generate_recovery_quiz
      (w0 : World) (student_id : string) (s : StudentData) :
  yields w0
         (Forall (on_file_outside
                    w0 (get_recent_questions w0 student_id
                                             RECENT_QUESTIONS_WINDOW_DAYS)))
         (generate_recovery_quiz student_id s).
Proof.
  unfold generate_recovery_quiz.
  eapply yields_bind; [apply yields_get_world | intros w Hw].
  cbv zeta. rewrite (get_recent_questions_same w0 w) by exact Hw.
  set (recent := get_recent_questions w0 student_id RECENT_QUESTIONS_WINDOW_DAYS).
  assert (Hsel : forall tp lo hi count,
             yields w0 (Forall (on_file_outside w0 recent))
                    (select_questions_by_difficulty_range
                       tp lo hi count recent 1)).
  { intros. eapply yields_weaken;
      [| apply yields_select_questions_by_difficulty_range].
    intros a. apply Forall_impl. intros q [Hq _]. exact Hq. }
  eapply yields_bind.
  { apply (yields_extend_each w0 (on_file_outside w0 recent));
      [intros x; apply Hsel | constructor]. }
  intros easy Heasy.
  eapply yields_bind.
  { apply (yields_extend_each w0 (on_file_outside w0 recent));
      [intros x; apply Hsel | exact Heasy]. }
  intros both Hboth.
  eapply yields_bind;
    [apply yields_get_previously_correct_question | intros review Hreview].
  eapply yields_bind; [apply yields_interleave | intros out Hout].
  eapply yields_bind;
    [apply yields_writes; apply log_circuit_breaker_event_sources | intros _ _].
  apply (yields_bind w0 (fun _ => True)).
  { intros w1 a w1' Hw1 [= <- <-]. split; [exact Hw1 | exact I]. }
  intros now _.
  eapply yields_bind;
    [apply yields_writes; apply save_quiz_metadata_sources | intros _ _].
  apply yields_ret.
  rewrite Forall_forall. intros q Hq.
  apply (Permutation_in _ Hout) in Hq.
  revert q Hq. rewrite <- Forall_forall. apply Forall_firstn_of.
  destruct review as [q |]; [| exact Hboth].
  apply Forall_app. split; [exact Hboth |].
  constructor; [apply Hreview; reflexivity | constructor].
Qed.

Lemma yields_generate_daily_quiz
      (w0 : World) (student_id : string) (quiz_count_arg : option Z) :
  yields w0
         (Forall (on_file_outside
                    w0 (get_recent_questions w0 student_id
                                             RECENT_QUESTIONS_WINDOW_DAYS)))
         (generate_daily_quiz student_id quiz_count_arg).
Proof.
  unfold generate_daily_quiz.
  eapply yields_bind; [apply yields_get_world | intros w Hw].
  destruct (get_student w student_id) as [s |]; [| apply yields_raise].
  cbv zeta. rewrite (get_recent_questions_same w0 w) by exact Hw.
  set (recent := get_recent_questions w0 student_id RECENT_QUESTIONS_WINDOW_DAYS).
  destruct (check_circuit_breaker w student_id).
  - eapply yields_bind; [apply yields_generate_recovery_quiz | intros rq Hrq].
    eapply yields_bind;
      [apply yields_writes; apply update_student_sources | intros _ _].
    apply yields_ret. exact Hrq.
  - eapply yields_bind;
      [apply yields_writes; apply determine_learning_phase_sources
      | intros pr _].
    apply (yields_bind w0 (Forall (on_file_outside w0 recent))).
    { destruct (String.eqb (fst pr) "exploration").
      - apply yields_lift. intros quiz Hquiz.
        apply (Forall_on_file_outside_same w0 w); [exact Hw |].
        apply exploration_questions_candidates in Hquiz. exact Hquiz.
      - apply yields_exploitation_questions. }
    intros quiz Hquiz.
    eapply yields_bind; [apply yields_interleave | intros out Hout].
    eapply yields_bind;
      [apply yields_writes; apply save_quiz_metadata_sources | intros _ _].
    eapply yields_bind;
      [apply yields_writes; apply update_student_sources | intros _ _].
    apply yields_ret. apply Forall_slice_to.
    rewrite Forall_forall. intros q Hq.
    apply (Permutation_in _ Hout) in Hq.
    rewrite Forall_forall in Hquiz. apply Hquiz. exact Hq.
Qed.

(** X18. Every question of a quiz that [generate_daily_quiz] returns, on
    the normal path and on the recovery path, is a document of the
    catalog, and the student has given no answer to a question of that id
    within the last 30 days.  Generating a quiz changes neither the
    catalog, nor the answer logs, nor the clock. *)
Theorem generate_daily_quiz_serves_unseen_questions
        (w : World) (student_id : string) (quiz_count_arg : option Z)
        (quiz : list Question) :
  fst (generate_daily_quiz student_id quiz_count_arg w) = Ok quiz ->
  Forall (unseen w student_id) quiz
  /\ same_sources w (snd (generate_daily_quiz student_id quiz_count_arg w)).
Proof.
  intros H.
  destruct (generate_daily_quiz student_id quiz_count_arg w) as [r w'] eqn:E.
  simpl in H. subst r.
  destruct (yields_generate_daily_quiz w student_id quiz_count_arg
              w quiz w' (same_sources_refl w) E) as [Hw Hq].
  split; [| exact Hw].
  revert Hq. apply Forall_impl. intros q [Hin Hrecent].
  split; [exact Hin |]. intros r Hr Hid.
  destruct (Z.ltb_spec (answered_at r)
                       (minus_days (utcnow w) RECENT_QUESTIONS_WINDOW_DAYS))
    as [Hlt | Hge]; [exact Hlt |].
  exfalso. apply Hrecent. unfold get_recent_questions. rewrite <- Hid.
  apply in_map. apply filter_In. split; [exact Hr |].
  apply Z.leb_le. exact Hge.
Qed.

Lemma generate_daily_quiz_serves_unseen_questions_witness :
  Forall (unseen Sample.struggling_world "s1")
         [Sample.EK1; Sample.ER1; Sample.EK2; Sample.ER2; Sample.MK1;
          Sample.MR1; Sample.EL1; Sample.EC1; Sample.EL2; Sample.EC2].
Proof.
  apply (generate_daily_quiz_serves_unseen_questions
           Sample.struggling_world "s1" None).
  exact struggling_daily_quiz.
Defined.

Lemma sample_draws_total {A} (k : nat) :
  forall (l : list A) (w : World),
    (k <= List.length l)%nat ->
    exists r w', sample_draws l k w = (Ok r, w') /\ same_database w w'.
Proof.
  induction k as [| k IH]; intros l w Hk; cbn [sample_draws].
  - exists [], w. split; [reflexivity | apply same_database_refl].
  - unfold bind at 1.
    destruct (draw_same_database w) as (r & w1 & -> & Hdb).
    assert (Hlt : (r mod List.length l < List.length l)%nat).
    { apply Nat.mod_upper_bound. lia. }
    destruct (nth_error l (r mod List.length l)) as [x |] eqn:E;
      [| apply nth_error_None in E; lia].
    pose proof (Permutation_length (remove_nth_perm l _ x E)) as Hlen.
    simpl in Hlen.
    destruct (IH (remove_nth (r mod List.length l) l) w1 ltac:(lia))
      as (rest & w2 & E2 & Hdb2).
    unfold bind. rewrite E2. exists (x :: rest), w2.
    split; [reflexivity |]. apply (same_database_trans _ w1); assumption.
Qed.

(** X19. [select_questions_by_difficulty_range] never raises and writes
    nothing but the state of the random generator.  It returns at most
    [count] questions, each a catalog question of the topic outside
    [recent_questions]; none is returned twice when the catalog has no
    duplicate.  When some such question lies in the difficulty range with
    the required discrimination, every returned question does; when none
    does, range and discrimination are dropped altogether.  The result is
    not empty when [count > 0] and the topic has a question outside
    [recent_questions]. *)
Theorem select_questions_by_difficulty_range_outcome
        (w : World) (tp : string) (lo hi : R) (count : nat)
        (recent : list string) (a_min : R) :
  let fallback q :=
    In q (questions w) /\ topic q = tp /\ ~ In (question_id q) recent in
  let in_range q :=
    fallback q
    /\ lo <= difficulty_b (irt_parameters q) <= hi
    /\ a_min <= discrimination_a (irt_parameters q) in
  exists selected w',
    select_questions_by_difficulty_range tp lo hi count recent a_min w
    = (Ok selected, w')
    /\ same_database w w'
    /\ (List.length selected <= count)%nat
    /\ Forall fallback selected
    /\ ((exists q, in_range q) -> Forall in_range selected)
    /\ ((exists q, fallback q) -> (0 < count)%nat -> selected <> [])
    /\ (NoDup (questions w) -> NoDup selected).
Proof.
  cbv zeta.
  destruct (difficulty_range_candidates w tp lo hi recent a_min) as [Hs Hr].
  cbv zeta in Hs, Hr.
  unfold select_questions_by_difficulty_range, iterate.
  unfold bind at 1. cbn [get_world]. cbv beta iota zeta.
  set (strict := filter _ (filter _ (questions w))) in *.
  set (relaxed := filter _ (questions_of_topic w tp)) in *.
  set (candidates := if (List.length strict =? 0)%nat then relaxed else strict).
  assert (Hcand : forall q, In q candidates ->
                            In q (questions w) /\ topic q = tp
                            /\ ~ In (question_id q) recent).
  { intros q Hq. unfold candidates in Hq.
    destruct (List.length strict =? 0)%nat.
    - apply Hr. exact Hq.
    - apply Hs in Hq. tauto. }
  unfold random_sample.
  destruct (Nat.ltb_spec (List.length candidates)
                         (Nat.min count (List.length candidates)))
    as [Hbad | _]; [lia |].
  destruct (sample_draws_total (Nat.min count (List.length candidates))
                               candidates w ltac:(lia))
    as (selected & w' & E & Hdb).
  exists selected, w'. split; [exact E |]. split; [exact Hdb |].
  destruct (yields_sample_draws w _ candidates w selected w'
                                (same_sources_refl w) E)
    as [_ [Hlen (rest & Hp)]].
  assert (Hsub : forall q, In q selected -> In q candidates).
  { intros q Hq. apply (Permutation_in _ Hp). apply in_or_app. left. exact Hq. }
  split; [lia |].
  split; [apply Forall_forall; intros q Hq; apply Hcand, Hsub, Hq |].
  split; [| split].
  - intros (q0 & Hq0). apply Forall_forall. intros q Hq. apply Hsub in Hq.
    unfold candidates in Hq.
    destruct (List.length strict =? 0)%nat eqn:Hz.
    + apply Nat.eqb_eq, length_zero_iff_nil in Hz.
      assert (Hin0 : In q0 strict) by (apply Hs; tauto).
      rewrite Hz in Hin0. destruct Hin0.
    + apply Hs in Hq. tauto.
  - intros (q0 & Hq0) Hcount Hnil. subst selected. simpl in Hlen.
    assert (Hin0 : In q0 relaxed) by (apply Hr; exact Hq0).
    assert (Hne : candidates <> []).
    { unfold candidates. destruct (List.length strict =? 0)%nat eqn:Hz.
      - intros Hnil. rewrite Hnil in Hin0. destruct Hin0.
      - intros Hnil. rewrite Hnil in Hz. discriminate. }
    destruct candidates; [congruence | simpl in Hlen; lia].
  - intros Hnd.
    assert (Hndc : NoDup candidates).
    { unfold candidates, strict, relaxed, questions_of_topic.
      destruct (List.length _ =? 0)%nat; repeat apply NoDup_filter; exact Hnd. }
    apply (Permutation_NoDup (Permutation_sym Hp)) in Hndc.
    apply NoDup_app_remove_r in Hndc. exact Hndc.
Qed.

Lemma select_questions_by_difficulty_range_outcome_witness :
  exists selected w',
    select_questions_by_difficulty_range
      Sample.kinematics RECOVERY_EASY_MIN RECOVERY_EASY_MAX 2 [] 1
      Sample.struggling_world
    = (Ok selected, w')
    /\ selected <> [].
Proof.
  destruct (select_questions_by_difficulty_range_outcome
              Sample.struggling_world Sample.kinematics
              RECOVERY_EASY_MIN RECOVERY_EASY_MAX 2 [] 1)
    as (selected & w' & E & _ & _ & _ & _ & Hne & _).
  exists selected, w'. split; [exact E |].
  apply Hne; [| lia].
  exists Sample.EK1. split; [left; reflexivity |].
  split; [reflexivity | intros []].
Defined.

(** ** What generating a quiz records *)

Lemma leads_of_maintains {A} (P : dict StudentData -> Prop) (m : M A) :
  maintains P m -> leads P P m.
Proof.
  intros H w r w' HP E. specialize (H w HP). rewrite E in H. exact H.
Qed.

Lemma leads_bind {A B} (P P1 Q : dict StudentData -> Prop)
      (m : M A) (k : A -> M B) :
  leads P P1 m -> (forall a, leads P1 Q (k a)) -> leads P Q (bind m k).
Proof.
  intros Hm Hk w r w' HP E. apply bind_ok in E.
  destruct E as (a & w1 & E1 & E2).
  exact (Hk a w1 r w' (Hm w a w1 HP E1) E2).
Qed.

Lemma leads_update_student (P Q : dict StudentData -> Prop)
      (student_id : string) (f : StudentData -> StudentData) :
  (forall d s, P d -> dict_get d student_id = Some s ->
               Q (dict_set d student_id (f s))) ->
  leads P Q (update_student student_id f).
Proof.
  intros H w r w' HP. unfold update_student, get_student.
  destruct (dict_get (students w) student_id) as [s |] eqn:E;
    [| discriminate].
  intros [= _ <-]. apply H; assumption.
Qed.

Lemma leads_ret {A} (P : dict StudentData -> Prop) (a : A) :
  leads P P (ret a).
Proof. intros w r w' HP [= _ <-]. exact HP. Qed.

Lemma leads_keeps {A} (P : dict StudentData -> Prop) (m : M A) :
  keeps_students m -> leads P P m.
Proof. intros H. apply leads_of_maintains, maintains_of_keeps, H. Qed.

(** X20. [generate_daily_quiz] returns only for a student on file, and a
    call that returns a quiz, on the normal path or on the recovery path,
    raises the stored [completed_quiz_count] by exactly one (counting a
    missing count as 0, and whatever count was passed as argument), sets
    [last_quiz_completed_at] to the clock, and leaves the abilities, the
    attempt counts, the number of solved questions, the subject balance
    and the assessment date of the student as they were.  The documents
    of all other students are untouched. *)
Theorem generate_daily_quiz_bookkeeping
        (w : World) (student_id : string) (quiz_count_arg : option Z)
        (quiz : list Question) :
  fst (generate_daily_quiz student_id quiz_count_arg w) = Ok quiz ->
  exists s s',
    get_student w student_id = Some s
    /\ get_student (snd (generate_daily_quiz student_id quiz_count_arg w))
                   student_id = Some s'
    /\ completed_quiz_count s'
       = Some (match completed_quiz_count s with
               | Some n => n
               | None => 0
               end + 1)%Z
    /\ last_quiz_completed_at s' = Some (utcnow w)
    /\ theta_by_topic s' = theta_by_topic s
    /\ overall_theta s' = overall_theta s
    /\ total_questions_solved s' = total_questions_solved s
    /\ topic_attempt_counts s' = topic_attempt_counts s
    /\ subject_balance s' = subject_balance s
    /\ assessment_completed_at s' = assessment_completed_at s
    /\ forall other,
         other <> student_id ->
         get_student (snd (generate_daily_quiz student_id quiz_count_arg w))
                     other
         = get_student w other.
Proof.
  intros H.
  destruct (generate_daily_quiz student_id quiz_count_arg w) as [r w'] eqn:E.
  cbn [fst snd] in *. subst r.
  unfold generate_daily_quiz in E. apply bind_ok in E.
  destruct E as (w1 & w2 & Eg & E). injection Eg as <- <-.
  destruct (get_student w student_id) as [s |] eqn:Hs; [| discriminate].
  exists s.
  set (P := fun d : dict StudentData =>
              exists s1, dict_get d student_id = Some s1
                         /\ same_but_mark s s1
                         /\ forall other, other <> student_id ->
                              dict_get d other = dict_get (students w) other).
  set (Q := fun d : dict StudentData =>
              exists s', dict_get d student_id = Some s'
                /\ completed_quiz_count s'
                   = Some (match completed_quiz_count s with
                           | Some n => n
                           | None => 0
                           end + 1)%Z
                /\ last_quiz_completed_at s' = Some (utcnow w)
                /\ theta_by_topic s' = theta_by_topic s
                /\ overall_theta s' = overall_theta s
                /\ total_questions_solved s' = total_questions_solved s
                /\ topic_attempt_counts s' = topic_attempt_counts s
                /\ subject_balance s' = subject_balance s
                /\ assessment_completed_at s' = assessment_completed_at s
                /\ forall other, other <> student_id ->
                     dict_get d other = dict_get (students w) other).
  assert (HP : P (students w)).
  { exists s. split; [exact Hs |]. split; [repeat split | reflexivity]. }
  assert (Hfinal : forall phase (x : list Question),
             leads P Q (update_student student_id
                                       (quiz_completed phase (utcnow w)) ;;;
                        ret x)).
  { intros phase x. apply (leads_bind P Q Q); [| intros _; apply leads_ret].
    apply leads_update_student.
    intros d s1 (s2 & Hs2 & (A1 & A2 & A3 & A4 & A5 & A6 & A7) & Hother) Hs1.
    rewrite Hs2 in Hs1. injection Hs1 as <-.
    exists (quiz_completed phase (utcnow w) s2).
    split; [apply dict_get_set_same |].
    cbn [quiz_completed completed_quiz_count last_quiz_completed_at
         theta_by_topic overall_theta total_questions_solved
         topic_attempt_counts subject_balance assessment_completed_at].
    rewrite A4. repeat (split; [first [reflexivity | assumption] |]).
    intros other Hne. rewrite dict_get_set_other by congruence.
    apply Hother. exact Hne. }
  enough (HQ : Q (students w')).
  { destruct HQ as (s' & H1 & H2 & H3 & H4 & H5 & H6 & H7 & H8 & H9 & H10).
    exists s'. unfold get_student.
    repeat (split; [first [reflexivity | assumption] |]).
    exact H10. }
  destruct (check_circuit_breaker w student_id).
  - refine ((_ : leads P Q _) w quiz w' HP E).
    apply (leads_bind P P Q); [apply leads_keeps; keeps | intros rq].
    apply Hfinal.
  - refine ((_ : leads P Q _) w quiz w' HP E).
    apply (leads_bind P P Q).
    { unfold determine_learning_phase.
      destruct (_ <? EXPLORATION_END_QUIZ)%Z; [apply leads_ret |].
      apply (leads_bind P P P); [| intros _; apply leads_ret].
      destruct (phase_switched_at_quiz s); [apply leads_ret |].
      apply leads_update_student.
      intros d s1 (s2 & Hs2 & (A1 & A2 & A3 & A4 & A5 & A6 & A7) & Hother) Hs1.
      rewrite Hs2 in Hs1. injection Hs1 as <-.
      exists (set_phase_switched
                match quiz_count_arg with
                | Some n => n
                | None => match completed_quiz_count s with
                          | Some n => n
                          | None => 0%Z
                          end
                end s2).
      split; [apply dict_get_set_same |].
      split; [repeat split; assumption |].
      intros other Hne. rewrite dict_get_set_other by congruence.
      apply Hother. exact Hne. }
    intros pr.
    apply (leads_bind P P Q).
    { destruct (String.eqb (fst pr) "exploration"); apply leads_keeps; keeps. }
    intros quiz0.
    apply (leads_bind P P Q); [apply leads_keeps; keeps | intros iq].
    apply (leads_bind P P Q); [apply leads_keeps; keeps | intros u].
    apply Hfinal.
Qed.

Lemma generate_daily_quiz_bookkeeping_witness :
  exists s',
    get_student (snd (generate_daily_quiz "s1" None (Sample.world 14))) "s1"
    = Some s'
    /\ completed_quiz_count s' = Some 15%Z.
Proof.
  destruct (generate_daily_quiz_bookkeeping
              (Sample.world 14) "s1" None [Sample.Q1; Sample.Q1]
              sample_exploitation_quiz)
    as (s & s' & Hs & Hs' & Hcount & _).
  exists s'. split; [exact Hs' |].
  injection Hs as <-. exact Hcount.
Defined.

Lemma enumerate_nth {A B} (f : nat * A -> B) (l : list A) :
  forall start i x,
    nth_error l i = Some x ->
    nth_error (map f (combine (seq start (List.length l)) l)) i
    = Some (f ((start + i)%nat, x)).
Proof.
  induction l as [| y l IH]; intros start [| i] x; simpl; try discriminate.
  - intros [= ->]. rewrite Nat.add_0_r. reflexivity.
  - intros H. rewrite (IH (S start) i x H).
    replace (S start + i)%nat with (start + S i)%nat by lia. reflexivity.
Qed.

Lemma enumerate_length {A B} (f : nat * A -> B) (l : list A) (start : nat) :
  List.length (map f (combine (seq start (List.length l)) l)) = List.length l.
Proof.
  rewrite length_map, length_combine, length_seq. apply Nat.min_id.
Qed.

(** X21. [save_quiz_metadata] raises [TypeError] without writing when the
    student has no document.  Otherwise it stores, under the student and
    the quiz id, a record with the given number and phase, the clock as
    date of generation and the whole days since the assessment; the
    record lists the questions in their order, the question at index [i]
    with its id, topic and difficulty at position [i + 1]; its covered
    topics are the topics of the questions, each once.  No other quiz
    record and no other collection changes. *)
Theorem save_quiz_metadata_outcome
        (w : World) (student_id qz_id : string) (quiz_count : Z)
        (phase : string) (qs : list Question) :
  (get_student w student_id = None ->
   save_quiz_metadata student_id qz_id quiz_count phase qs w
   = (Raise TypeError, w))
  /\ (forall s,
        get_student w student_id = Some s ->
        exists w' qd,
          save_quiz_metadata student_id qz_id quiz_count phase qs w
          = (Ok tt, w')
          /\ dict_get (dict_get_default (quizzes w') student_id []) qz_id
             = Some qd
          /\ quiz_id qd = qz_id
          /\ quiz_number qd = quiz_count
          /\ quiz_learning_phase qd = phase
          /\ generated_at qd = utcnow w
          /\ current_day qd
             = timedelta_days (utcnow w) (assessment_completed_at s)
          /\ List.length (quiz_questions qd) = List.length qs
          /\ (forall i q,
                nth_error qs i = Some q ->
                exists e,
                  nth_error (quiz_questions qd) i = Some e
                  /\ e_question_id e = question_id q
                  /\ e_topic e = topic q
                  /\ e_difficulty_b e = difficulty_b (irt_parameters q)
                  /\ position e = (Z.of_nat i + 1)%Z)
          /\ NoDup (topics_covered qd)
          /\ (forall t, In t (topics_covered qd)
                        <-> exists q, In q qs /\ topic q = t)
          /\ (forall sid' id',
                sid' <> student_id \/ id' <> qz_id ->
                dict_get (dict_get_default (quizzes w') sid' []) id'
                = dict_get (dict_get_default (quizzes w) sid' []) id')
          /\ same_sources w w'
          /\ students w' = students w
          /\ system_events w' = system_events w
          /\ rng w' = rng w).
Proof.
  unfold save_quiz_metadata, bind, get_world. split.
  - intros ->. reflexivity.
  - intros s ->. unfold modify. eexists. eexists.
    split; [reflexivity |].
    cbn [quizzes set_quizzes].
    split; [rewrite dict_get_default_set_same; apply dict_get_set_same |].
    cbn [quiz_id quiz_number quiz_learning_phase generated_at current_day
         quiz_questions topics_covered].
    do 5 (split; [reflexivity |]).
    split; [apply enumerate_length |].
    split.
    { intros i q Hq. eexists. split; [apply enumerate_nth; exact Hq |].
      cbn [fst snd e_question_id e_topic e_difficulty_b position].
      repeat split. }
    split; [apply NoDup_nodup |].
    split.
    { intros t. rewrite nodup_In, in_map_iff.
      split; intros (q & H1 & H2); exists q; split; assumption. }
    split.
    { intros sid' id' Hne.
      destruct (string_dec student_id sid') as [<- | Hsid].
      - rewrite dict_get_default_set_same.
        destruct Hne as [Hne | Hne]; [congruence |].
        apply dict_get_set_other. congruence.
      - rewrite dict_get_default_set_other by exact Hsid. reflexivity. }
    repeat split.
Qed.

Lemma save_quiz_metadata_outcome_witness :
  exists w' qd,
    save_quiz_metadata "s1" "quiz_num14" 14 "exploitation" [Sample.Q1]
                       (Sample.world 14)
    = (Ok tt, w')
    /\ dict_get (dict_get_default (quizzes w') "s1" []) "quiz_num14" = Some qd
    /\ List.length (quiz_questions qd) = 1%nat.
Proof.
  destruct (proj2 (save_quiz_metadata_outcome
                     (Sample.world 14) "s1" "quiz_num14" 14 "exploitation"
                     [Sample.Q1])
                  (Sample.profile 14) eq_refl)
    as (w' & qd & E & Hget & _ & _ & _ & _ & _ & Hlen & _).
  exists w', qd. split; [exact E |]. split; [exact Hget | exact Hlen].
Defined.

(** ** The recovery path always delivers *)

Lemma select_questions_by_difficulty_range_returns
      (tp : string) (lo hi : R) (count : nat) (recent : list string)
      (a_min : R) (w : World) :
  exists r w',
    select_questions_by_difficulty_range tp lo hi count recent a_min w
    = (Ok r, w').
Proof.
  unfold select_questions_by_difficulty_range, iterate.
  unfold bind at 1. cbn [get_world]. cbv beta iota zeta.
  match goal with
  | |- exists r w', random_sample ?c ?k w = _ =>
      set (candidates := c);
      change k with (Nat.min count (List.length candidates))
  end.
  unfold random_sample.
  destruct (Nat.ltb_spec (List.length candidates)
                         (Nat.min count (List.length candidates)))
    as [Hbad | _]; [lia |].
  destruct (sample_draws_total (Nat.min count (List.length candidates))
                               candidates w ltac:(lia))
    as (r & w' & E & _).
  exists r, w'. exact E.
Qed.

Lemma extend_each_returns {A B} (body : A -> M (list B)) (l : list A) :
  (forall x w, exists r w', body x w = (Ok r, w')) ->
  forall acc w, exists r w', extend_each l body acc w = (Ok r, w').
Proof.
  intros Hb. induction l as [| x l IH]; intros acc w; cbn [extend_each].
  - exists acc, w. reflexivity.
  - unfold bind. destruct (Hb x w) as (r & w1 & ->). apply IH.
Qed.

Lemma get_previously_correct_question_returns
      (student_id : string) (recent from_topics : list string) (w : World) :
  exists o w',
    get_previously_correct_question student_id recent from_topics w
    = (Ok o, w').
Proof.
  unfold get_previously_correct_question. unfold bind at 1.
  cbn [get_world]. cbv zeta.
  match goal with
  | |- context [random_choice ?c] => set (candidates := c)
  end.
  destruct (List.length candidates =? 0)%nat eqn:Hz.
  - exists None, w. reflexivity.
  - assert (Hne : candidates <> []).
    { intros Hnil. rewrite Hnil in Hz. discriminate. }
    destruct (random_choice_in candidates w Hne) as (x & w' & E & _).
    unfold bind. rewrite E. eexists. eexists. reflexivity.
Qed.

(** With a document of the student on file, the recovery quiz never
    raises. *)
Lemma generate_recovery_quiz_returns
      (student_id : string) (s : StudentData) (w : World) :
  get_student w student_id <> None ->
  exists quiz w', generate_recovery_quiz student_id s w = (Ok quiz, w').
Proof.
  intros Hs. unfold generate_recovery_quiz.
  unfold bind at 1. cbn [get_world]. cbv zeta.
  set (recent := get_recent_questions w student_id RECENT_QUESTIONS_WINDOW_DAYS).
  set (weak := firstn 5 (sorted_by (fun x => theta (snd x)) (theta_by_topic s))).
  assert (Hsel : forall lo hi count (x : string * TopicTheta) w0,
             exists r w',
               select_questions_by_difficulty_range
                 (fst x) lo hi count recent 1 w0 = (Ok r, w')).
  { intros. apply select_questions_by_difficulty_range_returns. }
  set (easy := extend_each (firstn 4 weak) _ []).
  assert (Keasy : keeps_students easy).
  { apply keeps_extend_each. intros x. auto with keeps. }
  destruct (extend_each_returns
              (fun x => select_questions_by_difficulty_range
                          (fst x) RECOVERY_EASY_MIN RECOVERY_EASY_MAX 2 recent 1)
              (firstn 4 weak) (Hsel _ _ _) [] w) as (r1 & w1 & E1).
  fold easy in E1. specialize (Keasy w). rewrite E1 in Keasy. simpl in Keasy.
  unfold bind at 1. rewrite E1.
  set (medium := extend_each (firstn 2 weak) _ r1).
  assert (Kmedium : keeps_students medium).
  { apply keeps_extend_each. intros x. auto with keeps. }
  destruct (extend_each_returns
              (fun x => select_questions_by_difficulty_range
                          (fst x) RECOVERY_MEDIUM_MIN RECOVERY_MEDIUM_MAX 1
                          recent 1)
              (firstn 2 weak) (Hsel _ _ _) r1 w1) as (r2 & w2 & E2).
  fold medium in E2. specialize (Kmedium w1). rewrite E2 in Kmedium.
  simpl in Kmedium.
  unfold bind at 1. rewrite E2.
  destruct (get_previously_correct_question_returns
              student_id recent (map fst weak) w2) as (o & w3 & E3).
  pose proof (keeps_previously_correct student_id recent (map fst weak) w2)
    as K3.
  rewrite E3 in K3. simpl in K3.
  unfold bind at 1. rewrite E3.
  match goal with
  | |- context [interleave_questions_by_topic ?qs] =>
      destruct (interleave_questions_by_topic_spec qs w3)
        as (out & w4 & E4 & _ & _ & Hdb)
  end.
  unfold bind at 1. rewrite E4.
  unfold bind at 1. cbn [log_circuit_breaker_event modify].
  unfold bind at 1.
  unfold save_quiz_metadata, bind, get_world, get_student.
  cbn [students set_system_events].
  destruct Hdb as (_ & Hst & _). rewrite Hst, K3, Kmedium, Keasy.
  unfold get_student in Hs.
  destruct (dict_get (students w) student_id); [| congruence].
  eexists. eexists. reflexivity.
Qed.

Lemma yields_extend_each_in {A B} (w0 : World) (P : B -> Prop)
      (body : A -> M (list B)) (l : list A) :
  (forall x, In x l -> yields w0 (Forall P) (body x)) ->
  forall acc, Forall P acc -> yields w0 (Forall P) (extend_each l body acc).
Proof.
  induction l as [| x l IH]; intros Hb acc Hacc; cbn [extend_each].
  - apply yields_ret. exact Hacc.
  - eapply yields_bind; [apply Hb; left; reflexivity | intros r Hr].
    apply IH; [intros y Hy; apply Hb; right; exact Hy |].
    apply Forall_app. split; assumption.
Qed.

Lemma firstn_firstn_in {A} (n m : nat) (l : list A) (x : A) :
  (n <= m)%nat -> In x (firstn n l) -> In x (firstn m l).
Proof.
  revert m l. induction n as [| n IH]; intros m l Hnm; [intros [] |].
  destruct l as [| y l]; [intros [] |].
  destruct m as [| m]; [lia |]. simpl.
  intros [-> | H]; [left; reflexivity | right; apply (IH m); [lia | exact H]].
Qed.

(** The recovery quiz draws from the four weakest topics only. *)
Lemma yields_recovery_topics
      (w0 : World) (student_id : string) (s : StudentData) :
  yields w0
         (Forall (fun q =>
                    In (topic q)
                       (map fst (firstn 4 (sorted_by (fun x => theta (snd x))
                                                     (theta_by_topic s))))))
         (generate_recovery_quiz student_id s).
Proof.
  unfold generate_recovery_quiz.
  eapply yields_bind; [apply yields_get_world | intros w Hw].
  cbv zeta.
  set (recent := get_recent_questions w student_id RECENT_QUESTIONS_WINDOW_DAYS).
  set (sorted := sorted_by (fun x => theta (snd x)) (theta_by_topic s)).
  set (P := fun q : Question => In (topic q) (map fst (firstn 4 sorted))).
  assert (Hsel : forall n lo hi count (x : string * TopicTheta),
             (n <= 4)%nat -> In x (firstn n (firstn 5 sorted)) ->
             yields w0 (Forall P)
                    (select_questions_by_difficulty_range
                       (fst x) lo hi count recent 1)).
  { intros n lo hi count x Hn Hx.
    eapply yields_weaken;
      [| apply (yields_select_questions_by_difficulty_range w0)].
    intros a. apply Forall_impl. intros q [_ Hq]. unfold P. rewrite Hq.
    apply in_map. apply (firstn_firstn_in n 4) in Hx; [| exact Hn].
    rewrite firstn_firstn in Hx. exact Hx. }
  eapply yields_bind.
  { apply (yields_extend_each_in w0 P); [| constructor].
    intros x Hx. apply (Hsel 4%nat); [lia | exact Hx]. }
  intros easy Heasy.
  eapply yields_bind.
  { apply (yields_extend_each_in w0 P); [| exact Heasy].
    intros x Hx. apply (Hsel 2%nat); [lia | exact Hx]. }
  intros both Hboth.
  apply (yields_bind w0 (fun o => o = None)).
  { intros w1 o w1' Hw1 E.
    assert (Hsame : same_sources w w1).
    { destruct Hw as (A1 & A2 & A3), Hw1 as (B1 & B2 & B3).
      repeat split; congruence. }
    unfold recent in E.
    rewrite <- (get_recent_questions_same w w1 student_id _ Hsame) in E.
    rewrite recovery_review_never_found in E. injection E as <- <-.
    split; [exact Hw1 | reflexivity]. }
  intros review ->.
  eapply yields_bind; [apply yields_interleave | intros out Hout].
  eapply yields_bind;
    [apply yields_writes; apply log_circuit_breaker_event_sources | intros _ _].
  apply (yields_bind w0 (fun _ => True)).
  { intros w1 a w1' Hw1 [= <- <-]. split; [exact Hw1 | exact I]. }
  intros now _.
  eapply yields_bind;
    [apply yields_writes; apply save_quiz_metadata_sources | intros _ _].
  apply yields_ret.
  rewrite Forall_forall. intros q Hq.
  apply (Permutation_in _ Hout) in Hq.
  revert q Hq. rewrite <- Forall_forall. apply Forall_firstn_of. exact Hboth.
Qed.

Lemma StronglySorted_split {A} (R : A -> A -> Prop) (n : nat) (l : list A) :
  StronglySorted R l ->
  forall a b, In a (firstn n l) -> In b (skipn n l) -> R a b.
Proof.
  intros Hs. revert n. induction Hs as [| x l Hl IH Hx]; intros n a b.
  - rewrite firstn_nil. intros [].
  - destruct n as [| n]; [intros [] |]. simpl.
    intros [<- | Ha] Hb.
    + rewrite Forall_forall in Hx. apply Hx.
      rewrite <- (firstn_skipn n l). apply in_or_app. right. exact Hb.
    + apply (IH n); assumption.
Qed.

(** X22. When the circuit breaker has tripped for a student on file,
    [generate_daily_quiz] never raises: it always returns a quiz.  Every
    question of that quiz belongs to one of at most four topics of the
    student's profile, and no topic of the profile outside these four has
    a lower theta than one of them. *)
Theorem recovery_path_always_returns
        (w : World) (student_id : string) (quiz_count_arg : option Z)
        (s : StudentData) :
  get_student w student_id = Some s ->
  check_circuit_breaker w student_id = true ->
  exists quiz w' weak rest,
    generate_daily_quiz student_id quiz_count_arg w = (Ok quiz, w')
    /\ Permutation (weak ++ rest) (theta_by_topic s)
    /\ (List.length weak <= 4)%nat
    /\ (forall a b, In a weak -> In b rest -> theta (snd a) <= theta (snd b))
    /\ Forall (fun q => In (topic q) (map fst weak)) quiz.
Proof.
  intros Hs Hcb.
  destruct (generate_recovery_quiz_returns student_id s w) as (quiz & w1 & E1).
  { rewrite Hs. discriminate. }
  pose proof (keeps_generate_recovery_quiz student_id s w) as K.
  rewrite E1 in K. simpl in K.
  destruct (yields_recovery_topics w student_id s w quiz w1
                                   (same_sources_refl w) E1) as [_ Htopics].
  destruct (sorted_by_spec (fun x => theta (snd x)) (theta_by_topic s))
    as [Hperm Hsorted].
  set (sorted := sorted_by (fun x => theta (snd x)) (theta_by_topic s)) in *.
  exists quiz.
  exists (set_students w1 (dict_set (students w1) student_id
                                    (quiz_completed "recovery" (utcnow w) s))).
  exists (firstn 4 sorted), (skipn 4 sorted).
  split.
  { unfold generate_daily_quiz. unfold bind at 1. cbn [get_world].
    rewrite Hs, Hcb. unfold bind at 1. rewrite E1.
    unfold bind, update_student, get_student. rewrite K.
    unfold get_student in Hs. rewrite Hs. reflexivity. }
  split; [rewrite firstn_skipn; exact Hperm |].
  split; [rewrite length_firstn; lia |].
  split; [| exact Htopics].
  intros a b Ha Hb.
  apply (StronglySorted_split
           (fun a b => theta (snd a) <= theta (snd b)) 4 sorted Hsorted a b Ha Hb).
Qed.

Lemma recovery_path_always_returns_witness :
  exists quiz w',
    generate_daily_quiz "s1" None Sample.struggling_world = (Ok quiz, w').
Proof.
  destruct (recovery_path_always_returns
              Sample.struggling_world "s1" None Sample.struggling_profile)
    as (quiz & w' & _ & _ & E & _).
  - reflexivity.
  - reflexivity.
  - exists quiz, w'. exact E.
Defined.

(** ** The record of a generated quiz *)

Lemma enumerate_map_snd {A B} (g : A -> B) (l : list A) :
  forall start,
    map (fun iq : nat * A => g (snd iq)) (combine (seq start (List.length l)) l)
    = map g l.
Proof.
  induction l as [| x l IH]; intros start; simpl; [reflexivity |].
  rewrite IH. reflexivity.
Qed.

Lemma save_quiz_metadata_stores
      (student_id qz_id : string) (n : Z) (phase : string)
      (qs : list Question) (w w' : World) (u : unit) :
  save_quiz_metadata student_id qz_id n phase qs w = (Ok u, w') ->
  exists qd,
    dict_get (dict_get_default (quizzes w') student_id []) qz_id = Some qd
    /\ map e_question_id (quiz_questions qd) = map question_id qs
    /\ quiz_number qd = n
    /\ quiz_learning_phase qd = phase.
Proof.
  unfold save_quiz_metadata, bind, get_world, modify.
  destruct (get_student w student_id) as [s |]; [| discriminate].
  intros [= _ <-]. eexists.
  cbn [quizzes set_quizzes]. rewrite dict_get_default_set_same.
  split; [apply dict_get_set_same |].
  cbn [quiz_questions quiz_number quiz_learning_phase].
  split; [| split; reflexivity].
  rewrite map_map. cbn [e_question_id]. apply enumerate_map_snd.
Qed.

Lemma update_student_quizzes
      (student_id : string) (f : StudentData -> StudentData)
      (w w' : World) (u : unit) :
  update_student student_id f w = (Ok u, w') -> quizzes w' = quizzes w.
Proof.
  unfold update_student. destruct (get_student w student_id); [| discriminate].
  intros [= _ <-]. reflexivity.
Qed.

Ltac bind_split E :=
  apply bind_ok in E;
  let a := fresh "a" in
  let w1 := fresh "w" in
  let E1 := fresh "E" in
  destruct E as (a & w1 & E1 & E).

(** X23. A quiz returned by [generate_daily_quiz] is on record: the
    [quizzes] collection then holds, under the student, a record that
    lists the ids of the returned questions in the order returned and
    carries the phase of the call.  Its quiz number is the count the call
    worked with on the normal path, and the stored count on the recovery
    path, whatever count was passed as argument. *)
Theorem generate_daily_quiz_stores_the_quiz
        (w : World) (student_id : string) (quiz_count_arg : option Z)
        (s : StudentData) (quiz : list Question) :
  get_student w student_id = Some s ->
  fst (generate_daily_quiz student_id quiz_count_arg w) = Ok quiz ->
  exists qz_id qd,
    dict_get (dict_get_default
                (quizzes (snd (generate_daily_quiz student_id quiz_count_arg w)))
                student_id [])
             qz_id
    = Some qd
    /\ map e_question_id (quiz_questions qd) = map question_id quiz
    /\ quiz_learning_phase qd
       = recorded_phase (check_circuit_breaker w student_id)
                        (effective_quiz_count quiz_count_arg s)
    /\ quiz_number qd
       = if check_circuit_breaker w student_id
         then effective_quiz_count None s
         else effective_quiz_count quiz_count_arg s.
Proof.
  intros Hs H.
  destruct (generate_daily_quiz student_id quiz_count_arg w) as [r w'] eqn:E.
  cbn [fst snd] in *. subst r.
  unfold generate_daily_quiz in E. bind_split E. injection E0 as <- <-.
  rewrite Hs in E. fold (effective_quiz_count quiz_count_arg s) in E.
  unfold recorded_phase.
  destruct (check_circuit_breaker w student_id).
  - bind_split E. bind_split E. injection E as <- <-.
    match goal with
    | Hupd : update_student _ _ _ = _ |- _ =>
        apply update_student_quizzes in Hupd; rewrite Hupd
    end.
    unfold generate_recovery_quiz in E0.
    do 8 bind_split E0. injection E0 as <- <-.
    match goal with
    | Hsave : save_quiz_metadata _ _ _ _ _ _ = _ |- _ =>
        apply save_quiz_metadata_stores in Hsave;
        destruct Hsave as (qd & Hget & Hids & Hnum & Hphase)
    end.
    eexists. exists qd. split; [exact Hget |].
    split; [exact Hids |]. split; [exact Hphase | exact Hnum].
  - bind_split E.
    assert (Hphase : fst a
                     = if (effective_quiz_count quiz_count_arg s
                           <? EXPLORATION_END_QUIZ)%Z
                       then "exploration"%string else "exploitation"%string).
    { pose proof (determine_learning_phase_value
                    student_id s (effective_quiz_count quiz_count_arg s) w)
        as Hv.
      rewrite Hs in Hv. specialize (Hv ltac:(discriminate)).
      rewrite E0 in Hv. cbn [fst] in Hv. injection Hv as ->.
      destruct (_ <? EXPLORATION_END_QUIZ)%Z; reflexivity. }
    do 4 bind_split E. injection E as <- <-.
    match goal with
    | Hupd : update_student _ _ _ = _ |- _ =>
        apply update_student_quizzes in Hupd; rewrite Hupd
    end.
    match goal with
    | Hsave : save_quiz_metadata _ _ _ _ _ _ = _ |- _ =>
        apply save_quiz_metadata_stores in Hsave;
        destruct Hsave as (qd & Hget & Hids & Hnum & Hph)
    end.
    eexists. exists qd. split; [exact Hget |].
    split; [exact Hids |]. split; [rewrite Hph; exact Hphase | exact Hnum].
Qed.

Lemma generate_daily_quiz_stores_the_quiz_witness :
  exists qz_id qd,
    dict_get (dict_get_default
                (quizzes (snd (generate_daily_quiz "s1" None (Sample.world 14))))
                "s1" [])
             qz_id
    = Some qd
    /\ map e_question_id (quiz_questions qd)
       = map question_id [Sample.Q1; Sample.Q1].
Proof.
  destruct (generate_daily_quiz_stores_the_quiz
              (Sample.world 14) "s1" None (Sample.profile 14)
              [Sample.Q1; Sample.Q1] eq_refl sample_exploitation_quiz)
    as (qz_id & qd & Hget & Hids & _).
  exists qz_id, qd. split; [exact Hget | exact Hids].
Defined.

(** ** From an answer to the next quizzes *)

Lemma update_theta_after_response_logs
      (norm_cdf : R -> R) (student_id qid : string) (correct : bool)
      (time_taken : Z) (w : World) (th : R) :
  fst (update_theta_after_response norm_cdf student_id qid correct
                                   time_taken w) = Ok th ->
  exists r,
    In r (responses_of
            (snd (update_theta_after_response norm_cdf student_id qid correct
                                              time_taken w))
            student_id)
    /\ r_question_id r = qid
    /\ answered_at r = utcnow w.
Proof.
  unfold update_theta_after_response, bind, get_world.
  destruct (get_question w qid) as [q |]; [| discriminate].
  destruct (get_student w student_id) as [s |] eqn:Es; [| discriminate].
  set (prior := match dict_get (theta_by_topic s) (topic q) with
                | Some t => ret t
                | None => lift (get_theta_for_untested_topic
                                  norm_cdf student_id (topic q) s)
                end).
  assert (Hprior : exists res, prior w = (res, w)).
  { unfold prior. destruct (dict_get (theta_by_topic s) (topic q));
      eexists; reflexivity. }
  destruct Hprior as [res ->].
  destruct res as [t | e0]; [| discriminate].
  unfold lift.
  destruct (updated_topic_theta norm_cdf t (irt_parameters q) correct (utcnow w))
    as [[new_t d] | e1]; [| discriminate].
  cbn [fst snd]. unfold update_student. rewrite Es.
  unfold add_response, modify, ret. cbv beta iota. cbn [fst snd].
  intros _. eexists. split; [| split].
  - unfold responses_of at 1. cbn [student_responses set_student_responses].
    rewrite dict_get_default_set_same. unfold append.
    apply in_or_app. right. left. reflexivity.
  - reflexivity.
  - reflexivity.
Qed.

(** X24. A question just answered is not asked again: once
    [update_theta_after_response] has recorded an answer of the student
    to a question, no quiz that [generate_daily_quiz] returns for that
    student holds a question of that id, on any path, as long as the
    clock is less than 30 days past the answer. *)
Theorem answered_question_is_not_asked_again
        (norm_cdf : R -> R) (student_id qid : string) (correct : bool)
        (time_taken : Z) (w : World) (th : R)
        (later : Z) (quiz_count_arg : option Z) (quiz : list Question) :
  fst (update_theta_after_response norm_cdf student_id qid correct
                                   time_taken w) = Ok th ->
  (minus_days later RECENT_QUESTIONS_WINDOW_DAYS <= utcnow w)%Z ->
  fst (generate_daily_quiz
         student_id quiz_count_arg
         (set_utcnow
            (snd (update_theta_after_response norm_cdf student_id qid correct
                                              time_taken w))
            later))
  = Ok quiz ->
  Forall (fun q => question_id q <> qid) quiz.
Proof.
  intros Hanswer Hlater Hquiz.
  destruct (update_theta_after_response_logs
              norm_cdf student_id qid correct time_taken w th Hanswer)
    as (r & Hr & Hid & Hat).
  set (w1 := snd (update_theta_after_response norm_cdf student_id qid correct
                                              time_taken w)) in *.
  destruct (generate_daily_quiz student_id quiz_count_arg (set_utcnow w1 later))
    as [res w2] eqn:E.
  cbn [fst] in Hquiz. subst res.
  destruct (yields_generate_daily_quiz
              (set_utcnow w1 later) student_id quiz_count_arg
              (set_utcnow w1 later) quiz w2 (same_sources_refl _) E)
    as [_ Hq].
  revert Hq. apply Forall_impl. intros q [_ Hrecent] Heq.
  apply Hrecent. rewrite Heq, <- Hid.
  unfold get_recent_questions. apply in_map. apply filter_In.
  split; [exact Hr |].
  apply Z.leb_le. cbn [utcnow set_utcnow]. rewrite Hat. exact Hlater.
Qed.

Ltac float_eq_test :=
  match goal with
  | |- context [Reqb ?x ?y] =>
      first [ rewrite (Reqb_true x y) by float_fact
            | rewrite (Reqb_false x y) by float_fact ]
  end.

Ltac evaluate_all :=
  run_to_test; repeat (first [float_test | float_eq_test]; run_to_test).

(** After the only question on file has been answered, the next quiz of
    the student is empty. *)
Lemma sample_quiz_after_an_answer :
  fst (generate_daily_quiz
         "s1" None
         (set_utcnow
            (snd (update_theta_after_response (fun _ => 1 / 2) "s1" "Q1" true 95
                                              (Sample.world 14)))
            8640060))
  = Ok [].
Proof. evaluate_all. reflexivity. Qed.

Lemma answered_question_is_not_asked_again_witness :
  Forall (fun q => question_id q <> "Q1"%string) [].
Proof.
  destruct (update_theta_after_response_writes
              (fun _ => 1 / 2) "s1" "Q1" true 95 (Sample.world 14)
              Sample.Q1 (Sample.profile 14) Sample.ability
              eq_refl eq_refl eq_refl ltac:(simpl; lia))
    as (new_t & _ & Hfst & _).
  apply (answered_question_is_not_asked_again
           (fun _ => 1 / 2) "s1" "Q1" true 95 (Sample.world 14) (theta new_t)
           8640060 None [] Hfst).
  - vm_compute. discriminate.
  - exact sample_quiz_after_an_answer.
Defined.

(** ** The log of circuit-breaker events *)

Lemma silent_ret {A} (a : A) : silent (ret a).
Proof. intros w. split; reflexivity. Qed.

Lemma silent_raise {A} (e : exn) : silent (@raise A e).
Proof. intros w. split; reflexivity. Qed.

Lemma silent_lift {A} (r : result A) : silent (lift r).
Proof. intros w. split; reflexivity. Qed.

Lemma silent_get_world : silent get_world.
Proof. intros w. split; reflexivity. Qed.

Lemma silent_bind {A B} (m : M A) (k : A -> M B) :
  silent m -> (forall a, silent (k a)) -> silent (bind m k).
Proof.
  intros Hm Hk w. unfold bind. specialize (Hm w).
  destruct (m w) as [[a | e] w1]; simpl in *.
  - destruct (Hk a w1) as [H1 H2]. destruct Hm as [H3 H4].
    split; congruence.
  - exact Hm.
Qed.

Lemma silent_draw : silent draw.
Proof. intros w. unfold draw. destruct (rng w); split; reflexivity. Qed.

Lemma silent_update_student
      (student_id : string) (f : StudentData -> StudentData) :
  silent (update_student student_id f).
Proof.
  intros w. unfold update_student.
  destruct (get_student w student_id); split; reflexivity.
Qed.

Lemma silent_interleave (qs : list Question) :
  silent (interleave_questions_by_topic qs).
Proof.
  intros w.
  destruct (interleave_questions_by_topic_spec qs w)
    as (out & w' & E & _ & _ & Hdb).
  rewrite E. simpl. destruct Hdb as (_ & _ & _ & _ & H5 & H6).
  split; assumption.
Qed.

Create HintDb silent.
#[local] Hint Resolve silent_ret silent_raise silent_lift silent_get_world
  silent_draw silent_update_student silent_interleave : silent.

Ltac silent_step :=
  match goal with
  | |- silent (bind _ _) => apply silent_bind; [| intros ?]
  | |- silent (match ?x with _ => _ end) => destruct x
  | |- silent (fun w => (Ok _, w)) => intros ?; split; reflexivity
  | |- silent (modify _) => intros ?; split; reflexivity
  | |- _ => solve [auto with silent]
  end.

Ltac silent_tac := repeat silent_step.

Lemma silent_random_choice {A} (l : list A) : silent (random_choice l).
Proof. unfold random_choice. silent_tac. Qed.

Lemma silent_sample_draws {A} (k : nat) :
  forall l : list A, silent (sample_draws l k).
Proof. induction k as [| k IH]; intros l; cbn [sample_draws]; silent_tac. Qed.

Lemma silent_random_sample {A} (l : list A) (k : nat) :
  silent (random_sample l k).
Proof. unfold random_sample. silent_tac. apply silent_sample_draws. Qed.

#[local] Hint Resolve silent_random_choice silent_random_sample : silent.

Lemma silent_select_by_difficulty
      (tp : string) (lo hi : R) (count : nat) (recent : list string) (a_min : R) :
  silent (select_questions_by_difficulty_range tp lo hi count recent a_min).
Proof. unfold select_questions_by_difficulty_range, iterate. silent_tac. Qed.

Lemma silent_previously_correct
      (student_id : string) (recent from_topics : list string) :
  silent (get_previously_correct_question student_id recent from_topics).
Proof. unfold get_previously_correct_question. silent_tac. Qed.

Lemma silent_save_quiz_metadata
      (student_id qz_id : string) (n : Z) (phase : string) (qs : list Question) :
  silent (save_quiz_metadata student_id qz_id n phase qs).
Proof. unfold save_quiz_metadata. silent_tac. Qed.

Lemma silent_extend_each {A B} (body : A -> M (list B)) (l : list A) :
  (forall x, silent (body x)) ->
  forall acc, silent (extend_each l body acc).
Proof.
  intros Hb. induction l as [| x l IH]; intros acc; cbn [extend_each];
    silent_tac.
Qed.

Lemma silent_exploitation_questions
      (student_id : string) (s : StudentData) (recent : list string) :
  silent (exploitation_questions student_id s recent).
Proof. unfold exploitation_questions. silent_tac. Qed.

Lemma silent_determine_learning_phase
      (student_id : string) (s : StudentData) (q : Z) :
  silent (determine_learning_phase student_id s q).
Proof. unfold determine_learning_phase. silent_tac. Qed.

#[local] Hint Resolve silent_select_by_difficulty silent_previously_correct
  silent_save_quiz_metadata silent_exploitation_questions
  silent_determine_learning_phase : silent.

Lemma silent_run {A} (m : M A) (w w' : World) (a : A) :
  silent m -> m w = (Ok a, w') ->
  system_events w' = system_events w /\ utcnow w' = utcnow w.
Proof. intros H E. specialize (H w). rewrite E in H. exact H. Qed.

(** X25. Circuit-breaker events are logged by recovery quizzes only, and
    once each: a call of [generate_daily_quiz] that returns a quiz leaves
    [system_events] as it was when the circuit breaker did not trip;
    when it tripped, [system_events] has grown by exactly one entry at
    its end, a [circuit_breaker_triggered] event of the student with
    reason [consecutive_failures], the recovery flag set and the clock as
    timestamp. *)
Theorem circuit_breaker_events_of_a_quiz
        (w : World) (student_id : string) (quiz_count_arg : option Z)
        (quiz : list Question) :
  fst (generate_daily_quiz student_id quiz_count_arg w) = Ok quiz ->
  system_events (snd (generate_daily_quiz student_id quiz_count_arg w))
  = if check_circuit_breaker w student_id
    then system_events w
         ++ [ {| ev_student_id := student_id;
                 event_type := "circuit_breaker_triggered";
                 trigger_reason := "consecutive_failures";
                 recovery_quiz_generated := true;
                 timestamp := utcnow w |} ]
    else system_events w.
Proof.
  intros H.
  destruct (generate_daily_quiz student_id quiz_count_arg w) as [r w'] eqn:E.
  cbn [fst snd] in *. subst r.
  unfold generate_daily_quiz in E. bind_split E. injection E0 as <- <-.
  destruct (get_student w student_id) as [s |]; [| discriminate].
  destruct (check_circuit_breaker w student_id).
  - bind_split E. bind_split E. injection E as <- <-.
    match goal with
    | Hupd : update_student _ _ _ = _ |- _ =>
        apply (silent_run _ _ _ _ (silent_update_student _ _)) in Hupd;
        destruct Hupd as [-> _]
    end.
    unfold generate_recovery_quiz in E0.
    bind_split E0. injection E as <- <-.
    bind_split E0.
    apply (silent_run _ _ _ _
             (silent_extend_each _ _
                (fun x => silent_select_by_difficulty _ _ _ _ _ _) _)) in E.
    destruct E as [Ee1 Ec1].
    bind_split E0.
    apply (silent_run _ _ _ _
             (silent_extend_each _ _
                (fun x => silent_select_by_difficulty _ _ _ _ _ _) _)) in E.
    destruct E as [Ee2 Ec2].
    bind_split E0.
    apply (silent_run _ _ _ _ (silent_previously_correct _ _ _)) in E.
    destruct E as [Ee3 Ec3].
    bind_split E0.
    apply (silent_run _ _ _ _ (silent_interleave _)) in E.
    destruct E as [Ee4 Ec4].
    bind_split E0.
    unfold log_circuit_breaker_event, modify in E. injection E as _ <-.
    bind_split E0. injection E as _ <-.
    bind_split E0.
    apply (silent_run _ _ _ _ (silent_save_quiz_metadata _ _ _ _ _)) in E.
    destruct E as [Ee5 _].
    injection E0 as _ <-.
    rewrite Ee5. cbn [system_events set_system_events]. unfold append.
    rewrite Ee4, Ee3, Ee2, Ee1, Ec4, Ec3, Ec2, Ec1. reflexivity.
  - refine (proj1 (silent_run _ w w' quiz _ E)).
    silent_tac.
Qed.

Lemma circuit_breaker_events_of_a_quiz_witness :
  system_events (snd (generate_daily_quiz "s1" None (Sample.world 14)))
  = system_events (Sample.world 14).
Proof.
  apply (circuit_breaker_events_of_a_quiz
           (Sample.world 14) "s1" None [Sample.Q1; Sample.Q1]
           sample_exploitation_quiz).
Defined.
